(** * PGDN scoring library: a shallow embedding of the two scorers

    The development follows [pgdn/scoring/default_scorer.py] and
    [pgdn/scoring/advanced_scorer.py].  Python values are modelled as the
    scorers use them:

    - [int] is [Z]; [float] is IEEE-754 binary64, taken from the executable
      specification [SpecFloat] of the Standard Library (precision 53,
      [emax] 1024, round to nearest even), so [18 * 1.2] evaluates to
      21.599999999999998 exactly as in CPython;
    - [str] is [string]; only ASCII text is modelled ([lower] maps A-Z);
    - a [dict] whose iteration order is observable is an association list;
    - an exception is a value of [exn] carried by the [result] monad.

    The clock read by [datetime.utcnow()] is an explicit argument, and the
    SHA-256 fingerprint of the input is kept as a symbolic term. *)

From Stdlib Require Import ZArith List String Ascii Bool Lia Permutation.
From Stdlib Require Import Floats.SpecFloat.
From Stdlib Require Import Decimal DecimalString.
Import ListNotations.

Local Open Scope string_scope.
Local Open Scope list_scope.
Local Open Scope Z_scope.

(** ** The Python fragment used by the scorers *)

Module Py.

(** *** Exceptions *)

Inductive exn : Type :=
| AttributeError
| KeyError
| TypeError
| ValueError
| ZeroDivisionError.

Inductive result (A : Type) : Type :=
| Ok (a : A)
| Raise (e : exn).

Arguments Ok {A} a.
Arguments Raise {A} e.

Definition bind {A B : Type} (m : result A) (k : A -> result B) : result B :=
  match m with
  | Ok a => k a
  | Raise e => Raise e
  end.

(** *** Numbers *)

Definition prec : Z := 53.
Definition emax : Z := 1024.

Definition float : Type := spec_float.

(** [float(z)]: the correctly rounded conversion.  CPython raises
    [OverflowError] above the double range (about 1.8e308); every integer
    converted by the scorers is bounded by a small multiple of the number
    of entries of the input record, so that branch is not modelled. *)
Definition float_of_int (z : Z) : float := binary_normalize prec emax z 0 false.

(** A decimal literal [n/d] denotes the double nearest to that rational. *)
Definition literal (n d : Z) : float :=
  SFdiv prec emax (float_of_int n) (float_of_int d).

Inductive num : Type :=
| Int (z : Z)
| Float (f : float).

Definition to_float (a : num) : float :=
  match a with
  | Int z => float_of_int z
  | Float f => f
  end.

Definition add (a b : num) : num :=
  match a, b with
  | Int x, Int y => Int (x + y)
  | _, _ => Float (SFadd prec emax (to_float a) (to_float b))
  end.

Definition sub (a b : num) : num :=
  match a, b with
  | Int x, Int y => Int (x - y)
  | _, _ => Float (SFsub prec emax (to_float a) (to_float b))
  end.

Definition mul (a b : num) : num :=
  match a, b with
  | Int x, Int y => Int (x * y)
  | _, _ => Float (SFmul prec emax (to_float a) (to_float b))
  end.

Definition is_zero (f : float) : bool :=
  match f with
  | S754_zero _ => true
  | _ => false
  end.

(** [a / b] with a float operand. *)
Definition truediv (a : num) (b : float) : result num :=
  if is_zero b then Raise ZeroDivisionError
  else Ok (Float (SFdiv prec emax (to_float a) b)).

(** Comparison of a float with an int is exact in CPython: no conversion
    of the int takes place. *)
Definition cmp_float_int (f : float) (z : Z) : option comparison :=
  match f with
  | S754_nan => None
  | S754_infinity s => Some (if s then Lt else Gt)
  | S754_zero _ => Some (0 ?= z)
  | S754_finite s m e =>
      let v := cond_Zopp s (Zpos m) in
      Some (if 0 <=? e then (v * 2 ^ e ?= z) else (v ?= z * 2 ^ (- e)))
  end.

Definition cmp (a b : num) : option comparison :=
  match a, b with
  | Int x, Int y => Some (x ?= y)
  | Float x, Float y => SFcompare x y
  | Float x, Int y => cmp_float_int x y
  | Int x, Float y => option_map CompOpp (cmp_float_int y x)
  end.

Definition lt (a b : num) : bool :=
  match cmp a b with Some Lt => true | _ => false end.

Definition gt (a b : num) : bool :=
  match cmp a b with Some Gt => true | _ => false end.

Definition le (a b : num) : bool :=
  match cmp a b with Some Lt | Some Eq => true | _ => false end.

Definition ge (a b : num) : bool :=
  match cmp a b with Some Gt | Some Eq => true | _ => false end.

Definition eq (a b : num) : bool :=
  match cmp a b with Some Eq => true | _ => false end.

(** The builtins [min(a, b)] and [max(a, b)]: the first argument is kept
    unless the second one compares strictly below (above) it. *)
Definition min (a b : num) : num := if lt b a then b else a.
Definition max (a b : num) : num := if gt b a then b else a.

(** [isinstance(a, int)] and [float.is_integer]. *)
Definition is_int (a : num) : bool :=
  match a with
  | Int _ => true
  | Float _ => false
  end.

Definition is_integral (a : num) : bool :=
  match a with
  | Int _ => true
  | Float (S754_zero _) => true
  | Float (S754_finite _ m e) =>
      if 0 <=? e then true else (Zpos m mod 2 ^ (- e) =? 0)
  | Float _ => false
  end.

(** *** Strings *)

Definition lower_ascii (c : ascii) : ascii :=
  let n := N_of_ascii c in
  if ((65 <=? n) && (n <=? 90))%N then ascii_of_N (n + 32) else c.

Fixpoint lower (s : string) : string :=
  match s with
  | EmptyString => EmptyString
  | String c t => String (lower_ascii c) (lower t)
  end.

(** [sub in s] for two strings. *)
Fixpoint contains (sub s : string) : bool :=
  String.prefix sub s
  || match s with
     | EmptyString => false
     | String _ t => contains sub t
     end.

Definition startswith (s p : string) : bool := String.prefix p s.

Definition str_of_int (z : Z) : string := NilZero.string_of_int (Z.to_int z).

(** [repr] of a list of ints, as an f-string prints it. *)
Definition repr_int_list (l : list Z) : string :=
  ("[" ++ String.concat ", " (map str_of_int l) ++ "]")%string.

(** [x in l] for a list of ints. *)
Definition mem (x : Z) (l : list Z) : bool := existsb (Z.eqb x) l.

Definition len {A : Type} (l : list A) : Z := Z.of_nat (List.length l).

Definition hex_digit (c : ascii) : option Z :=
  let n := Z.of_N (N_of_ascii c) in
  if (48 <=? n) && (n <=? 57) then Some (n - 48)
  else if (97 <=? n) && (n <=? 102) then Some (n - 87)
  else if (65 <=? n) && (n <=? 70) then Some (n - 55)
  else None.

Fixpoint int16_from (acc : Z) (s : string) : option Z :=
  match s with
  | EmptyString => Some acc
  | String c t =>
      match hex_digit c with
      | Some d => int16_from (16 * acc + d) t
      | None => None
      end
  end.

(** [int(s, 16)] on a string of hexadecimal digits. *)
Definition int16 (s : string) : result Z :=
  match s with
  | EmptyString => Raise ValueError
  | _ => match int16_from 0 s with
         | Some z => Ok z
         | None => Raise ValueError
         end
  end.

(** *** Dictionaries with string keys, in insertion order *)

Definition dict (V : Type) : Type := list (string * V).

Fixpoint get {V : Type} (k : string) (d : dict V) : option V :=
  match d with
  | [] => None
  | (k', v) :: t => if String.eqb k k' then Some v else get k t
  end.

(** [d[k] = v]: an existing key keeps its position. *)
Fixpoint set {V : Type} (k : string) (v : V) (d : dict V) : dict V :=
  match d with
  | [] => [(k, v)]
  | (k', v') :: t =>
      if String.eqb k k' then (k, v) :: t else (k', v') :: set k v t
  end.

(** [{**d, k1: v1, ..., kn: vn}]. *)
Definition update {V : Type} (d : dict V) (items : dict V) : dict V :=
  fold_left (fun acc kv => set (fst kv) (snd kv) acc) items d.

(** [d[k]] *)
Definition item {V : Type} (k : string) (d : dict V) : result V :=
  match get k d with
  | Some v => Ok v
  | None => Raise KeyError
  end.

(** Values that are only passed through (JSON-like). *)
#[local] Unset Elimination Schemes.
Inductive obj : Type :=
| ONone
| OBool (b : bool)
| OInt (z : Z)
| OStr (s : string)
| OList (l : list obj)
| ODict (d : list (string * obj)).
#[local] Set Elimination Schemes.

End Py.

Notation "x <- m ;; k" := (Py.bind m (fun x => k))
  (at level 61, m at next level, right associativity).

(** ** [hashlib.md5] (RFC 1321) *)

Module Hashlib.

Definition w32 (x : Z) : Z := x mod 2 ^ 32.

Definition rotl32 (x c : Z) : Z :=
  w32 (Z.lor (Z.shiftl x c) (Z.shiftr x (32 - c))).

Definition not32 (x : Z) : Z := Z.lxor x 0xffffffff.

Definition shifts : list Z :=
  [7; 12; 17; 22; 7; 12; 17; 22; 7; 12; 17; 22; 7; 12; 17; 22;
   5; 9; 14; 20; 5; 9; 14; 20; 5; 9; 14; 20; 5; 9; 14; 20;
   4; 11; 16; 23; 4; 11; 16; 23; 4; 11; 16; 23; 4; 11; 16; 23;
   6; 10; 15; 21; 6; 10; 15; 21; 6; 10; 15; 21; 6; 10; 15; 21].

Definition sines : list Z :=
  [0xd76aa478; 0xe8c7b756; 0x242070db; 0xc1bdceee;
   0xf57c0faf; 0x4787c62a; 0xa8304613; 0xfd469501;
   0x698098d8; 0x8b44f7af; 0xffff5bb1; 0x895cd7be;
   0x6b901122; 0xfd987193; 0xa679438e; 0x49b40821;
   0xf61e2562; 0xc040b340; 0x265e5a51; 0xe9b6c7aa;
   0xd62f105d; 0x02441453; 0xd8a1e681; 0xe7d3fbc8;
   0x21e1cde6; 0xc33707d6; 0xf4d50d87; 0x455a14ed;
   0xa9e3e905; 0xfcefa3f8; 0x676f02d9; 0x8d2a4c8a;
   0xfffa3942; 0x8771f681; 0x6d9d6122; 0xfde5380c;
   0xa4beea44; 0x4bdecfa9; 0xf6bb4b60; 0xbebfbc70;
   0x289b7ec6; 0xeaa127fa; 0xd4ef3085; 0x04881d05;
   0xd9d4d039; 0xe6db99e5; 0x1fa27cf8; 0xc4ac5665;
   0xf4292244; 0x432aff97; 0xab9423a7; 0xfc93a039;
   0x655b59c3; 0x8f0ccc92; 0xffeff47d; 0x85845dd1;
   0x6fa87e4f; 0xfe2ce6e0; 0xa3014314; 0x4e0811a1;
   0xf7537e82; 0xbd3af235; 0x2ad7d2bb; 0xeb86d391].

Definition bytes_of_string (s : string) : list Z :=
  map (fun c => Z.of_N (N_of_ascii c)) (list_ascii_of_string s).

Definition le_bytes (n : nat) (x : Z) : list Z :=
  map (fun i => Z.shiftr x (8 * Z.of_nat i) mod 256) (seq 0 n).

Definition pad (msg : list Z) : list Z :=
  let l := Z.of_nat (List.length msg) in
  let zeros := Z.to_nat ((55 - l) mod 64) in
  msg ++ [128] ++ repeat 0 zeros ++ le_bytes 8 ((8 * l) mod 2 ^ 64).

Definition word_at (block : list Z) (g : Z) : Z :=
  let b := fun k => nth (Z.to_nat (4 * g + k)) block 0 in
  b 0 + Z.shiftl (b 1) 8 + Z.shiftl (b 2) 16 + Z.shiftl (b 3) 24.

Definition round (block : list Z) (st : Z * Z * Z * Z) (i : Z)
  : Z * Z * Z * Z :=
  let '(a, b, c, d) := st in
  let '(f, g) :=
    if i <? 16 then (Z.lor (Z.land b c) (Z.land (not32 b) d), i)
    else if i <? 32 then
      (Z.lor (Z.land d b) (Z.land (not32 d) c), (5 * i + 1) mod 16)
    else if i <? 48 then (Z.lxor b (Z.lxor c d), (3 * i + 5) mod 16)
    else (Z.lxor c (Z.lor b (not32 d)), (7 * i) mod 16) in
  let f' := w32 (f + a + nth (Z.to_nat i) sines 0 + word_at block g) in
  (d, w32 (b + rotl32 f' (nth (Z.to_nat i) shifts 0)), b, c).

Definition compress (h : Z * Z * Z * Z) (block : list Z) : Z * Z * Z * Z :=
  let '(a0, b0, c0, d0) := h in
  let '(a, b, c, d) :=
    fold_left (round block) (map Z.of_nat (seq 0 64)) h in
  (w32 (a0 + a), w32 (b0 + b), w32 (c0 + c), w32 (d0 + d)).

Fixpoint blocks (n : nat) (l : list Z) : list (list Z) :=
  match n with
  | O => []
  | S n' => firstn 64 l :: blocks n' (skipn 64 l)
  end.

Definition digest (msg : list Z) : list Z :=
  let p := pad msg in
  let '(a, b, c, d) :=
    fold_left compress (blocks (Nat.div (List.length p) 64) p)
      (0x67452301, 0xefcdab89, 0x98badcfe, 0x10325476) in
  le_bytes 4 a ++ le_bytes 4 b ++ le_bytes 4 c ++ le_bytes 4 d.

Definition hex_char (n : Z) : ascii :=
  let k := n mod 16 in
  ascii_of_N (Z.to_N (if k <? 10 then 48 + k else 87 + k)).

Fixpoint hex_of_bytes (l : list Z) : string :=
  match l with
  | [] => EmptyString
  | b :: t => String (hex_char (b / 16)) (String (hex_char b) (hex_of_bytes t))
  end.

(** [hashlib.md5(s.encode()).hexdigest()] *)
Definition md5_hexdigest (s : string) : string :=
  hex_of_bytes (digest (bytes_of_string s)).

End Hashlib.

(** ** Data model *)

(** The [tls] mapping of a scan record: field name to string or [None]. *)
Definition tls_info : Type := Py.dict (option string).

(** A well-formed scan record.  Every key is optional ([None]: the key is
    missing); [tls] may also be present with the value [None]. *)
Module ScanData.
Record t : Type := make {
  ip : option string;
  open_ports : option (list Z);
  tls : option (option tls_info);
  vulns : option (Py.dict string);
  docker_exposure : option Py.obj
}.
End ScanData.

(** An f-string whose number has not been rendered yet. *)
Inductive fpart : Type :=
| Lit (s : string)
| Num (n : Py.num).

Module Metrics.
Record t : Type := make {
  scorer_version : string;
  risk_factors : Py.dict string;
  security_grade : string;
  compliance_score : Z;
  tls_grade : option string
}.

Definition set_risk_factor (k v : string) (m : t) : t :=
  make (scorer_version m) (Py.set k v (risk_factors m)) (security_grade m)
       (compliance_score m) (tls_grade m).

Definition set_security_grade (g : string) (m : t) : t :=
  make (scorer_version m) (risk_factors m) g (compliance_score m)
       (tls_grade m).

Definition set_compliance_score (c : Z) (m : t) : t :=
  make (scorer_version m) (risk_factors m) (security_grade m) c
       (tls_grade m).

Definition set_tls_grade (g : string) (m : t) : t :=
  make (scorer_version m) (risk_factors m) (security_grade m)
       (compliance_score m) (Some g).
End Metrics.

(** The bundle returned by [_apply_ml_analysis]. *)
Module MlAnalysis.
Record t : Type := make {
  score_adjustment : Z;
  ml_flags : list string;
  ml_risk_level : string;
  ml_confidence : Py.float;
  analysis_methods : list string
}.
End MlAnalysis.

(** Values stored in a report.  [VSha256 d] stands for the SHA-256
    hexdigest of [json.dumps(d, sort_keys=True)]; it is kept symbolic. *)
Inductive value : Type :=
| VStr (s : string)
| VNum (n : Py.num)
| VBool (b : bool)
| VList (l : list string)
| VFmt (f : list fpart)
| VObj (o : Py.obj)
| VMetrics (m : Metrics.t)
| VMl (m : MlAnalysis.t)
| VSha256 (d : ScanData.t).

Definition report : Type := Py.dict value.

Definition as_num (v : value) : Py.result Py.num :=
  match v with
  | VNum n => Py.Ok n
  | _ => Py.Raise Py.TypeError
  end.

Definition as_list (v : value) : Py.result (list string) :=
  match v with
  | VList l => Py.Ok l
  | _ => Py.Raise Py.TypeError
  end.

(** [self.weights] *)
Module Weights.
Record t : Type := make {
  docker_exposure : Z;
  ssh_open : Z;
  tls_issues : Z;
  vulnerabilities : Z;
  open_ports : Z;
  database_exposure : Z
}.
End Weights.

(** The scorer object ([self]). *)
Module Scorer.
Record t : Type := make {
  version : string;
  weights : Weights.t;
  ml_weights : Py.dict Py.float
}.
End Scorer.

(** The local variables [score], [flags] and [pgdn_metrics] of
    [DefaultScorer.score]. *)
Module Locals.
Record t : Type := make {
  score : Py.num;
  flags : list string;
  pgdn_metrics : Metrics.t
}.
End Locals.

(** ** Truthiness and [dict.get] on the [tls] value *)

(** [bool(tls)] for the value of [scan_data.get("tls", {})]. *)
Definition tls_truthy (tls : option tls_info) : bool :=
  match tls with
  | None => false
  | Some [] => false
  | Some (_ :: _) => true
  end.

(** [bool(v)] for a string or [None]. *)
Definition str_truthy (v : option string) : bool :=
  match v with
  | None => false
  | Some EmptyString => false
  | Some (String _ _) => true
  end.

(** [tls.get(k, default)]; [None] has no attribute [get]. *)
Definition tls_get (tls : option tls_info) (k : string)
  (default : option string) : Py.result (option string) :=
  match tls with
  | None => Py.Raise Py.AttributeError
  | Some d =>
      Py.Ok match Py.get k d with
            | Some v => v
            | None => default
            end
  end.

(** [str(v)] for a string or [None]. *)
Definition str_of (v : option string) : string :=
  match v with
  | None => "None"
  | Some s => s
  end.

(** [scan_data.get(k, default)] *)
Definition get_default {A : Type} (field : option A) (default : A) : A :=
  match field with
  | Some a => a
  | None => default
  end.

(** ** [DefaultScorer] *)

Module DefaultScorer.

(** [__init__] *)
Definition init : Scorer.t :=
  Scorer.make "1.0.0"
    (Weights.make 35 12 28 18 2 30)
    [].

Definition critical_keywords : list string :=
  ["critical"; "rce"; "remote code execution"; "unauthenticated"].
Definition high_keywords : list string :=
  ["high"; "privilege escalation"; "buffer overflow"].
Definition medium_keywords : list string :=
  ["medium"; "dos"; "denial of service"; "xss"].

Definition _assess_vuln_severity (vuln_id vuln_desc : string) : string :=
  let vuln_text := Py.lower (vuln_id ++ " " ++ vuln_desc)%string in
  if existsb (fun keyword => Py.contains keyword vuln_text) critical_keywords
  then "CRITICAL"
  else if existsb (fun keyword => Py.contains keyword vuln_text) high_keywords
  then "HIGH"
  else if existsb (fun keyword => Py.contains keyword vuln_text) medium_keywords
  then "MEDIUM"
  else "LOW".

Definition str_in (s : string) (l : list string) : bool :=
  existsb (String.eqb s) l.

Definition _calculate_pgdn_risk (score : Py.num) (metrics : Metrics.t)
  : string :=
  if Py.ge score (Py.Int 95)
     && str_in (Metrics.security_grade metrics) ["A+"; "A"]
  then "MINIMAL"
  else if Py.ge score (Py.Int 85)
          && str_in (Metrics.security_grade metrics) ["A+"; "A"; "B"]
  then "LOW"
  else if Py.ge score (Py.Int 70) then "MODERATE"
  else if Py.ge score (Py.Int 50) then "HIGH"
  else "CRITICAL".

(** The blocks of [score], in source order.  Each one takes the local
    variables before the block and returns them after it. *)

(** Enhanced Docker analysis *)
Definition docker_analysis (self : Scorer.t) (open_ports : list Z)
  (st : Locals.t) : Locals.t :=
  if Py.mem 2375 open_ports then
    Locals.make
      (Py.sub (Locals.score st)
         (Py.Int (Weights.docker_exposure (Scorer.weights self))))
      (Locals.flags st ++ ["CRITICAL: Docker socket exposed (unencrypted)"])
      (Metrics.set_security_grade "F"
         (Metrics.set_risk_factor "docker" "CRITICAL" (Locals.pgdn_metrics st)))
  else if Py.mem 2376 open_ports then
    Locals.make
      (Py.sub (Locals.score st) (Py.Int 15))
      (Locals.flags st ++ ["WARNING: Docker TLS socket exposed"])
      (Metrics.set_risk_factor "docker" "MEDIUM" (Locals.pgdn_metrics st))
  else st.

(** Enhanced SSH analysis *)
Definition ssh_analysis (self : Scorer.t) (open_ports : list Z)
  (st : Locals.t) : Locals.t :=
  if Py.mem 22 open_ports then
    Locals.make
      (Py.sub (Locals.score st)
         (Py.Int (Weights.ssh_open (Scorer.weights self))))
      (Locals.flags st ++ ["SSH port exposed"])
      (Metrics.set_risk_factor "ssh" "MEDIUM" (Locals.pgdn_metrics st))
  else st.

(** Check for non-standard SSH ports *)
Definition ssh_alt_analysis (open_ports : list Z) (st : Locals.t)
  : Locals.t :=
  let ssh_alt_ports :=
    filter (fun p => Py.mem p [2222; 2200; 2022]) open_ports in
  match ssh_alt_ports with
  | _ :: _ =>
      Locals.make
        (Py.sub (Locals.score st) (Py.Int 8))
        (Locals.flags st
           ++ [("Alternative SSH ports detected: "
                  ++ Py.repr_int_list ssh_alt_ports)%string])
        (Locals.pgdn_metrics st)
  | [] => st
  end.

(** The condition of the TLS block:
    [not tls or tls.get("issuer") in (None, "Self-signed")
     or not tls.get("expiry")], evaluated left to right. *)
Definition tls_has_issues (tls : option tls_info) : Py.result bool :=
  if negb (tls_truthy tls) then Py.Ok true
  else
    issuer <- tls_get tls "issuer" None ;;
    match issuer with
    | None => Py.Ok true
    | Some i =>
        if String.eqb i "Self-signed" then Py.Ok true
        else
          expiry <- tls_get tls "expiry" None ;;
          Py.Ok (negb (str_truthy expiry))
    end.

(** Grade TLS quality *)
Definition grade_tls (issuer : string) : string :=
  if Py.contains "let's encrypt" issuer then "B"
  else if existsb (fun ca => Py.contains ca issuer)
            ["digicert"; "comodo"; "globalsign"]
  then "A"
  else "C".

(** Enhanced TLS analysis *)
Definition tls_analysis (self : Scorer.t) (tls : option tls_info)
  (st : Locals.t) : Py.result Locals.t :=
  issues <- tls_has_issues tls ;;
  if issues then
    let m :=
      Metrics.set_risk_factor "tls" "CRITICAL" (Locals.pgdn_metrics st) in
    Py.Ok
      (Locals.make
         (Py.sub (Locals.score st)
            (Py.Int (Weights.tls_issues (Scorer.weights self))))
         (Locals.flags st ++ ["TLS configuration critical issues"])
         (if negb (str_in (Metrics.security_grade m) ["F"])
          then Metrics.set_security_grade "D" m
          else m))
  else
    raw <- tls_get tls "issuer" (Some "") ;;
    let issuer := Py.lower (str_of raw) in
    Py.Ok
      (Locals.make (Locals.score st) (Locals.flags st)
         (Metrics.set_tls_grade (grade_tls issuer) (Locals.pgdn_metrics st))).

(** The body of the loop over [vulns.items()]. *)
Definition vuln_penalty (self : Scorer.t) (severity : string) : Py.num :=
  let penalty := Py.Int (Weights.vulnerabilities (Scorer.weights self)) in
  if String.eqb severity "CRITICAL" then
    Py.mul penalty (Py.Float (Py.literal 15 10))
  else if String.eqb severity "HIGH" then
    Py.mul penalty (Py.Float (Py.literal 12 10))
  else penalty.

Definition vuln_step (self : Scorer.t) (st : Locals.t)
  (entry : string * string) : Locals.t :=
  let '(vuln_id, vuln_desc) := entry in
  let severity := _assess_vuln_severity vuln_id vuln_desc in
  let penalty := vuln_penalty self severity in
  Locals.make
    (Py.sub (Locals.score st) penalty)
    (Locals.flags st
       ++ [("Vulnerability: " ++ vuln_id ++ " (" ++ severity ++ ")")%string])
    (Metrics.set_risk_factor ("vuln_" ++ vuln_id)%string severity
       (Locals.pgdn_metrics st)).

(** Enhanced vulnerability analysis *)
Definition vuln_analysis (self : Scorer.t) (vulns : Py.dict string)
  (st : Locals.t) : Locals.t :=
  fold_left (vuln_step self) vulns st.

(** Database exposure analysis *)
Definition database_analysis (self : Scorer.t) (open_ports : list Z)
  (st : Locals.t) : Locals.t :=
  let db_ports :=
    filter (fun p => Py.mem p [3306; 5432; 27017; 6379; 1433; 1521])
      open_ports in
  match db_ports with
  | _ :: _ =>
      Locals.make
        (Py.sub (Locals.score st)
           (Py.Int (Weights.database_exposure (Scorer.weights self))))
        (Locals.flags st
           ++ [("CRITICAL: Database ports exposed: "
                  ++ Py.repr_int_list db_ports)%string])
        (Metrics.set_security_grade "F"
           (Metrics.set_risk_factor "database" "CRITICAL"
              (Locals.pgdn_metrics st)))
  | [] => st
  end.

(** Port exposure penalty *)
Definition port_exposure (self : Scorer.t) (open_ports : list Z)
  (st : Locals.t) : Locals.t :=
  if 5 <? Py.len open_ports then
    let penalty :=
      (Py.len open_ports - 5) * Weights.open_ports (Scorer.weights self) in
    Locals.make
      (Py.sub (Locals.score st) (Py.Int penalty))
      (Locals.flags st
         ++ [("Excessive port exposure: "
                ++ Py.str_of_int (Py.len open_ports) ++ " ports")%string])
      (Locals.pgdn_metrics st)
  else st.

(** Compliance scoring *)
Definition compliance (st : Locals.t) : Locals.t :=
  let compliance_issues :=
    Py.len (filter (fun f => Py.contains "CRITICAL" f) (Locals.flags st)) in
  Locals.make (Locals.score st) (Locals.flags st)
    (Metrics.set_compliance_score (Z.max 0 (100 - compliance_issues * 25))
       (Locals.pgdn_metrics st)).

(** Ensure score bounds *)
Definition clamp (score : Py.num) : Py.num :=
  Py.max (Py.Int 0) (Py.min (Py.Int 100) score).

(** The local variables when the rules have run, before the report is
    assembled. *)
Definition run_rules (self : Scorer.t) (scan_data : ScanData.t)
  : Py.result Locals.t :=
  let st :=
    Locals.make (Py.Int 100) []
      (Metrics.make (Scorer.version self) [] "A+" 100 None) in
  let open_ports := get_default (ScanData.open_ports scan_data) [] in
  let st := docker_analysis self open_ports st in
  let st := ssh_analysis self open_ports st in
  let st := ssh_alt_analysis open_ports st in
  let tls := get_default (ScanData.tls scan_data) (Some []) in
  st <- tls_analysis self tls st ;;
  let vulns := get_default (ScanData.vulns scan_data) [] in
  let st := vuln_analysis self vulns st in
  let st := database_analysis self open_ports st in
  let st := port_exposure self open_ports st in
  let st := compliance st in
  Py.Ok (Locals.make (clamp (Locals.score st)) (Locals.flags st)
           (Locals.pgdn_metrics st)).

(** The dictionary returned by [score]; [now] is
    [datetime.utcnow().isoformat()]. *)
Definition build_report (self : Scorer.t) (now : string)
  (scan_data : ScanData.t) (st : Locals.t) : report :=
  let score := Locals.score st in
  let flags := Locals.flags st in
  let pgdn_metrics := Locals.pgdn_metrics st in
  let risk_level := _calculate_pgdn_risk score pgdn_metrics in
  let summary :=
    [Lit "PGDN Trust Score: "; Num score;
     Lit ("/100 (v" ++ Scorer.version self ++ "). Grade: "
            ++ Metrics.security_grade pgdn_metrics
            ++ ". Risk: " ++ risk_level)%string] in
  [("ip", VStr (get_default (ScanData.ip scan_data) "unknown"));
   ("score", VNum score);
   ("flags", VList flags);
   ("summary", VFmt summary);
   ("timestamp", VStr now);
   ("hash", VSha256 scan_data);
   ("docker_exposure",
     VObj (get_default (ScanData.docker_exposure scan_data)
             (Py.ODict [("exposed", Py.OBool false)])));
   ("pgdn_metrics", VMetrics pgdn_metrics);
   ("pgdn_risk_level", VStr risk_level);
   ("scorer_id", VStr "pgdn.scoring.default_scorer.DefaultScorer");
   ("enhanced_analysis", VBool true)].

(** [score(self, scan_data)] *)
Definition score (self : Scorer.t) (now : string) (scan_data : ScanData.t)
  : Py.result report :=
  st <- run_rules self scan_data ;;
  Py.Ok (build_report self now scan_data st).

End DefaultScorer.

(** ** [AdvancedScorer] *)

Module AdvancedScorer.

(** [__init__]: [super().__init__()], then the version is overwritten. *)
Definition init : Scorer.t :=
  Scorer.make "2.0.0-advanced"
    (Scorer.weights DefaultScorer.init)
    [("port_pattern_risk", Py.literal 3 10);
     ("geographic_risk", Py.literal 2 10);
     ("temporal_risk", Py.literal 1 10);
     ("behavioral_anomaly", Py.literal 4 10)].

Definition attack_patterns : list (list Z) :=
  [[80; 443; 8080; 8443];
   [21; 22; 23; 25];
   [3306; 5432; 27017]].

Definition _is_suspicious_port_pattern (ports : list Z) : bool :=
  if 10 <? Py.len ports then true
  else
    existsb (fun pattern => forallb (fun port => Py.mem port ports) pattern)
      attack_patterns.

Definition _assess_geographic_risk (ip : string) : Py.result Py.num :=
  if Py.startswith ip "192.168." || Py.startswith ip "10."
     || Py.startswith ip "172."
  then Py.Ok (Py.Float (Py.literal 1 10))
  else if Py.startswith ip "127." then Py.Ok (Py.Float (S754_zero false))
  else
    ip_hash <- Py.int16 (String.substring 0 8 (Hashlib.md5_hexdigest ip)) ;;
    Py.truediv (Py.Int (ip_hash mod 100)) (Py.float_of_int 100).

Definition _detect_behavioral_anomaly (scan_data : ScanData.t) : bool :=
  let open_ports := get_default (ScanData.open_ports scan_data) [] in
  let has_ssh := Py.mem 22 open_ports in
  let has_db :=
    existsb (fun port => Py.mem port open_ports) [3306; 5432; 27017] in
  let has_web := existsb (fun port => Py.mem port open_ports) [80; 443] in
  let has_docker := Py.mem 2375 open_ports in
  if has_ssh && has_db && has_web && has_docker then true else false.

(** [tls and tls.get('issuer')
     and 'Self-signed' not in str(tls.get('issuer', ''))], as a truth
    value. *)
Definition good_tls (tls : option tls_info) : Py.result bool :=
  if negb (tls_truthy tls) then Py.Ok false
  else
    issuer <- tls_get tls "issuer" None ;;
    if negb (str_truthy issuer) then Py.Ok false
    else
      raw <- tls_get tls "issuer" (Some "") ;;
      Py.Ok (negb (Py.contains "Self-signed" (str_of raw))).

Definition _detect_security_best_practices (scan_data : ScanData.t)
  : Py.result bool :=
  let open_ports := get_default (ScanData.open_ports scan_data) [] in
  let tls := get_default (ScanData.tls scan_data) (Some []) in
  let has_https := Py.mem 443 open_ports in
  let has_http := Py.mem 80 open_ports in
  good <- good_tls tls ;;
  Py.Ok
    (if has_https && negb has_http && good && (Py.len open_ports <=? 3)
     then true else false).

Definition _calculate_ml_risk_level (score_adjustment : Z) : string :=
  if 0 <=? score_adjustment then "LOW"
  else if -10 <=? score_adjustment then "MODERATE"
  else if -20 <=? score_adjustment then "HIGH"
  else "CRITICAL".

(** One rule of [_apply_ml_analysis]: when it fires, the adjustment moves
    by [delta] and [flag] is appended. *)
Definition apply_rule (fires : bool) (delta : Z) (flag : string)
  (acc : Z * list string) : Z * list string :=
  if fires then (fst acc + delta, snd acc ++ [flag]) else acc.

Definition _apply_ml_analysis (self : Scorer.t) (scan_data : ScanData.t)
  : Py.result MlAnalysis.t :=
  let open_ports := get_default (ScanData.open_ports scan_data) [] in
  let ip := get_default (ScanData.ip scan_data) "" in
  let acc := (0, []) in
  let acc :=
    apply_rule (_is_suspicious_port_pattern open_ports) (-15)
      "ML: Suspicious port pattern detected" acc in
  geo_risk <- _assess_geographic_risk ip ;;
  let acc :=
    apply_rule (Py.gt geo_risk (Py.Float (Py.literal 7 10))) (-10)
      "ML: High geographic risk detected" acc in
  let acc :=
    apply_rule (_detect_behavioral_anomaly scan_data) (-20)
      "ML: Behavioral anomaly detected" acc in
  best <- _detect_security_best_practices scan_data ;;
  let acc := apply_rule best 5 "ML: Security best practices detected" acc in
  let '(score_adjustment, ml_flags) := acc in
  let ml_risk_level := _calculate_ml_risk_level score_adjustment in
  Py.Ok
    (MlAnalysis.make score_adjustment ml_flags ml_risk_level
       (Py.literal 85 100)
       ["port_pattern"; "geo_risk"; "behavioral"; "best_practices"]).

(** [score(self, scan_data)]: [super().score] runs on the same object. *)
Definition score (self : Scorer.t) (now : string) (scan_data : ScanData.t)
  : Py.result report :=
  base_result <- DefaultScorer.score self now scan_data ;;
  ml_adjustments <- _apply_ml_analysis self scan_data ;;
  base_score <- Py.bind (Py.item "score" base_result) as_num ;;
  let adjusted_score :=
    Py.add base_score (Py.Int (MlAnalysis.score_adjustment ml_adjustments)) in
  let adjusted_score :=
    Py.max (Py.Int 0) (Py.min (Py.Int 100) adjusted_score) in
  base_flags <- Py.bind (Py.item "flags" base_result) as_list ;;
  let enhanced_flags := base_flags ++ MlAnalysis.ml_flags ml_adjustments in
  let enhanced_summary :=
    [Lit "Advanced ML Score: "; Num adjusted_score;
     Lit ("/100 (v" ++ Scorer.version self ++ "). ML Risk: "
            ++ MlAnalysis.ml_risk_level ml_adjustments)%string] in
  Py.Ok
    (Py.update base_result
       [("score", VNum adjusted_score);
        ("flags", VList enhanced_flags);
        ("summary", VFmt enhanced_summary);
        ("ml_analysis", VMl ml_adjustments);
        ("scorer_id", VStr "pgdn.scoring.advanced_scorer.AdvancedScorer");
        ("ml_enhanced", VBool true)]).

End AdvancedScorer.

(** ** Reading a report *)

Definition score_of (r : report) : option Py.num :=
  match Py.get "score" r with
  | Some (VNum n) => Some n
  | _ => None
  end.

Definition flags_of (r : report) : option (list string) :=
  match Py.get "flags" r with
  | Some (VList l) => Some l
  | _ => None
  end.

Definition metrics_of (r : report) : option Metrics.t :=
  match Py.get "pgdn_metrics" r with
  | Some (VMetrics m) => Some m
  | _ => None
  end.

Definition risk_level_of (r : report) : option string :=
  match Py.get "pgdn_risk_level" r with
  | Some (VStr s) => Some s
  | _ => None
  end.

(** [0 <= s <= 100], as Python evaluates it. *)
Definition in_range (s : Py.num) : Prop :=
  Py.le (Py.Int 0) s = true /\ Py.le s (Py.Int 100) = true.

(** The keys that [AdvancedScorer.score] writes after [**base_result]. *)
Definition overridden : list string :=
  ["score"; "flags"; "summary"; "ml_analysis"; "scorer_id"; "ml_enhanced"].

(** ** The adjustment bundle as §4.2 of the specification words it

    Four rules in a fixed order; each has a trigger, an adjustment and a
    flag.  The bundle's adjustment is the sum over the triggered rules and
    its flags are theirs, in rule order. *)

Module MlSpec.

Definition rule : Type := bool * Z * string.

Definition rules (suspicious_ports geo_high anomaly best_practice : bool)
  : list rule :=
  [(suspicious_ports, -15, "ML: Suspicious port pattern detected");
   (geo_high, -10, "ML: High geographic risk detected");
   (anomaly, -20, "ML: Behavioral anomaly detected");
   (best_practice, 5, "ML: Security best practices detected")].

Definition triggered (l : list rule) : list rule :=
  filter (fun r => fst (fst r)) l.

Definition sum_of_triggered_adjustments (l : list rule) : Z :=
  fold_right Z.add 0 (map (fun r => snd (fst r)) (triggered l)).

Definition triggered_flags (l : list rule) : list string :=
  map snd (triggered l).

End MlSpec.

(** ** Vulnerability severity as §4.1 of the specification words it

    A priority table, first matching row wins, [LOW] when none matches; the
    text searched is passed in, so that the way id and description are
    joined can be compared with the source. *)

Module VulnSpec.

Definition table : list (string * list string) :=
  [("CRITICAL",
     ["critical"; "rce"; "remote code execution"; "unauthenticated"]);
   ("HIGH", ["high"; "privilege escalation"; "buffer overflow"]);
   ("MEDIUM", ["medium"; "dos"; "denial of service"; "xss"])].

Definition matches (text : string) (row : string * list string) : bool :=
  existsb (fun keyword => Py.contains keyword text) (snd row).

Definition classify (text : string) : string :=
  match find (matches text) table with
  | Some row => fst row
  | None => "LOW"
  end.

(** "the concatenation of id and description", case-insensitive *)
Definition concatenation (vuln_id vuln_desc : string) : string :=
  Py.lower (vuln_id ++ vuln_desc)%string.

(** id, one space, description: the text the source builds *)
Definition joined_by_space (vuln_id vuln_desc : string) : string :=
  Py.lower (vuln_id ++ " " ++ vuln_desc)%string.

Definition multiplier (severity : string) : Py.float :=
  if String.eqb severity "CRITICAL" then Py.literal 15 10
  else if String.eqb severity "HIGH" then Py.literal 12 10
  else Py.literal 10 10.

Definition flag (vuln_id severity : string) : string :=
  ("Vulnerability: " ++ vuln_id ++ " (" ++ severity ++ ")")%string.

End VulnSpec.

(** ** The best-practice trigger as the specification words it *)

Module BestPracticeSpec.

(** "TLS present with a non-empty issuer not equal to Self-signed" *)
Definition issuer_not_equal_self_signed (tls : option (option tls_info))
  : bool :=
  match tls with
  | Some (Some t) =>
      match Py.get "issuer" t with
      | Some (Some i) =>
          negb (String.eqb i "") && negb (String.eqb i "Self-signed")
      | _ => false
      end
  | _ => false
  end.

Definition fires (d : ScanData.t) : bool :=
  let open_ports := get_default (ScanData.open_ports d) [] in
  Py.mem 443 open_ports
  && negb (Py.mem 80 open_ports)
  && issuer_not_equal_self_signed (ScanData.tls d)
  && (Py.len open_ports <=? 3).

End BestPracticeSpec.

(** ** Editing a scan record *)

Definition with_open_ports (ports : option (list Z)) (d : ScanData.t)
  : ScanData.t :=
  ScanData.make (ScanData.ip d) ports (ScanData.tls d) (ScanData.vulns d)
    (ScanData.docker_exposure d).

(** The record with port [p] added to [open_ports] at position [i]. *)
Definition add_port (i : nat) (p : Z) (d : ScanData.t) : ScanData.t :=
  let ports := get_default (ScanData.open_ports d) [] in
  with_open_ports (Some (firstn i ports ++ p :: skipn i ports)) d.

(** No penalty rule of [DefaultScorer.score] fired: every rule that
    subtracts from the score also appends a flag. *)
Definition clean (self : Scorer.t) (d : ScanData.t) : Prop :=
  exists st,
    DefaultScorer.run_rules self d = Py.Ok st /\ Locals.flags st = [].

(** ** What one rule of the baseline does to the local variables *)

(** The rule did not fire: score and flags are as before. *)
Definition quiet (st st' : Locals.t) : Prop :=
  Locals.score st' = Locals.score st /\ Locals.flags st' = Locals.flags st.

(** The rule fired: an integer penalty was subtracted and one flag was
    appended. *)
Definition penalised (st st' : Locals.t) : Prop :=
  exists k x,
    Locals.score st' = Py.sub (Locals.score st) (Py.Int k) /\
    Locals.flags st' = Locals.flags st ++ [x].

(** The findings of a report: score, flags, metrics and risk level (the
    fingerprint, the timestamp and the echoed input fields are left out). *)
Definition findings (r : Py.result report)
  : option (option Py.num * option (list string) * option Metrics.t
            * option string) :=
  match r with
  | Py.Ok rep =>
      Some (score_of rep, flags_of rep, metrics_of rep, risk_level_of rep)
  | Py.Raise _ => None
  end.

(** ** The same rules run by another scorer object

    [super().score] runs [DefaultScorer.score] on the [AdvancedScorer]
    object, whose [version] differs from that of a [DefaultScorer]; the
    version only reaches [pgdn_metrics] and the summary. *)

Definition set_scorer_version (v : string) (m : Metrics.t) : Metrics.t :=
  Metrics.make v (Metrics.risk_factors m) (Metrics.security_grade m)
    (Metrics.compliance_score m) (Metrics.tls_grade m).

Definition with_version (v : string) (st : Locals.t) : Locals.t :=
  Locals.make (Locals.score st) (Locals.flags st)
    (set_scorer_version v (Locals.pgdn_metrics st)).

(** ** The baseline findings in closed form

    What each rule of [DefaultScorer.score] contributes, as a function of
    the open ports, of the outcome of the TLS condition and of the
    vulnerabilities; the rules are listed in source order. *)

Module Expected.

Definition ssh_alt_ports (open_ports : list Z) : list Z :=
  filter (fun p => Py.mem p [2222; 2200; 2022]) open_ports.

Definition db_ports (open_ports : list Z) : list Z :=
  filter (fun p => Py.mem p [3306; 5432; 27017; 6379; 1433; 1521]) open_ports.

Definition nonempty {A : Type} (l : list A) : bool :=
  match l with
  | [] => false
  | _ :: _ => true
  end.

Definition docker_flags (open_ports : list Z) : list string :=
  if Py.mem 2375 open_ports
  then ["CRITICAL: Docker socket exposed (unencrypted)"]
  else if Py.mem 2376 open_ports
       then ["WARNING: Docker TLS socket exposed"]
       else [].

Definition docker_penalty (w : Weights.t) (open_ports : list Z) : Z :=
  if Py.mem 2375 open_ports then Weights.docker_exposure w
  else if Py.mem 2376 open_ports then 15 else 0.

Definition ssh_flags (open_ports : list Z) : list string :=
  if Py.mem 22 open_ports then ["SSH port exposed"] else [].

Definition ssh_penalty (w : Weights.t) (open_ports : list Z) : Z :=
  if Py.mem 22 open_ports then Weights.ssh_open w else 0.

Definition ssh_alt_flags (open_ports : list Z) : list string :=
  if nonempty (ssh_alt_ports open_ports)
  then [("Alternative SSH ports detected: "
           ++ Py.repr_int_list (ssh_alt_ports open_ports))%string]
  else [].

Definition ssh_alt_penalty (open_ports : list Z) : Z :=
  if nonempty (ssh_alt_ports open_ports) then 8 else 0.

Definition tls_flags (issues : bool) : list string :=
  if issues then ["TLS configuration critical issues"] else [].

Definition tls_penalty (w : Weights.t) (issues : bool) : Z :=
  if issues then Weights.tls_issues w else 0.

Definition vuln_flags (vulns : Py.dict string) : list string :=
  map (fun e =>
         VulnSpec.flag (fst e)
           (DefaultScorer._assess_vuln_severity (fst e) (snd e)))
    vulns.

Definition db_flags (open_ports : list Z) : list string :=
  if nonempty (db_ports open_ports)
  then [("CRITICAL: Database ports exposed: "
           ++ Py.repr_int_list (db_ports open_ports))%string]
  else [].

Definition db_penalty (w : Weights.t) (open_ports : list Z) : Z :=
  if nonempty (db_ports open_ports) then Weights.database_exposure w else 0.

Definition port_flags (open_ports : list Z) : list string :=
  if 5 <? Py.len open_ports
  then [("Excessive port exposure: "
           ++ Py.str_of_int (Py.len open_ports) ++ " ports")%string]
  else [].

Definition port_penalty (w : Weights.t) (open_ports : list Z) : Z :=
  if 5 <? Py.len open_ports
  then (Py.len open_ports - 5) * Weights.open_ports w
  else 0.

(** All flags, in detection order. *)
Definition flags (open_ports : list Z) (issues : bool)
  (vulns : Py.dict string) : list string :=
  docker_flags open_ports ++ ssh_flags open_ports
  ++ ssh_alt_flags open_ports ++ tls_flags issues ++ vuln_flags vulns
  ++ db_flags open_ports ++ port_flags open_ports.

(** The sum of the penalties when every vulnerability costs the plain
    weight (severity MEDIUM or LOW). *)
Definition penalty (w : Weights.t) (open_ports : list Z) (issues : bool)
  (vulns : Py.dict string) : Z :=
  docker_penalty w open_ports + ssh_penalty w open_ports
  + ssh_alt_penalty open_ports + tls_penalty w issues
  + Weights.vulnerabilities w * Py.len vulns
  + db_penalty w open_ports + port_penalty w open_ports.

Definition grade (open_ports : list Z) (issues : bool) : string :=
  if Py.mem 2375 open_ports || nonempty (db_ports open_ports) then "F"
  else if issues then "D" else "A+".

(** The number of flags that contain the text CRITICAL. *)
Definition critical_flags (open_ports : list Z) (vulns : Py.dict string) : Z :=
  (if Py.mem 2375 open_ports then 1 else 0)
  + (if nonempty (db_ports open_ports) then 1 else 0)
  + Py.len (filter (fun f => Py.contains "CRITICAL" f) (vuln_flags vulns)).

End Expected.

(** The keys of a dictionary, in order. *)
Definition keys {V : Type} (d : Py.dict V) : list string := map fst d.

(** [c] occurs in [s]. *)
Fixpoint has_char (c : ascii) (s : string) : bool :=
  match s with
  | EmptyString => false
  | String c' t => Ascii.eqb c c' || has_char c t
  end.

(** The record with another port list. *)
Definition with_ports (ports : list Z) (d : ScanData.t) : ScanData.t :=
  with_open_ports (Some ports) d.

(** The [risk_factors] dictionary, built in source order. *)
Definition expected_risk_factors (open_ports : list Z) (issues : bool)
  (vulns : Py.dict string) : Py.dict string :=
  let rf := [] in
  let rf :=
    if Py.mem 2375 open_ports then Py.set "docker" "CRITICAL" rf
    else if Py.mem 2376 open_ports then Py.set "docker" "MEDIUM" rf
         else rf in
  let rf := if Py.mem 22 open_ports then Py.set "ssh" "MEDIUM" rf else rf in
  let rf := if issues then Py.set "tls" "CRITICAL" rf else rf in
  let rf :=
    fold_left
      (fun acc e =>
         Py.set ("vuln_" ++ fst e)%string
           (DefaultScorer._assess_vuln_severity (fst e) (snd e)) acc)
      vulns rf in
  if Expected.nonempty (Expected.db_ports open_ports)
  then Py.set "database" "CRITICAL" rf
  else rf.

(** The score in closed form: an integer up to the vulnerability loop,
    then the loop and the two remaining rules. *)
Definition expected_score (self : Scorer.t) (open_ports : list Z)
  (issues : bool) (vulns : Py.dict string) : Py.num :=
  let w := Scorer.weights self in
  let s :=
    Py.Int (100 - Expected.docker_penalty w open_ports
            - Expected.ssh_penalty w open_ports
            - Expected.ssh_alt_penalty open_ports
            - Expected.tls_penalty w issues) in
  let s :=
    fold_left
      (fun s e =>
         Py.sub s
           (DefaultScorer.vuln_penalty self
              (DefaultScorer._assess_vuln_severity (fst e) (snd e))))
      vulns s in
  let s :=
    if Expected.nonempty (Expected.db_ports open_ports)
    then Py.sub s (Py.Int (Weights.database_exposure w))
    else s in
  let s :=
    if 5 <? Py.len open_ports
    then Py.sub s (Py.Int ((Py.len open_ports - 5) * Weights.open_ports w))
    else s in
  DefaultScorer.clamp s.

(** Every vulnerability is classified MEDIUM or LOW. *)
Definition medium_or_low (e : string * string) : Prop :=
  DefaultScorer._assess_vuln_severity (fst e) (snd e) = "MEDIUM" \/
  DefaultScorer._assess_vuln_severity (fst e) (snd e) = "LOW".

(** The ML risk label as a function of the three penalty triggers. *)
Definition expected_ml_risk (suspicious geo_high anomaly : bool) : string :=
  if negb suspicious && negb geo_high && negb anomaly then "LOW"
  else if negb suspicious && negb anomaly then "MODERATE"
  else if negb geo_high && negb (suspicious && anomaly) then "HIGH"
  else "CRITICAL".

(** Risk levels from best to worst. *)
Definition risk_rank (level : string) : Z :=
  if String.eqb level "MINIMAL" then 0
  else if String.eqb level "LOW" then 1
  else if String.eqb level "MODERATE" then 2
  else if String.eqb level "HIGH" then 3
  else 4.

(** [ip] starts with one of the prefixes the source treats as private. *)
Definition private_prefix (ip : string) : bool :=
  Py.startswith ip "192.168." || Py.startswith ip "10."
  || Py.startswith ip "172.".

(** The three facts checked for each value of [ip_hash % 100]. *)
Definition geo_check (k : Z) : bool :=
  let g := SFdiv Py.prec Py.emax (Py.float_of_int k) (Py.float_of_int 100) in
  Py.le (Py.Float (S754_zero false)) (Py.Float g)
  && Py.lt (Py.Float g) (Py.Int 1)
  && Bool.eqb (Py.gt (Py.Float g) (Py.Float (Py.literal 7 10))) (71 <=? k).

(** ** The score around the loop over [vulns]

    The rules that run before the loop subtract integers from 100; the
    loop subtracts one penalty per entry; the database rule, the port-count
    rule and the final clamp follow. *)

Definition score_before_vulns (self : Scorer.t) (open_ports : list Z)
  (issues : bool) : Py.num :=
  let w := Scorer.weights self in
  Py.Int (100 - Expected.docker_penalty w open_ports
          - Expected.ssh_penalty w open_ports
          - Expected.ssh_alt_penalty open_ports
          - Expected.tls_penalty w issues).

Definition score_after_vulns (self : Scorer.t) (open_ports : list Z)
  (s : Py.num) : Py.num :=
  let w := Scorer.weights self in
  let s :=
    if Expected.nonempty (Expected.db_ports open_ports)
    then Py.sub s (Py.Int (Weights.database_exposure w))
    else s in
  let s :=
    if 5 <? Py.len open_ports
    then Py.sub s (Py.Int ((Py.len open_ports - 5) * Weights.open_ports w))
    else s in
  DefaultScorer.clamp s.

(** The severity that the table of §4.1 gives an entry, on the text
    "id, one space, description". *)
Definition severity_of (e : string * string) : string :=
  VulnSpec.classify (VulnSpec.joined_by_space (fst e) (snd e)).

(** The entry is not classified HIGH: its penalty is not multiplied by
    1.2. *)
Definition not_high (e : string * string) : Prop :=
  DefaultScorer._assess_vuln_severity (fst e) (snd e) <> "HIGH".

(** ** Numbers with an integer value *)

(** The mantissa [m] at exponent [e] denotes an integer. *)
Definition whole_at (m e : Z) : Prop := e < 0 -> (2 ^ (- e) | m).

(** A float that is an integer, or is not finite. *)
Definition whole_float (f : Py.float) : Prop :=
  match f with
  | S754_finite _ m e => whole_at (Zpos m) e
  | _ => True
  end.

Definition whole (a : Py.num) : Prop :=
  match a with
  | Py.Int _ => True
  | Py.Float f => whole_float f
  end.

(** A shift record of the rounding procedure that has lost no bit. *)
Definition exact_at (r : shr_record) (e : Z) : Prop :=
  e < 0 -> shr_r r = false /\ shr_s r = false /\ (2 ^ (- e) | shr_m r).

(** ** Proof automation *)

(** Closes [NoDup] goals on lists of distinct port numbers. *)
Ltac distinct_ports :=
  repeat constructor; simpl; intuition discriminate.

(** * Proofs *)

(** ** [hashlib.md5] on the RFC 1321 test vectors *)

Example md5_empty :
  Hashlib.md5_hexdigest "" = "d41d8cd98f00b204e9800998ecf8427e".
Proof. vm_compute. reflexivity. Qed.

Example md5_abc :
  Hashlib.md5_hexdigest "abc" = "900150983cd24fb0d6963f7d28e17f72".
Proof. vm_compute. reflexivity. Qed.

Example md5_ip :
  Hashlib.md5_hexdigest "203.0.113.7" = "68fecd3b63b272e813f600f1a4885e0c".
Proof. vm_compute. reflexivity. Qed.

(** ** Float literals and arithmetic agree with CPython *)

(** [1.2] is [0x1.3333333333333p+0]. *)
Example literal_1_2 :
  Py.literal 12 10 = S754_finite false 5404319552844595 (-52).
Proof. reflexivity. Qed.

(** [18 * 1.2] is [0x1.5999999999999p+4], printed 21.599999999999998. *)
Example eighteen_times_1_2 :
  Py.mul (Py.Int 18) (Py.Float (Py.literal 12 10)) =
  Py.Float (S754_finite false 6079859496950169 (-48)).
Proof. reflexivity. Qed.

(** [18 * 1.5] is 27.0. *)
Example eighteen_times_1_5 :
  Py.eq (Py.mul (Py.Int 18) (Py.Float (Py.literal 15 10))) (Py.Int 27) = true.
Proof. reflexivity. Qed.

(** ** Facts about the Python fragment *)

Section Comparisons.

Lemma cmp_int_flip (a : Py.num) (z : Z) :
  Py.cmp (Py.Int z) a = option_map CompOpp (Py.cmp a (Py.Int z)).
Proof.
  destruct a as [y|f]; simpl.
  - now rewrite Z.compare_antisym.
  - reflexivity.
Qed.

Lemma lt_le (a b : Py.num) : Py.lt a b = true -> Py.le a b = true.
Proof.
  unfold Py.lt, Py.le. destruct (Py.cmp a b) as [[]|]; congruence.
Qed.

Lemma gt_int_le (a : Py.num) (z : Z) :
  Py.gt a (Py.Int z) = true -> Py.le (Py.Int z) a = true.
Proof.
  unfold Py.gt, Py.le. rewrite cmp_int_flip.
  destruct (Py.cmp a (Py.Int z)) as [[]|]; simpl; congruence.
Qed.

Lemma clamp_in_range (s : Py.num) : in_range (DefaultScorer.clamp s).
Proof.
  unfold in_range, DefaultScorer.clamp, Py.max, Py.min.
  destruct (Py.lt s (Py.Int 100)) eqn:Hlt.
  - destruct (Py.gt s (Py.Int 0)) eqn:Hgt.
    + split; [now apply gt_int_le | now apply lt_le].
    + split; reflexivity.
  - split; reflexivity.
Qed.

Lemma in_range_int (z : Z) : in_range (Py.Int z) <-> 0 <= z <= 100.
Proof.
  unfold in_range.
  change (Py.le (Py.Int 0) (Py.Int z)) with (0 <=? z).
  change (Py.le (Py.Int z) (Py.Int 100)) with (z <=? 100).
  rewrite !Z.leb_le. reflexivity.
Qed.

Lemma clamp_int (z : Z) :
  DefaultScorer.clamp (Py.Int z) = Py.Int (Z.max 0 (Z.min 100 z)).
Proof.
  unfold DefaultScorer.clamp, Py.max, Py.min, Py.lt, Py.gt. simpl.
  destruct (z ?= 100) eqn:H100.
  - apply Z.compare_eq in H100. subst. reflexivity.
  - simpl. rewrite Z.compare_lt_iff in H100.
    destruct (z ?= 0) eqn:H0.
    + apply Z.compare_eq in H0. subst. reflexivity.
    + rewrite Z.compare_lt_iff in H0. f_equal. lia.
    + rewrite Z.compare_gt_iff in H0. f_equal. lia.
  - simpl. rewrite Z.compare_gt_iff in H100. f_equal. lia.
Qed.

End Comparisons.

Section Dictionaries.
Context {V : Type}.

Lemma get_set_same (k : string) (v : V) (d : Py.dict V) :
  Py.get k (Py.set k v d) = Some v.
Proof.
  induction d as [|[k' v'] t IH]; simpl.
  - now rewrite String.eqb_refl.
  - destruct (String.eqb k k') eqn:E; simpl.
    + now rewrite String.eqb_refl.
    + now rewrite E.
Qed.

Lemma get_set_other (k k' : string) (v : V) (d : Py.dict V) :
  k <> k' -> Py.get k (Py.set k' v d) = Py.get k d.
Proof.
  intros Hne. induction d as [|[k0 v0] t IH]; simpl.
  - apply String.eqb_neq in Hne. now rewrite Hne.
  - destruct (String.eqb k' k0) eqn:E; simpl.
    + apply String.eqb_eq in E. subst k0.
      apply String.eqb_neq in Hne. now rewrite Hne.
    + now rewrite IH.
Qed.

Lemma get_update_other (k : string) (items d : Py.dict V) :
  ~ In k (map fst items) -> Py.get k (Py.update d items) = Py.get k d.
Proof.
  unfold Py.update. revert d.
  induction items as [|[k' v'] t IH]; intros d Hnin; simpl.
  - reflexivity.
  - rewrite IH.
    + apply get_set_other. intros ->. apply Hnin. now left.
    + intros Hin. apply Hnin. now right.
Qed.

Lemma get_set_keeps (k k' : string) (v v' : V) (d : Py.dict V) :
  Py.get k d = Some v -> exists w, Py.get k (Py.set k' v' d) = Some w.
Proof.
  intros Hget. destruct (String.eqb k k') eqn:E.
  - apply String.eqb_eq in E. subst. exists v'. apply get_set_same.
  - apply String.eqb_neq in E. exists v. now rewrite get_set_other.
Qed.

Lemma get_update_keeps (k : string) (v : V) (items d : Py.dict V) :
  Py.get k d = Some v -> exists w, Py.get k (Py.update d items) = Some w.
Proof.
  unfold Py.update. revert d v.
  induction items as [|[k' v'] t IH]; intros d v Hget; simpl.
  - now exists v.
  - destruct (get_set_keeps k k' v v' d Hget) as [w Hw].
    now apply (IH _ w).
Qed.

End Dictionaries.

(** ** No block of the scorers raises *)

Lemma tls_has_issues_total (tls : option tls_info) :
  exists b, DefaultScorer.tls_has_issues tls = Py.Ok b.
Proof.
  unfold DefaultScorer.tls_has_issues.
  destruct tls as [[|entry rest]|]; [simpl; eauto| |simpl; eauto].
  cbn [tls_truthy negb tls_get Py.bind].
  destruct (match Py.get "issuer" (entry :: rest) with
            | Some v => v | None => None end) as [i|]; eauto.
  destruct (String.eqb i "Self-signed"); eauto.
Qed.

Lemma tls_has_issues_falsy (tls : option tls_info) :
  tls_truthy tls = false -> DefaultScorer.tls_has_issues tls = Py.Ok true.
Proof.
  unfold DefaultScorer.tls_has_issues. now intros ->.
Qed.

Lemma tls_no_issues_is_dict (tls : option tls_info) :
  DefaultScorer.tls_has_issues tls = Py.Ok false -> exists d, tls = Some d.
Proof.
  destruct tls as [d|]; [eauto | discriminate].
Qed.

(** The two outcomes of the TLS block. *)
Lemma tls_analysis_cases (self : Scorer.t) (tls : option tls_info)
  (st : Locals.t) :
  (DefaultScorer.tls_has_issues tls = Py.Ok true /\
   exists m,
     DefaultScorer.tls_analysis self tls st =
     Py.Ok (Locals.make
              (Py.sub (Locals.score st)
                 (Py.Int (Weights.tls_issues (Scorer.weights self))))
              (Locals.flags st ++ ["TLS configuration critical issues"]) m)
     /\ (Metrics.security_grade m =
         if DefaultScorer.str_in
              (Metrics.security_grade (Locals.pgdn_metrics st)) ["F"]
         then Metrics.security_grade (Locals.pgdn_metrics st) else "D"))
  \/
  (DefaultScorer.tls_has_issues tls = Py.Ok false /\
   exists g,
     DefaultScorer.tls_analysis self tls st =
     Py.Ok (Locals.make (Locals.score st) (Locals.flags st)
              (Metrics.set_tls_grade g (Locals.pgdn_metrics st)))).
Proof.
  destruct (tls_has_issues_total tls) as [[|] Hb].
  - left. split; [assumption|].
    unfold DefaultScorer.tls_analysis. rewrite Hb. cbn [Py.bind].
    eexists. split; [reflexivity|].
    destruct (Locals.pgdn_metrics st) as [v rf g c tg].
    cbn [Metrics.security_grade Metrics.set_risk_factor].
    destruct (DefaultScorer.str_in g ["F"]); reflexivity.
  - right. split; [assumption|].
    destruct (tls_no_issues_is_dict _ Hb) as [d ->].
    unfold DefaultScorer.tls_analysis. rewrite Hb. simpl. eauto.
Qed.

Lemma run_rules_clamped (self : Scorer.t) (d : ScanData.t) :
  exists s fl m,
    DefaultScorer.run_rules self d =
    Py.Ok (Locals.make (DefaultScorer.clamp s) fl m).
Proof.
  unfold DefaultScorer.run_rules.
  match goal with
  | |- context [DefaultScorer.tls_analysis self ?t ?st] =>
      destruct (tls_analysis_cases self t st) as [[_ [m [-> _]]]|[_ [g ->]]]
  end; simpl; eauto.
Qed.

Lemma default_score_total (self : Scorer.t) (now : string) (d : ScanData.t) :
  exists st,
    DefaultScorer.run_rules self d = Py.Ok st /\
    DefaultScorer.score self now d =
    Py.Ok (DefaultScorer.build_report self now d st).
Proof.
  destruct (run_rules_clamped self d) as (s & fl & m & H).
  unfold DefaultScorer.score. rewrite H. simpl. eauto.
Qed.

(** *** The hexadecimal digest always parses *)

Lemma hex_digit_hex_char (n : Z) :
  Py.hex_digit (Hashlib.hex_char n) = Some (n mod 16).
Proof.
  unfold Hashlib.hex_char.
  assert (H : 0 <= n mod 16 < 16) by (apply Z.mod_pos_bound; lia).
  destruct (n mod 16) as [|p|p]; [reflexivity| |lia].
  do 4 (destruct p as [p|p|]; try lia; try reflexivity).
Qed.

Lemma int16_from_hex_char (acc n : Z) (t : string) :
  Py.int16_from acc (String (Hashlib.hex_char n) t) =
  Py.int16_from (16 * acc + n mod 16) t.
Proof.
  cbn [Py.int16_from]. now rewrite hex_digit_hex_char.
Qed.

Lemma substring_0_0 (s : string) : String.substring 0 0 s = "".
Proof. now destruct s. Qed.

Lemma int16_digest_prefix (b1 b2 b3 b4 : Z) (rest : list Z) :
  exists h,
    Py.int16 (String.substring 0 8
                (Hashlib.hex_of_bytes (b1 :: b2 :: b3 :: b4 :: rest)))
    = Py.Ok h.
Proof.
  cbn [Hashlib.hex_of_bytes String.substring].
  rewrite substring_0_0.
  cbv beta iota delta [Py.int16].
  rewrite !int16_from_hex_char. cbn [Py.int16_from]. eauto.
Qed.

Lemma md5_prefix_parses (s : string) :
  exists h,
    Py.int16 (String.substring 0 8 (Hashlib.md5_hexdigest s)) = Py.Ok h.
Proof.
  unfold Hashlib.md5_hexdigest, Hashlib.digest.
  destruct (fold_left Hashlib.compress _ _) as [[[a b] c] d].
  change (Hashlib.le_bytes 4 a) with
    (map (fun i => Z.shiftr a (8 * Z.of_nat i) mod 256) [0; 1; 2; 3]%nat).
  cbn [map app]. apply int16_digest_prefix.
Qed.

Lemma geographic_risk_total (ip : string) :
  exists g, AdvancedScorer._assess_geographic_risk ip = Py.Ok (Py.Float g).
Proof.
  unfold AdvancedScorer._assess_geographic_risk.
  destruct (_ || _); [eauto|].
  destruct (Py.startswith ip "127."); [eauto|].
  destruct (md5_prefix_parses ip) as [h ->].
  cbn [Py.bind]. unfold Py.truediv.
  replace (Py.is_zero (Py.float_of_int 100)) with false by reflexivity.
  eauto.
Qed.

Lemma good_tls_total (tls : option tls_info) :
  exists b, AdvancedScorer.good_tls tls = Py.Ok b.
Proof.
  unfold AdvancedScorer.good_tls.
  destruct tls as [[|entry rest]|]; [simpl; eauto| |simpl; eauto].
  cbn [tls_truthy negb tls_get Py.bind].
  destruct (str_truthy _); simpl; eauto.
Qed.

Lemma best_practices_total (d : ScanData.t) :
  exists b, AdvancedScorer._detect_security_best_practices d = Py.Ok b.
Proof.
  unfold AdvancedScorer._detect_security_best_practices.
  destruct (good_tls_total (get_default (ScanData.tls d) (Some []))) as [b ->].
  simpl. eauto.
Qed.

(** ** The shape of the two reports *)

(** The pair [(score_adjustment, ml_flags)] after the four rules. *)
Lemma apply_rules_spec (b1 b2 b3 b4 : bool) :
  AdvancedScorer.apply_rule b4 5 "ML: Security best practices detected"
    (AdvancedScorer.apply_rule b3 (-20) "ML: Behavioral anomaly detected"
       (AdvancedScorer.apply_rule b2 (-10) "ML: High geographic risk detected"
          (AdvancedScorer.apply_rule b1 (-15)
             "ML: Suspicious port pattern detected" (0, []))))
  = (MlSpec.sum_of_triggered_adjustments (MlSpec.rules b1 b2 b3 b4),
     MlSpec.triggered_flags (MlSpec.rules b1 b2 b3 b4)).
Proof. destruct b1, b2, b3, b4; reflexivity. Qed.

Lemma ml_analysis_char (self : Scorer.t) (d : ScanData.t) :
  exists geo best,
    AdvancedScorer._assess_geographic_risk (get_default (ScanData.ip d) "")
    = Py.Ok geo /\
    AdvancedScorer._detect_security_best_practices d = Py.Ok best /\
    let rs :=
      MlSpec.rules
        (AdvancedScorer._is_suspicious_port_pattern
           (get_default (ScanData.open_ports d) []))
        (Py.gt geo (Py.Float (Py.literal 7 10)))
        (AdvancedScorer._detect_behavioral_anomaly d)
        best in
    AdvancedScorer._apply_ml_analysis self d =
    Py.Ok (MlAnalysis.make
             (MlSpec.sum_of_triggered_adjustments rs)
             (MlSpec.triggered_flags rs)
             (AdvancedScorer._calculate_ml_risk_level
                (MlSpec.sum_of_triggered_adjustments rs))
             (Py.literal 85 100)
             ["port_pattern"; "geo_risk"; "behavioral"; "best_practices"]).
Proof.
  destruct (geographic_risk_total (get_default (ScanData.ip d) "")) as [g Hg].
  destruct (best_practices_total d) as [best Hb].
  exists (Py.Float g), best. repeat split; try assumption.
  unfold AdvancedScorer._apply_ml_analysis.
  rewrite Hg. cbn [Py.bind]. rewrite Hb. cbn [Py.bind].
  rewrite apply_rules_spec. reflexivity.
Qed.

Lemma advanced_score_char (self : Scorer.t) (now : string) (d : ScanData.t) :
  exists st ml,
    DefaultScorer.run_rules self d = Py.Ok st /\
    AdvancedScorer._apply_ml_analysis self d = Py.Ok ml /\
    AdvancedScorer.score self now d =
    Py.Ok
      (Py.update (DefaultScorer.build_report self now d st)
         [("score",
            VNum (DefaultScorer.clamp
                    (Py.add (Locals.score st)
                       (Py.Int (MlAnalysis.score_adjustment ml)))));
          ("flags", VList (Locals.flags st ++ MlAnalysis.ml_flags ml));
          ("summary",
            VFmt [Lit "Advanced ML Score: ";
                  Num (DefaultScorer.clamp
                         (Py.add (Locals.score st)
                            (Py.Int (MlAnalysis.score_adjustment ml))));
                  Lit ("/100 (v" ++ Scorer.version self ++ "). ML Risk: "
                         ++ MlAnalysis.ml_risk_level ml)%string]);
          ("ml_analysis", VMl ml);
          ("scorer_id", VStr "pgdn.scoring.advanced_scorer.AdvancedScorer");
          ("ml_enhanced", VBool true)]).
Proof.
  destruct (default_score_total self now d) as (st & Hst & Hbase).
  destruct (ml_analysis_char self d) as (geo & best & _ & _ & Hml).
  cbv zeta in Hml.
  eexists st, _. split; [exact Hst|]. split; [exact Hml|].
  unfold AdvancedScorer.score. rewrite Hbase, Hml. reflexivity.
Qed.

Lemma score_of_update (base : report) (n : Py.num) (v2 v3 v4 v5 v6 : value) :
  score_of (Py.update base
              [("score", VNum n); ("flags", v2); ("summary", v3);
               ("ml_analysis", v4); ("scorer_id", v5); ("ml_enhanced", v6)])
  = Some n.
Proof.
  unfold score_of, Py.update. cbn [fold_left fst snd].
  rewrite !get_set_other by discriminate.
  now rewrite get_set_same.
Qed.

Lemma flags_of_update (base : report) (l : list string)
  (v1 v3 v4 v5 v6 : value) :
  flags_of (Py.update base
              [("score", v1); ("flags", VList l); ("summary", v3);
               ("ml_analysis", v4); ("scorer_id", v5); ("ml_enhanced", v6)])
  = Some l.
Proof.
  unfold flags_of, Py.update. cbn [fold_left fst snd].
  rewrite !get_set_other by discriminate.
  now rewrite get_set_same.
Qed.

(** ** Rule by rule *)

Lemma quiet_refl (st : Locals.t) : quiet st st.
Proof. split; reflexivity. Qed.

Lemma penalised_not_nil (st st' : Locals.t) :
  penalised st st' -> Locals.flags st' <> [].
Proof.
  intros (k & x & _ & ->) H. now apply app_eq_nil in H as [_ H].
Qed.

Lemma step_keeps_flag (st st' : Locals.t) (f : string) :
  quiet st st' \/ penalised st st' ->
  In f (Locals.flags st) -> In f (Locals.flags st').
Proof.
  intros [[_ ->]|(k & x & _ & ->)] H; [assumption|].
  apply in_or_app. now left.
Qed.

Lemma docker_effect (self : Scorer.t) (ports : list Z) (st : Locals.t) :
  (Py.mem 2375 ports = false /\ Py.mem 2376 ports = false /\
   DefaultScorer.docker_analysis self ports st = st) \/
  ((Py.mem 2375 ports = true \/ Py.mem 2376 ports = true) /\
   penalised st (DefaultScorer.docker_analysis self ports st)).
Proof.
  unfold DefaultScorer.docker_analysis.
  destruct (Py.mem 2375 ports); [right|].
  - split; [now left|]. eexists _, _. split; reflexivity.
  - destruct (Py.mem 2376 ports); [right|left; auto].
    split; [now right|]. eexists _, _. split; reflexivity.
Qed.

Lemma ssh_effect (self : Scorer.t) (ports : list Z) (st : Locals.t) :
  (Py.mem 22 ports = false /\
   DefaultScorer.ssh_analysis self ports st = st) \/
  (Py.mem 22 ports = true /\
   penalised st (DefaultScorer.ssh_analysis self ports st)).
Proof.
  unfold DefaultScorer.ssh_analysis.
  destruct (Py.mem 22 ports); [right|left; auto].
  split; [reflexivity|]. eexists _, _. split; reflexivity.
Qed.

Lemma ssh_alt_effect (ports : list Z) (st : Locals.t) :
  (filter (fun p => Py.mem p [2222; 2200; 2022]) ports = [] /\
   DefaultScorer.ssh_alt_analysis ports st = st) \/
  (filter (fun p => Py.mem p [2222; 2200; 2022]) ports <> [] /\
   penalised st (DefaultScorer.ssh_alt_analysis ports st)).
Proof.
  unfold DefaultScorer.ssh_alt_analysis.
  destruct (filter _ ports); [left; auto|right].
  split; [discriminate|]. eexists _, _. split; reflexivity.
Qed.

Lemma database_effect (self : Scorer.t) (ports : list Z) (st : Locals.t) :
  (filter (fun p => Py.mem p [3306; 5432; 27017; 6379; 1433; 1521]) ports = []
   /\ DefaultScorer.database_analysis self ports st = st) \/
  (filter (fun p => Py.mem p [3306; 5432; 27017; 6379; 1433; 1521]) ports
   <> [] /\
   penalised st (DefaultScorer.database_analysis self ports st)).
Proof.
  unfold DefaultScorer.database_analysis.
  destruct (filter _ ports); [left; auto|right].
  split; [discriminate|]. eexists _, _. split; reflexivity.
Qed.

Lemma port_exposure_effect (self : Scorer.t) (ports : list Z)
  (st : Locals.t) :
  (Py.len ports <= 5 /\ DefaultScorer.port_exposure self ports st = st) \/
  (5 < Py.len ports /\
   penalised st (DefaultScorer.port_exposure self ports st)).
Proof.
  unfold DefaultScorer.port_exposure.
  destruct (5 <? Py.len ports) eqn:E; [right|left].
  - apply Z.ltb_lt in E. split; [assumption|].
    eexists _, _. split; reflexivity.
  - apply Z.ltb_ge in E. auto.
Qed.

Lemma tls_effect (self : Scorer.t) (tls : option tls_info) (st : Locals.t) :
  exists st',
    DefaultScorer.tls_analysis self tls st = Py.Ok st' /\
    ((DefaultScorer.tls_has_issues tls = Py.Ok false /\ quiet st st' /\
      Metrics.security_grade (Locals.pgdn_metrics st') =
      Metrics.security_grade (Locals.pgdn_metrics st)) \/
     (DefaultScorer.tls_has_issues tls = Py.Ok true /\ penalised st st' /\
      In "TLS configuration critical issues" (Locals.flags st'))).
Proof.
  destruct (tls_analysis_cases self tls st)
    as [(Hi & m & -> & _)|(Hi & g & ->)]; eexists; (split; [reflexivity|]).
  - right. split; [assumption|]. split.
    + eexists _, _. split; reflexivity.
    + cbn. apply in_or_app. right. now left.
  - left. split; [assumption|]. split; [split; reflexivity|reflexivity].
Qed.

(** The loop over [vulns.items()]: one flag per entry, in order. *)
Lemma vuln_analysis_flags (self : Scorer.t) (vulns : Py.dict string)
  (st : Locals.t) :
  Locals.flags (DefaultScorer.vuln_analysis self vulns st) =
  Locals.flags st
  ++ map (fun e =>
            VulnSpec.flag (fst e)
              (DefaultScorer._assess_vuln_severity (fst e) (snd e)))
       vulns.
Proof.
  unfold DefaultScorer.vuln_analysis. revert st.
  induction vulns as [|[vuln_id vuln_desc] t IH]; intros st; simpl.
  - now rewrite app_nil_r.
  - rewrite IH. cbn [Locals.flags fst snd]. now rewrite <- app_assoc.
Qed.

Lemma vuln_analysis_score (self : Scorer.t) (vulns : Py.dict string)
  (st : Locals.t) :
  Locals.score (DefaultScorer.vuln_analysis self vulns st) =
  fold_left
    (fun s e =>
       Py.sub s
         (DefaultScorer.vuln_penalty self
            (DefaultScorer._assess_vuln_severity (fst e) (snd e))))
    vulns (Locals.score st).
Proof.
  unfold DefaultScorer.vuln_analysis. revert st.
  induction vulns as [|[vuln_id vuln_desc] t IH]; intros st; simpl.
  - reflexivity.
  - now rewrite IH.
Qed.

(** ** The run of the baseline rules, block by block *)

Lemma run_rules_trace (self : Scorer.t) (d : ScanData.t) :
  let ports := get_default (ScanData.open_ports d) [] in
  let st0 :=
    Locals.make (Py.Int 100) []
      (Metrics.make (Scorer.version self) [] "A+" 100 None) in
  let st3 :=
    DefaultScorer.ssh_alt_analysis ports
      (DefaultScorer.ssh_analysis self ports
         (DefaultScorer.docker_analysis self ports st0)) in
  exists st4,
    DefaultScorer.tls_analysis self
      (get_default (ScanData.tls d) (Some [])) st3 = Py.Ok st4 /\
    let st7 :=
      DefaultScorer.port_exposure self ports
        (DefaultScorer.database_analysis self ports
           (DefaultScorer.vuln_analysis self
              (get_default (ScanData.vulns d) []) st4)) in
    DefaultScorer.run_rules self d =
    Py.Ok (Locals.make (DefaultScorer.clamp (Locals.score st7))
             (Locals.flags st7)
             (Locals.pgdn_metrics (DefaultScorer.compliance st7))).
Proof.
  cbv zeta. unfold DefaultScorer.run_rules.
  match goal with
  | |- context [DefaultScorer.tls_analysis self ?t ?st] =>
      destruct (tls_effect self t st) as (st4 & -> & _)
  end.
  exists st4. split; reflexivity.
Qed.

(** ** Vulnerabilities *)

Lemma classify_joined_by_space (vuln_id vuln_desc : string) :
  DefaultScorer._assess_vuln_severity vuln_id vuln_desc =
  VulnSpec.classify (VulnSpec.joined_by_space vuln_id vuln_desc).
Proof.
  unfold DefaultScorer._assess_vuln_severity, VulnSpec.classify,
    VulnSpec.joined_by_space.
  cbn [find VulnSpec.table]. unfold VulnSpec.matches. cbn [fst snd].
  change ["critical"; "rce"; "remote code execution"; "unauthenticated"]
    with DefaultScorer.critical_keywords.
  change ["high"; "privilege escalation"; "buffer overflow"]
    with DefaultScorer.high_keywords.
  change ["medium"; "dos"; "denial of service"; "xss"]
    with DefaultScorer.medium_keywords.
  repeat match goal with
         | |- context [existsb ?f ?l] => destruct (existsb f l)
         end; reflexivity.
Qed.

Lemma vuln_penalty_value (self : Scorer.t) (severity : string) :
  Scorer.weights self = Scorer.weights DefaultScorer.init ->
  Py.eq (DefaultScorer.vuln_penalty self severity)
    (Py.mul (Py.Int 18) (Py.Float (VulnSpec.multiplier severity))) = true.
Proof.
  intros Hw. unfold DefaultScorer.vuln_penalty, VulnSpec.multiplier.
  rewrite Hw.
  destruct (String.eqb severity "CRITICAL"); [reflexivity|].
  destruct (String.eqb severity "HIGH"); reflexivity.
Qed.

Lemma final_flags_keep (self : Scorer.t) (ports : list Z) (st : Locals.t)
  (f : string) :
  In f (Locals.flags st) ->
  In f (Locals.flags
          (DefaultScorer.port_exposure self ports
             (DefaultScorer.database_analysis self ports st))).
Proof.
  intros H.
  apply (step_keeps_flag (DefaultScorer.database_analysis self ports st)).
  - destruct (port_exposure_effect self ports
                (DefaultScorer.database_analysis self ports st))
      as [[_ ->]|[_ Hp]]; [left; apply quiet_refl|now right].
  - apply (step_keeps_flag st); [|assumption].
    destruct (database_effect self ports st)
      as [[_ ->]|[_ Hp]]; [left; apply quiet_refl|now right].
Qed.

(** ** The baseline rules do not depend on the scorer's version *)

Section Version.
Variables self self' : Scorer.t.
Hypothesis same_weights : Scorer.weights self = Scorer.weights self'.

Lemma docker_version (ports : list Z) (st : Locals.t) :
  DefaultScorer.docker_analysis self' ports
    (with_version (Scorer.version self') st) =
  with_version (Scorer.version self')
    (DefaultScorer.docker_analysis self ports st).
Proof.
  unfold DefaultScorer.docker_analysis. rewrite same_weights.
  destruct (Py.mem 2375 ports); [reflexivity|].
  destruct (Py.mem 2376 ports); reflexivity.
Qed.

Lemma ssh_version (ports : list Z) (st : Locals.t) :
  DefaultScorer.ssh_analysis self' ports
    (with_version (Scorer.version self') st) =
  with_version (Scorer.version self')
    (DefaultScorer.ssh_analysis self ports st).
Proof.
  unfold DefaultScorer.ssh_analysis. rewrite same_weights.
  destruct (Py.mem 22 ports); reflexivity.
Qed.

Lemma ssh_alt_version (ports : list Z) (st : Locals.t) :
  DefaultScorer.ssh_alt_analysis ports
    (with_version (Scorer.version self') st) =
  with_version (Scorer.version self')
    (DefaultScorer.ssh_alt_analysis ports st).
Proof.
  unfold DefaultScorer.ssh_alt_analysis.
  destruct (filter _ ports); reflexivity.
Qed.

Lemma tls_version (tls : option tls_info) (st : Locals.t) :
  DefaultScorer.tls_analysis self' tls
    (with_version (Scorer.version self') st) =
  st' <- DefaultScorer.tls_analysis self tls st ;;
  Py.Ok (with_version (Scorer.version self') st').
Proof.
  unfold DefaultScorer.tls_analysis. rewrite same_weights.
  destruct (tls_has_issues_total tls) as [[|] Hi]; rewrite Hi;
    cbn [Py.bind].
  - destruct st as [s f [ver rf g c tg]]. cbn.
    destruct (String.eqb g "F"); reflexivity.
  - destruct (tls_no_issues_is_dict _ Hi) as [t ->]. reflexivity.
Qed.

Lemma vuln_version (vulns : Py.dict string) (st : Locals.t) :
  DefaultScorer.vuln_analysis self' vulns
    (with_version (Scorer.version self') st) =
  with_version (Scorer.version self')
    (DefaultScorer.vuln_analysis self vulns st).
Proof.
  unfold DefaultScorer.vuln_analysis. revert st.
  induction vulns as [|[vuln_id vuln_desc] t IH]; intros st; simpl.
  - reflexivity.
  - rewrite <- IH. f_equal.
    unfold DefaultScorer.vuln_penalty. now rewrite same_weights.
Qed.

Lemma database_version (ports : list Z) (st : Locals.t) :
  DefaultScorer.database_analysis self' ports
    (with_version (Scorer.version self') st) =
  with_version (Scorer.version self')
    (DefaultScorer.database_analysis self ports st).
Proof.
  unfold DefaultScorer.database_analysis. rewrite same_weights.
  destruct (filter _ ports); reflexivity.
Qed.

Lemma port_exposure_version (ports : list Z) (st : Locals.t) :
  DefaultScorer.port_exposure self' ports
    (with_version (Scorer.version self') st) =
  with_version (Scorer.version self')
    (DefaultScorer.port_exposure self ports st).
Proof.
  unfold DefaultScorer.port_exposure. rewrite same_weights.
  destruct (5 <? Py.len ports); reflexivity.
Qed.

Lemma run_rules_version (d : ScanData.t) :
  DefaultScorer.run_rules self' d =
  st <- DefaultScorer.run_rules self d ;;
  Py.Ok (with_version (Scorer.version self') st).
Proof.
  unfold DefaultScorer.run_rules.
  change (Locals.make (Py.Int 100) []
            (Metrics.make (Scorer.version self') [] "A+" 100 None))
    with (with_version (Scorer.version self')
            (Locals.make (Py.Int 100) []
               (Metrics.make (Scorer.version self) [] "A+" 100 None))).
  rewrite docker_version, ssh_version, ssh_alt_version, tls_version.
  match goal with
  | |- context [DefaultScorer.tls_analysis self ?t ?st] =>
      destruct (DefaultScorer.tls_analysis self t st) as [st4|e]
  end; cbn [Py.bind]; [|reflexivity].
  rewrite vuln_version, database_version, port_exposure_version.
  reflexivity.
Qed.

End Version.

Lemma run_rules_own_version (self : Scorer.t) (d : ScanData.t)
  (st : Locals.t) :
  DefaultScorer.run_rules self d = Py.Ok st ->
  Metrics.scorer_version (Locals.pgdn_metrics st) = Scorer.version self.
Proof.
  intros Hrun. pose proof (run_rules_version self self eq_refl d) as H.
  rewrite Hrun in H. cbn [Py.bind] in H. injection H as H.
  rewrite H. reflexivity.
Qed.

(** The report of a plain [DefaultScorer] and the one [super().score]
    builds inside an [AdvancedScorer] carry the same score, flags and risk
    level; their [pgdn_metrics] differ in [scorer_version] only. *)
Lemma plain_and_super_baseline (now : string) (d : ScanData.t) :
  exists st plain super,
    DefaultScorer.run_rules DefaultScorer.init d = Py.Ok st /\
    DefaultScorer.score DefaultScorer.init now d = Py.Ok plain /\
    DefaultScorer.score AdvancedScorer.init now d = Py.Ok super /\
    score_of plain = Some (Locals.score st) /\
    score_of super = Some (Locals.score st) /\
    flags_of plain = Some (Locals.flags st) /\
    flags_of super = Some (Locals.flags st) /\
    risk_level_of super = risk_level_of plain /\
    metrics_of plain = Some (Locals.pgdn_metrics st) /\
    metrics_of super =
    Some (set_scorer_version "2.0.0-advanced" (Locals.pgdn_metrics st)).
Proof.
  destruct (default_score_total DefaultScorer.init now d) as (st & Hst & Hp).
  exists st. eexists _, _. split; [exact Hst|]. split; [exact Hp|].
  unfold DefaultScorer.score.
  rewrite (run_rules_version DefaultScorer.init AdvancedScorer.init eq_refl).
  rewrite Hst. cbn [Py.bind].
  split; [reflexivity|]. repeat split; reflexivity.
Qed.

(** ** Score bounds *)

(** C1: for every scan record, whichever scorer object runs it, both
    [DefaultScorer.score] and [AdvancedScorer.score] return a report whose
    [score] field [s] satisfies [0 <= s <= 100]. *)
Theorem score_within_bounds (self : Scorer.t) (now : string) (d : ScanData.t) :
  (exists r s,
      DefaultScorer.score self now d = Py.Ok r /\
      score_of r = Some s /\ in_range s) /\
  (exists r s,
      AdvancedScorer.score self now d = Py.Ok r /\
      score_of r = Some s /\ in_range s).
Proof.
  split.
  - destruct (run_rules_clamped self d) as (s & fl & m & Hrun).
    destruct (default_score_total self now d) as (st & Hst & Hscore).
    rewrite Hrun in Hst. injection Hst as <-.
    eexists _, _. split; [exact Hscore|]. split; [reflexivity|].
    apply clamp_in_range.
  - destruct (advanced_score_char self now d) as (st & ml & _ & _ & Hadv).
    eexists _, _. split; [exact Hadv|]. split; [apply score_of_update|].
    apply clamp_in_range.
Qed.

(** ** The enhanced report against the baseline report *)

(** The enhanced report against the report that [super().score] returns on
    the same scorer object. *)
Lemma enhanced_over_super (self : Scorer.t) (now : string)
  (d : ScanData.t) :
  exists base adv geo best base_score base_flags,
    DefaultScorer.score self now d = Py.Ok base /\
    AdvancedScorer.score self now d = Py.Ok adv /\
    AdvancedScorer._assess_geographic_risk (get_default (ScanData.ip d) "")
    = Py.Ok geo /\
    AdvancedScorer._detect_security_best_practices d = Py.Ok best /\
    score_of base = Some base_score /\
    flags_of base = Some base_flags /\
    let rs :=
      MlSpec.rules
        (AdvancedScorer._is_suspicious_port_pattern
           (get_default (ScanData.open_ports d) []))
        (Py.gt geo (Py.Float (Py.literal 7 10)))
        (AdvancedScorer._detect_behavioral_anomaly d)
        best in
    score_of adv =
    Some (DefaultScorer.clamp
            (Py.add base_score
               (Py.Int (MlSpec.sum_of_triggered_adjustments rs)))) /\
    flags_of adv = Some (base_flags ++ MlSpec.triggered_flags rs).
Proof.
  destruct (default_score_total self now d) as (st & Hst & Hbase).
  destruct (ml_analysis_char self d) as (geo & best & Hgeo & Hbest & Hml).
  destruct (advanced_score_char self now d) as (st' & ml & Hst' & Hml' & Hadv).
  rewrite Hst in Hst'. injection Hst' as <-.
  cbv zeta in Hml. rewrite Hml in Hml'. injection Hml' as <-.
  eexists _, _, geo, best, (Locals.score st), (Locals.flags st).
  split; [exact Hbase|]. split; [exact Hadv|].
  split; [exact Hgeo|]. split; [exact Hbest|].
  split; [reflexivity|]. split; [reflexivity|].
  cbv zeta. split; [apply score_of_update | apply flags_of_update].
Qed.


(** C2: the enhanced score is the clamp of the baseline score plus the sum
    of the adjustments of the triggered rules, and the enhanced flags are
    the baseline flags followed by the flags of the triggered rules, in the
    order suspicious ports, geographic risk, behavioral anomaly, best
    practice.  The baseline score and flags are those of a [DefaultScorer]
    on the same record. *)
Theorem enhanced_score_and_flags (now : string) (d : ScanData.t) :
  exists base adv geo best base_score base_flags,
    DefaultScorer.score DefaultScorer.init now d = Py.Ok base /\
    AdvancedScorer.score AdvancedScorer.init now d = Py.Ok adv /\
    AdvancedScorer._assess_geographic_risk (get_default (ScanData.ip d) "")
    = Py.Ok geo /\
    AdvancedScorer._detect_security_best_practices d = Py.Ok best /\
    score_of base = Some base_score /\
    flags_of base = Some base_flags /\
    let rs :=
      MlSpec.rules
        (AdvancedScorer._is_suspicious_port_pattern
           (get_default (ScanData.open_ports d) []))
        (Py.gt geo (Py.Float (Py.literal 7 10)))
        (AdvancedScorer._detect_behavioral_anomaly d)
        best in
    score_of adv =
    Some (DefaultScorer.clamp
            (Py.add base_score
               (Py.Int (MlSpec.sum_of_triggered_adjustments rs)))) /\
    flags_of adv = Some (base_flags ++ MlSpec.triggered_flags rs).
Proof.
  destruct (enhanced_over_super AdvancedScorer.init now d)
    as (super & adv & geo & best & bs & bf & Hsuper & Hadv & Hgeo & Hbest
        & Hbs & Hbf & Hscore & Hflags).
  destruct (plain_and_super_baseline now d)
    as (st & plain & super' & _ & Hplain & Hsuper' & Hps & Hss & Hpf & Hsf
        & _).
  rewrite Hsuper in Hsuper'. injection Hsuper' as <-.
  rewrite Hbs in Hss. injection Hss as ->.
  rewrite Hbf in Hsf. injection Hsf as ->.
  exists plain, adv, geo, best, (Locals.score st), (Locals.flags st).
  split; [exact Hplain|]. split; [exact Hadv|]. split; [exact Hgeo|].
  split; [exact Hbest|]. split; [exact Hps|]. split; [exact Hpf|].
  cbv zeta. split; assumption.
Qed.

(** Only the summary, the metrics and the timestamp of a baseline report
    depend on the scorer object or on the clock. *)
Lemma build_report_other (self self' : Scorer.t) (now now' : string)
  (d : ScanData.t) (st : Locals.t) (k : string) :
  k <> "summary" -> k <> "pgdn_metrics" -> k <> "timestamp" ->
  Py.get k
    (DefaultScorer.build_report self' now' d
       (with_version (Scorer.version self') st)) =
  Py.get k (DefaultScorer.build_report self now d st).
Proof.
  intros H1 H2 H3.
  apply String.eqb_neq in H1, H2, H3.
  unfold DefaultScorer.build_report. cbn [Py.get].
  rewrite H1, H2, H3. reflexivity.
Qed.

Lemma build_report_keys (self self' : Scorer.t) (now now' : string)
  (d : ScanData.t) (st st' : Locals.t) (k : string) (v : value) :
  Py.get k (DefaultScorer.build_report self now d st) = Some v ->
  exists w, Py.get k (DefaultScorer.build_report self' now' d st') = Some w.
Proof.
  unfold DefaultScorer.build_report. cbn [Py.get].
  repeat match goal with
         | |- context [String.eqb k ?s] => destruct (String.eqb k s)
         end; eauto.
Qed.

(** C8 (amended): every field of the report that [super().score] returned
    in the same call is present in the enhanced report, with the same value
    outside the overridden keys ([score], [flags], [summary],
    [ml_analysis], [scorer_id], [ml_enhanced]).  Against the report of a
    [DefaultScorer] on the same record every field is present as well and
    the values agree outside the overridden keys, [pgdn_metrics] and
    [timestamp]: the metrics differ in [scorer_version] only
    ("2.0.0-advanced" for "1.0.0"), and the timestamp is the clock reading
    of each call.  In both cases the enhanced flags start with the baseline
    flags, so every baseline flag is still there. *)
Theorem enhanced_preserves_baseline :
  (forall (self : Scorer.t) (now : string) (d : ScanData.t),
      exists base adv base_flags adv_flags,
        DefaultScorer.score self now d = Py.Ok base /\
        AdvancedScorer.score self now d = Py.Ok adv /\
        (forall k v,
            Py.get k base = Some v -> exists w, Py.get k adv = Some w) /\
        (forall k, ~ In k overridden -> Py.get k adv = Py.get k base) /\
        flags_of base = Some base_flags /\
        flags_of adv = Some adv_flags /\
        (exists added, adv_flags = base_flags ++ added) /\
        (forall f, In f base_flags -> In f adv_flags)) /\
  (forall (now now' : string) (d : ScanData.t),
      exists base adv m base_flags adv_flags,
        DefaultScorer.score DefaultScorer.init now d = Py.Ok base /\
        AdvancedScorer.score AdvancedScorer.init now' d = Py.Ok adv /\
        (forall k v,
            Py.get k base = Some v -> exists w, Py.get k adv = Some w) /\
        (forall k,
            ~ In k overridden -> k <> "pgdn_metrics" -> k <> "timestamp" ->
            Py.get k adv = Py.get k base) /\
        Py.get "timestamp" base = Some (VStr now) /\
        Py.get "timestamp" adv = Some (VStr now') /\
        metrics_of base = Some m /\
        Metrics.scorer_version m = "1.0.0" /\
        metrics_of adv = Some (set_scorer_version "2.0.0-advanced" m) /\
        flags_of base = Some base_flags /\
        flags_of adv = Some adv_flags /\
        (exists added, adv_flags = base_flags ++ added) /\
        (forall f, In f base_flags -> In f adv_flags)).
Proof.
  split.
  - intros self now d.
    destruct (default_score_total self now d) as (st & Hst & Hbase).
    destruct (advanced_score_char self now d) as (st' & ml & Hst' & _ & Hadv).
    rewrite Hst in Hst'. injection Hst' as <-.
    eexists _, _, (Locals.flags st), _.
    split; [exact Hbase|]. split; [exact Hadv|].
    split; [|split; [|split; [|split; [|split]]]].
    + intros k v Hk. now apply (get_update_keeps k v).
    + intros k Hk. now apply get_update_other.
    + reflexivity.
    + apply flags_of_update.
    + eexists. reflexivity.
    + intros f Hf. apply in_or_app. now left.
  - intros now now' d.
    destruct (default_score_total DefaultScorer.init now d)
      as (st & Hst & Hbase).
    destruct (advanced_score_char AdvancedScorer.init now' d)
      as (st' & ml & Hst' & _ & Hadv).
    rewrite (run_rules_version DefaultScorer.init AdvancedScorer.init eq_refl)
      in Hst'.
    rewrite Hst in Hst'. cbn [Py.bind] in Hst'. injection Hst' as <-.
    eexists _, _, (Locals.pgdn_metrics st), (Locals.flags st), _.
    split; [exact Hbase|]. split; [exact Hadv|].
    split; [|split; [|split; [|split; [|split; [|split; [|split;
      [|split; [|split; [|split]]]]]]]]].
    + intros k v Hk.
      destruct (build_report_keys DefaultScorer.init AdvancedScorer.init
                  now now' d st
                  (with_version (Scorer.version AdvancedScorer.init) st)
                  k v Hk) as [w Hw].
      now apply (get_update_keeps k w).
    + intros k Hk Hm Ht. rewrite get_update_other by exact Hk.
      apply build_report_other; [|assumption|assumption].
      intros ->. apply Hk. cbn. tauto.
    + reflexivity.
    + rewrite get_update_other by (cbn; intuition discriminate).
      reflexivity.
    + reflexivity.
    + exact (run_rules_own_version DefaultScorer.init d st Hst).
    + unfold metrics_of.
      rewrite get_update_other by (cbn; intuition discriminate).
      reflexivity.
    + reflexivity.
    + apply flags_of_update.
    + eexists. reflexivity.
    + intros f Hf. apply in_or_app. now left.
Qed.

(** C8 as worded: [pgdn_metrics] is not among the overridden keys, yet
    its value in the enhanced report is not the one of the report of a
    [DefaultScorer]. *)
Lemma scorer_version_differs :
  exists base adv,
    DefaultScorer.score DefaultScorer.init "2025-01-01T00:00:00"
      (ScanData.make (Some "10.0.0.1") (Some [443])
         (Some (Some [("issuer", Some "DigiCert");
                      ("expiry", Some "2030-01-01")]))
         (Some []) None) = Py.Ok base /\
    AdvancedScorer.score AdvancedScorer.init "2025-01-01T00:00:00"
      (ScanData.make (Some "10.0.0.1") (Some [443])
         (Some (Some [("issuer", Some "DigiCert");
                      ("expiry", Some "2030-01-01")]))
         (Some []) None) = Py.Ok adv /\
    ~ In "pgdn_metrics" overridden /\
    Py.get "pgdn_metrics" base =
    Some (VMetrics (Metrics.make "1.0.0" [] "A+" 100 (Some "A"))) /\
    Py.get "pgdn_metrics" adv =
    Some (VMetrics (Metrics.make "2.0.0-advanced" [] "A+" 100 (Some "A"))) /\
    Py.get "pgdn_metrics" adv <> Py.get "pgdn_metrics" base.
Proof.
  eexists _, _.
  split; [vm_compute; reflexivity|]. split; [vm_compute; reflexivity|].
  split; [cbn; intuition discriminate|].
  split; [reflexivity|]. split; [reflexivity|].
  vm_compute. discriminate.
Qed.

(** The risk level of the enhanced report is the one [super().score]
    computed. *)
Lemma risk_level_passes_through (self : Scorer.t) (now : string)
  (d : ScanData.t) :
  exists st base adv,
    DefaultScorer.run_rules self d = Py.Ok st /\
    DefaultScorer.score self now d = Py.Ok base /\
    AdvancedScorer.score self now d = Py.Ok adv /\
    risk_level_of base =
    Some (DefaultScorer._calculate_pgdn_risk (Locals.score st)
            (Locals.pgdn_metrics st)) /\
    risk_level_of adv = risk_level_of base /\
    metrics_of adv = metrics_of base.
Proof.
  destruct (default_score_total self now d) as (st & Hst & Hbase).
  destruct (advanced_score_char self now d) as (st' & ml & Hst' & _ & Hadv).
  rewrite Hst in Hst'. injection Hst' as <-.
  eexists st, _, _.
  split; [exact Hst|]. split; [exact Hbase|]. split; [exact Hadv|].
  split; [reflexivity|].
  unfold risk_level_of, metrics_of.
  rewrite !get_update_other; [split; reflexivity | |];
    cbn; intuition discriminate.
Qed.

(** C9: the enhanced report's [pgdn_risk_level] is the level that the
    baseline computes from its own, unadjusted score and grade; it is not
    recomputed from the adjusted score, and there is a record (four web
    ports, adjustment -15) whose adjusted score 85 lies in the LOW band
    while the report still says MINIMAL. *)
Theorem risk_level_not_recomputed :
  (forall (now : string) (d : ScanData.t),
      exists st base adv,
        DefaultScorer.run_rules DefaultScorer.init d = Py.Ok st /\
        DefaultScorer.score DefaultScorer.init now d = Py.Ok base /\
        AdvancedScorer.score AdvancedScorer.init now d = Py.Ok adv /\
        score_of base = Some (Locals.score st) /\
        metrics_of base = Some (Locals.pgdn_metrics st) /\
        risk_level_of base =
        Some (DefaultScorer._calculate_pgdn_risk (Locals.score st)
                (Locals.pgdn_metrics st)) /\
        risk_level_of adv = risk_level_of base) /\
  (exists now d adv m,
      AdvancedScorer.score AdvancedScorer.init now d = Py.Ok adv /\
      MlSpec.sum_of_triggered_adjustments
        (MlSpec.rules true false false false) = -15 /\
      score_of adv = Some (Py.Int 85) /\
      metrics_of adv = Some m /\
      risk_level_of adv = Some "MINIMAL" /\
      DefaultScorer._calculate_pgdn_risk (Py.Int 85) m = "LOW").
Proof.
  split.
  - intros now d.
    destruct (plain_and_super_baseline now d)
      as (st & plain & super & Hst & Hplain & Hsuper & Hps & _ & _ & _
          & Hrisk & Hpm & _).
    destruct (risk_level_passes_through AdvancedScorer.init now d)
      as (st' & super' & adv & _ & Hsuper' & Hadv & _ & Hadv_risk & _).
    rewrite Hsuper in Hsuper'. injection Hsuper' as <-.
    exists st, plain, adv.
    split; [exact Hst|]. split; [exact Hplain|]. split; [exact Hadv|].
    split; [exact Hps|]. split; [exact Hpm|]. split.
    + destruct (default_score_total DefaultScorer.init now d)
        as (st0 & Hst0 & Hplain0).
      rewrite Hst in Hst0. injection Hst0 as <-.
      rewrite Hplain in Hplain0. injection Hplain0 as ->. reflexivity.
    + now rewrite Hadv_risk.
  - exists "2025-01-01T00:00:00",
      (ScanData.make (Some "10.0.0.1") (Some [80; 443; 8080; 8443])
         (Some (Some [("issuer", Some "DigiCert");
                      ("expiry", Some "2030-01-01")]))
         (Some []) None).
    eexists _, _.
    split; [vm_compute; reflexivity|].
    repeat split; vm_compute; reflexivity.
Qed.

(** ** Clean records and the Docker port *)

Lemma clean_conditions (self : Scorer.t) (d : ScanData.t) :
  clean self d ->
  let ports := get_default (ScanData.open_ports d) [] in
  Py.mem 2375 ports = false /\
  Py.mem 2376 ports = false /\
  Py.mem 22 ports = false /\
  filter (fun p => Py.mem p [2222; 2200; 2022]) ports = [] /\
  DefaultScorer.tls_has_issues (get_default (ScanData.tls d) (Some []))
  = Py.Ok false /\
  get_default (ScanData.vulns d) [] = [] /\
  filter (fun p => Py.mem p [3306; 5432; 27017; 6379; 1433; 1521]) ports = []
  /\ Py.len ports <= 5.
Proof.
  intros (st & Hrun & Hfl). cbv zeta.
  destruct (run_rules_trace self d) as (st4 & Htls & Heq).
  cbv zeta in Htls, Heq. rewrite Heq in Hrun. injection Hrun as <-.
  cbn [Locals.flags] in Hfl.
  set (ports := get_default (ScanData.open_ports d) []) in *.
  (* port count *)
  match type of Hfl with
  | Locals.flags (DefaultScorer.port_exposure _ _ ?st) = [] =>
      destruct (port_exposure_effect self ports st) as [[Hlen Hq]|[_ Hp]];
      [rewrite Hq in Hfl; clear Hq | now apply penalised_not_nil in Hp]
  end.
  (* database *)
  match type of Hfl with
  | Locals.flags (DefaultScorer.database_analysis _ _ ?st) = [] =>
      destruct (database_effect self ports st) as [[Hdb Hq]|[_ Hp]];
      [rewrite Hq in Hfl; clear Hq | now apply penalised_not_nil in Hp]
  end.
  (* vulnerabilities *)
  rewrite vuln_analysis_flags in Hfl.
  apply app_eq_nil in Hfl as [Hfl Hv]. apply map_eq_nil in Hv.
  (* TLS *)
  match type of Htls with
  | DefaultScorer.tls_analysis _ ?t ?st3 = _ =>
      destruct (tls_effect self t st3) as (st4' & Htls' & Hcase);
      rewrite Htls in Htls'; injection Htls' as <-
  end.
  destruct Hcase as [(Hok & [_ Hq] & _)|(_ & Hp & _)];
    [rewrite Hq in Hfl; clear Hq | now apply penalised_not_nil in Hp].
  (* alternative SSH ports *)
  match type of Hfl with
  | Locals.flags (DefaultScorer.ssh_alt_analysis _ ?st) = [] =>
      destruct (ssh_alt_effect ports st) as [[Halt Hq]|[_ Hp]];
      [rewrite Hq in Hfl; clear Hq | now apply penalised_not_nil in Hp]
  end.
  (* SSH *)
  match type of Hfl with
  | Locals.flags (DefaultScorer.ssh_analysis _ _ ?st) = [] =>
      destruct (ssh_effect self ports st) as [[Hssh Hq]|[_ Hp]];
      [rewrite Hq in Hfl; clear Hq | now apply penalised_not_nil in Hp]
  end.
  (* Docker *)
  match type of Hfl with
  | Locals.flags (DefaultScorer.docker_analysis _ _ ?st) = [] =>
      destruct (docker_effect self ports st) as [(H75 & H76 & _)|[_ Hp]];
      [| now apply penalised_not_nil in Hp]
  end.
  repeat split; assumption.
Qed.

Lemma mem_insert (x p : Z) (l1 l2 : list Z) :
  Py.mem x (l1 ++ p :: l2) = (x =? p) || Py.mem x (l1 ++ l2).
Proof.
  unfold Py.mem. rewrite !existsb_app. simpl.
  destruct (existsb (Z.eqb x) l1), (x =? p); reflexivity.
Qed.

Lemma filter_insert (f : Z -> bool) (p : Z) (l1 l2 : list Z) :
  f p = false -> filter f (l1 ++ p :: l2) = filter f (l1 ++ l2).
Proof.
  intros Hp. rewrite !filter_app. simpl. now rewrite Hp.
Qed.

Lemma len_insert (p : Z) (l1 l2 : list Z) :
  Py.len (l1 ++ p :: l2) = Py.len (l1 ++ l2) + 1.
Proof.
  unfold Py.len. rewrite !length_app. simpl. lia.
Qed.

(** C6 (amended): on a record where no penalty rule fires, adding port 2375
    anywhere in [open_ports] forces the grade to F and lowers the score
    from 100 by exactly the Docker weight 35 when the record had fewer than
    five open ports; with five, the sixth port also triggers the port-count
    penalty of 2. *)
Theorem docker_port_on_clean_record (now : string) (d : ScanData.t) (i : nat) :
  clean DefaultScorer.init d ->
  exists r r' m',
    DefaultScorer.score DefaultScorer.init now d = Py.Ok r /\
    score_of r = Some (Py.Int 100) /\
    DefaultScorer.score DefaultScorer.init now (add_port i 2375 d) = Py.Ok r' /\
    metrics_of r' = Some m' /\
    Metrics.security_grade m' = "F" /\
    score_of r' =
    Some (Py.Int (if Py.len (get_default (ScanData.open_ports d) []) <? 5
                  then 100 - 35 else 100 - 35 - 2)).
Proof.
  intros Hclean.
  destruct (clean_conditions _ _ Hclean)
    as (H75 & H76 & H22 & Halt & Htls & Hv & Hdb & Hlen).
  set (ports := get_default (ScanData.open_ports d) []) in *.
  (* the clean record scores 100 *)
  assert (Hd : exists m,
             DefaultScorer.run_rules DefaultScorer.init d =
             Py.Ok (Locals.make (Py.Int 100) [] m)).
  { unfold DefaultScorer.run_rules. fold ports.
    unfold DefaultScorer.docker_analysis, DefaultScorer.ssh_analysis,
      DefaultScorer.ssh_alt_analysis.
    rewrite H75, H76, H22, Halt.
    match goal with
    | |- context [DefaultScorer.tls_analysis ?s ?t ?st] =>
        destruct (tls_analysis_cases s t st)
          as [(Hi & _)|(_ & g & ->)]; [congruence|]
    end.
    cbn [Py.bind]. rewrite Hv.
    unfold DefaultScorer.database_analysis, DefaultScorer.port_exposure.
    rewrite Hdb. apply Z.ltb_ge in Hlen. rewrite Hlen.
    eexists. reflexivity. }
  destruct Hd as [m Hd].
  (* the record with port 2375 *)
  set (ports' := firstn i ports ++ 2375 :: skipn i ports).
  assert (Hsplit : firstn i ports ++ skipn i ports = ports)
    by apply firstn_skipn.
  assert (H75' : Py.mem 2375 ports' = true).
  { unfold ports'. now rewrite mem_insert. }
  assert (H22' : Py.mem 22 ports' = false).
  { unfold ports'. now rewrite mem_insert, Hsplit, H22. }
  assert (Halt' : filter (fun p => Py.mem p [2222; 2200; 2022]) ports' = []).
  { unfold ports'. rewrite filter_insert by reflexivity. now rewrite Hsplit. }
  assert (Hdb' : filter
                   (fun p => Py.mem p [3306; 5432; 27017; 6379; 1433; 1521])
                   ports' = []).
  { unfold ports'. rewrite filter_insert by reflexivity. now rewrite Hsplit. }
  assert (Hlen' : Py.len ports' = Py.len ports + 1).
  { unfold ports'. now rewrite len_insert, Hsplit. }
  assert (Hd' : exists m',
             DefaultScorer.run_rules DefaultScorer.init (add_port i 2375 d) =
             Py.Ok (Locals.make
                      (Py.Int (if Py.len ports <? 5 then 100 - 35
                               else 100 - 35 - 2))
                      (if Py.len ports <? 5
                       then ["CRITICAL: Docker socket exposed (unencrypted)"]
                       else ["CRITICAL: Docker socket exposed (unencrypted)";
                             "Excessive port exposure: 6 ports"])
                      m') /\
             Metrics.security_grade m' = "F").
  { unfold DefaultScorer.run_rules, add_port, with_open_ports.
    cbn [ScanData.open_ports ScanData.tls ScanData.vulns get_default].
    fold ports. fold ports'.
    unfold DefaultScorer.docker_analysis, DefaultScorer.ssh_analysis,
      DefaultScorer.ssh_alt_analysis.
    rewrite H75', H22', Halt'.
    match goal with
    | |- context [DefaultScorer.tls_analysis ?s ?t ?st] =>
        destruct (tls_analysis_cases s t st)
          as [(Hi & _)|(_ & g & ->)]; [congruence|]
    end.
    cbn [Py.bind]. rewrite Hv.
    unfold DefaultScorer.database_analysis, DefaultScorer.port_exposure.
    rewrite Hdb', Hlen'.
    destruct (Py.len ports <? 5) eqn:E5.
    - apply Z.ltb_lt in E5.
      replace (5 <? Py.len ports + 1) with false
        by (symmetry; apply Z.ltb_ge; lia).
      eexists. split; reflexivity.
    - apply Z.ltb_ge in E5.
      assert (Hfive : Py.len ports = 5) by lia. rewrite Hfive.
      eexists. split; reflexivity. }
  destruct Hd' as (m' & Hd' & Hgrade).
  unfold DefaultScorer.score. rewrite Hd, Hd'. cbn [Py.bind].
  eexists _, _, m'. repeat split; assumption.
Qed.

(** C6 at a record with the single port 443 and a DigiCert certificate. *)
Lemma docker_port_on_clean_record_witness :
  exists r',
    DefaultScorer.score DefaultScorer.init "2025-01-01T00:00:00"
      (add_port 0 2375
         (ScanData.make (Some "10.0.0.1") (Some [443])
            (Some (Some [("issuer", Some "DigiCert");
                         ("expiry", Some "2030-01-01")]))
            (Some []) None))
    = Py.Ok r' /\ score_of r' = Some (Py.Int 65).
Proof.
  destruct (docker_port_on_clean_record "2025-01-01T00:00:00"
              (ScanData.make (Some "10.0.0.1") (Some [443])
                 (Some (Some [("issuer", Some "DigiCert");
                              ("expiry", Some "2030-01-01")]))
                 (Some []) None) 0)
    as (r & r' & m' & _ & _ & Hr' & _ & _ & Hs).
  - eexists. split; [vm_compute; reflexivity|reflexivity].
  - exists r'. split; [exact Hr'|exact Hs].
Defined.

(** C6 as worded: a clean record with five open ports loses 37, not 35. *)
Lemma docker_port_on_five_ports :
  let d :=
    ScanData.make (Some "10.0.0.1") (Some [443; 8080; 8443; 9000; 9001])
      (Some (Some [("issuer", Some "DigiCert");
                   ("expiry", Some "2030-01-01")]))
      (Some []) None in
  exists r r',
    DefaultScorer.score DefaultScorer.init "2025-01-01T00:00:00" d = Py.Ok r /\
    flags_of r = Some [] /\
    score_of r = Some (Py.Int 100) /\
    DefaultScorer.score DefaultScorer.init "2025-01-01T00:00:00"
      (add_port 5 2375 d) = Py.Ok r' /\
    score_of r' = Some (Py.Int 63) /\
    flags_of r' =
    Some ["CRITICAL: Docker socket exposed (unencrypted)";
          "Excessive port exposure: 6 ports"].
Proof.
  cbv zeta. eexists _, _.
  split; [vm_compute; reflexivity|]. split; [reflexivity|].
  split; [reflexivity|].
  split; [vm_compute; reflexivity|]. split; reflexivity.
Qed.

(** ** The best-practice bonus *)

Lemma good_tls_iff (tls : option tls_info) :
  AdvancedScorer.good_tls tls = Py.Ok true <->
  exists t i,
    tls = Some t /\ Py.get "issuer" t = Some (Some i) /\ i <> "" /\
    Py.contains "Self-signed" i = false.
Proof.
  unfold AdvancedScorer.good_tls. split.
  - destruct tls as [[|entry rest]|]; [discriminate| |discriminate].
    cbn [tls_truthy negb tls_get Py.bind].
    destruct (Py.get "issuer" (entry :: rest)) as [[i|]|] eqn:Hget;
      [|discriminate|discriminate].
    destruct i as [|c i']; [discriminate|].
    cbn [str_truthy negb str_of]. intros H. injection H as H.
    exists (entry :: rest), (String c i').
    split; [reflexivity|]. split; [exact Hget|]. split; [discriminate|].
    now apply negb_true_iff in H.
  - intros (t & i & -> & Hget & Hne & Hc).
    destruct t as [|entry rest]; [discriminate|].
    cbn [tls_truthy negb tls_get Py.bind]. rewrite Hget.
    destruct i as [|c i']; [congruence|].
    cbn [str_truthy negb str_of]. now rewrite Hc.
Qed.

Lemma best_practices_iff (d : ScanData.t) :
  AdvancedScorer._detect_security_best_practices d = Py.Ok true <->
  Py.mem 443 (get_default (ScanData.open_ports d) []) = true /\
  Py.mem 80 (get_default (ScanData.open_ports d) []) = false /\
  (exists t i,
      ScanData.tls d = Some (Some t) /\
      Py.get "issuer" t = Some (Some i) /\ i <> "" /\
      Py.contains "Self-signed" i = false) /\
  Py.len (get_default (ScanData.open_ports d) []) <= 3.
Proof.
  unfold AdvancedScorer._detect_security_best_practices.
  set (ports := get_default (ScanData.open_ports d) []).
  set (tls := get_default (ScanData.tls d) (Some [])).
  assert (Htls : (exists t i,
                     tls = Some t /\ Py.get "issuer" t = Some (Some i) /\
                     i <> "" /\ Py.contains "Self-signed" i = false) <->
                 (exists t i,
                     ScanData.tls d = Some (Some t) /\
                     Py.get "issuer" t = Some (Some i) /\ i <> "" /\
                     Py.contains "Self-signed" i = false)).
  { unfold tls. split; intros (t & i & Ht & Hrest).
    - exists t, i. split; [|assumption].
      destruct (ScanData.tls d) as [v|]; simpl in Ht.
      + now subst.
      + injection Ht as <-. destruct Hrest as [Hget _]. discriminate.
    - exists t, i. split; [|assumption]. now rewrite Ht. }
  rewrite <- Htls, <- good_tls_iff.
  destruct (good_tls_total tls) as [g ->]. cbn [Py.bind].
  rewrite <- Z.leb_le.
  destruct (Py.mem 443 ports), (Py.mem 80 ports), g,
    (Py.len ports <=? 3); simpl; intuition congruence.
Qed.

(** C4 (amended): the bonus fires exactly when 443 is open, 80 is not, the
    [tls] mapping has a non-empty issuer that does not contain the text
    "Self-signed", and at most three ports are open; when it fires the
    adjustment of the other three rules gains 5 and the flag
    "ML: Security best practices detected" comes last. *)
Theorem best_practice_bonus :
  (forall d : ScanData.t,
      exists b,
        AdvancedScorer._detect_security_best_practices d = Py.Ok b /\
        (b = true <->
         Py.mem 443 (get_default (ScanData.open_ports d) []) = true /\
         Py.mem 80 (get_default (ScanData.open_ports d) []) = false /\
         (exists t i,
             ScanData.tls d = Some (Some t) /\
             Py.get "issuer" t = Some (Some i) /\ i <> "" /\
             Py.contains "Self-signed" i = false) /\
         Py.len (get_default (ScanData.open_ports d) []) <= 3)) /\
  (forall (self : Scorer.t) (d : ScanData.t),
      exists geo best ml,
        AdvancedScorer._assess_geographic_risk
          (get_default (ScanData.ip d) "") = Py.Ok geo /\
        AdvancedScorer._detect_security_best_practices d = Py.Ok best /\
        AdvancedScorer._apply_ml_analysis self d = Py.Ok ml /\
        let others :=
          MlSpec.rules
            (AdvancedScorer._is_suspicious_port_pattern
               (get_default (ScanData.open_ports d) []))
            (Py.gt geo (Py.Float (Py.literal 7 10)))
            (AdvancedScorer._detect_behavioral_anomaly d)
            false in
        MlAnalysis.score_adjustment ml =
        MlSpec.sum_of_triggered_adjustments others + (if best then 5 else 0)
        /\
        MlAnalysis.ml_flags ml =
        MlSpec.triggered_flags others
        ++ (if best then ["ML: Security best practices detected"] else [])).
Proof.
  split.
  - intros d. destruct (best_practices_total d) as [b Hb].
    exists b. split; [assumption|].
    rewrite <- best_practices_iff, Hb. split; congruence.
  - intros self d.
    destruct (ml_analysis_char self d) as (geo & best & Hgeo & Hbest & Hml).
    cbv zeta in Hml.
    eexists geo, best, _. split; [exact Hgeo|]. split; [exact Hbest|].
    split; [exact Hml|]. cbv zeta. cbn [MlAnalysis.score_adjustment
                                         MlAnalysis.ml_flags].
    destruct (AdvancedScorer._is_suspicious_port_pattern _),
      (Py.gt geo _), (AdvancedScorer._detect_behavioral_anomaly d), best;
      split; reflexivity.
Qed.

(** C4 as worded: an issuer that contains, without being equal to,
    "Self-signed" meets the stated condition but earns no bonus. *)
Lemma issuer_containing_self_signed :
  let d :=
    ScanData.make (Some "10.0.0.1") (Some [443])
      (Some (Some [("issuer", Some "Self-signed CA");
                   ("expiry", Some "2030-01-01")]))
      (Some []) None in
  BestPracticeSpec.fires d = true /\
  AdvancedScorer._detect_security_best_practices d = Py.Ok false.
Proof. split; reflexivity. Qed.

(** ** Which adjustments can occur together *)

Lemma mem_In (x : Z) (l : list Z) : Py.mem x l = true <-> In x l.
Proof.
  unfold Py.mem. rewrite existsb_exists. split.
  - intros (y & Hy & E). apply Z.eqb_eq in E. now subst.
  - intros H. exists x. split; [assumption|apply Z.eqb_refl].
Qed.

Lemma four_distinct_ports (a b c e : Z) (ports : list Z) :
  NoDup [a; b; c; e] ->
  Py.mem a ports = true -> Py.mem b ports = true ->
  Py.mem c ports = true -> Py.mem e ports = true ->
  4 <= Py.len ports.
Proof.
  intros Hnd Ha Hb Hc He.
  assert (Hincl : incl [a; b; c; e] ports).
  { intros x [<-|[<-|[<-|[<-|[]]]]]; now apply mem_In. }
  pose proof (NoDup_incl_length Hnd Hincl) as Hlen.
  unfold Py.len. simpl in Hlen. lia.
Qed.

Lemma suspicious_needs (ports : list Z) :
  Py.mem 443 ports = true ->
  AdvancedScorer._is_suspicious_port_pattern ports = true ->
  4 <= Py.len ports \/ Py.mem 80 ports = true.
Proof.
  intros H443. unfold AdvancedScorer._is_suspicious_port_pattern.
  destruct (10 <? Py.len ports) eqn:E10.
  - apply Z.ltb_lt in E10. left. lia.
  - cbn [existsb forallb AdvancedScorer.attack_patterns].
    destruct (Py.mem 80 ports); [now right|]. cbn [andb orb].
    destruct (Py.mem 21 ports) eqn:H21, (Py.mem 22 ports) eqn:H22,
      (Py.mem 23 ports) eqn:H23, (Py.mem 25 ports) eqn:H25;
      cbn [andb orb];
      try (intros _; left;
           apply (four_distinct_ports 21 22 23 25); auto; distinct_ports).
    all: destruct (Py.mem 3306 ports) eqn:H3306,
        (Py.mem 5432 ports) eqn:H5432, (Py.mem 27017 ports) eqn:H27017;
      cbn [andb orb]; try discriminate;
      intros _; left;
      apply (four_distinct_ports 3306 5432 27017 443); auto; distinct_ports.
Qed.

Lemma anomaly_needs (d : ScanData.t) :
  AdvancedScorer._detect_behavioral_anomaly d = true ->
  4 <= Py.len (get_default (ScanData.open_ports d) []).
Proof.
  unfold AdvancedScorer._detect_behavioral_anomaly.
  set (ports := get_default (ScanData.open_ports d) []).
  cbn [existsb].
  destruct (Py.mem 22 ports) eqn:H22; [|discriminate].
  destruct (Py.mem 2375 ports) eqn:H2375;
    [|rewrite !andb_false_r; discriminate].
  destruct (Py.mem 3306 ports) eqn:H3306, (Py.mem 5432 ports) eqn:H5432,
    (Py.mem 27017 ports) eqn:H27017,
    (Py.mem 80 ports) eqn:H80, (Py.mem 443 ports) eqn:H443;
    cbn [andb orb]; try discriminate; intros _.
  all: first
         [ apply (four_distinct_ports 22 3306 80 2375); auto; distinct_ports
         | apply (four_distinct_ports 22 3306 443 2375); auto; distinct_ports
         | apply (four_distinct_ports 22 5432 80 2375); auto; distinct_ports
         | apply (four_distinct_ports 22 5432 443 2375); auto; distinct_ports
         | apply (four_distinct_ports 22 27017 80 2375); auto; distinct_ports
         | apply (four_distinct_ports 22 27017 443 2375); auto;
           distinct_ports ].
Qed.

Lemma bonus_excludes_penalties (d : ScanData.t) :
  AdvancedScorer._detect_security_best_practices d = Py.Ok true ->
  AdvancedScorer._is_suspicious_port_pattern
    (get_default (ScanData.open_ports d) []) = false /\
  AdvancedScorer._detect_behavioral_anomaly d = false.
Proof.
  intros Hbest. apply best_practices_iff in Hbest
    as (H443 & H80 & _ & Hlen).
  split.
  - destruct (AdvancedScorer._is_suspicious_port_pattern _) eqn:E; [|auto].
    destruct (suspicious_needs _ H443 E); [lia|congruence].
  - destruct (AdvancedScorer._detect_behavioral_anomaly d) eqn:E; [|auto].
    apply anomaly_needs in E. lia.
Qed.

Lemma adjustment_at_most_5 (b1 b2 b3 b4 : bool) :
  MlSpec.sum_of_triggered_adjustments (MlSpec.rules b1 b2 b3 b4) <= 5.
Proof. destruct b1, b2, b3, b4; vm_compute; discriminate. Qed.

(** C10 (amended): when the bonus fires, neither the suspicious-port rule
    nor the behavioral-anomaly rule fires: the bonus needs port 443, no
    port 80 and at most three open ports, while on a record with port 443
    the suspicious-port rule needs four open ports or port 80, and the
    anomaly rule always needs four.  The adjustment is then 5 or -5, the
    latter exactly when the geographic risk exceeds 0.7; no record gets an
    adjustment above 5, and some record gets 5. *)
Theorem bonus_excludes_port_penalties :
  (forall d : ScanData.t,
      AdvancedScorer._detect_security_best_practices d = Py.Ok true ->
      AdvancedScorer._is_suspicious_port_pattern
        (get_default (ScanData.open_ports d) []) = false /\
      AdvancedScorer._detect_behavioral_anomaly d = false) /\
  (forall ports : list Z,
      Py.mem 443 ports = true ->
      AdvancedScorer._is_suspicious_port_pattern ports = true ->
      4 <= Py.len ports \/ Py.mem 80 ports = true) /\
  (forall d : ScanData.t,
      AdvancedScorer._detect_behavioral_anomaly d = true ->
      4 <= Py.len (get_default (ScanData.open_ports d) [])) /\
  (forall (self : Scorer.t) (d : ScanData.t),
      AdvancedScorer._detect_security_best_practices d = Py.Ok true ->
      exists geo ml,
        AdvancedScorer._assess_geographic_risk
          (get_default (ScanData.ip d) "") = Py.Ok geo /\
        AdvancedScorer._apply_ml_analysis self d = Py.Ok ml /\
        (MlAnalysis.score_adjustment ml = 5 \/
         MlAnalysis.score_adjustment ml = -5) /\
        (MlAnalysis.score_adjustment ml = -5 <->
         Py.gt geo (Py.Float (Py.literal 7 10)) = true)) /\
  (forall (self : Scorer.t) (d : ScanData.t) (ml : MlAnalysis.t),
      AdvancedScorer._apply_ml_analysis self d = Py.Ok ml ->
      MlAnalysis.score_adjustment ml <= 5) /\
  (exists d ml,
      AdvancedScorer._apply_ml_analysis AdvancedScorer.init d = Py.Ok ml /\
      MlAnalysis.score_adjustment ml = 5).
Proof.
  split; [exact bonus_excludes_penalties|].
  split; [exact suspicious_needs|].
  split; [exact anomaly_needs|].
  split; [|split].
  - intros self d Hbest.
    destruct (bonus_excludes_penalties d Hbest) as [Hs Ha].
    destruct (ml_analysis_char self d) as (geo & best & Hgeo & Hbest' & Hml).
    cbv zeta in Hml. rewrite Hbest in Hbest'. injection Hbest' as <-.
    rewrite Hs, Ha in Hml.
    eexists geo, _. split; [exact Hgeo|]. split; [exact Hml|].
    cbn [MlAnalysis.score_adjustment].
    destruct (Py.gt geo (Py.Float (Py.literal 7 10))); vm_compute;
      split; [now right | split; congruence | now left | split; congruence].
  - intros self d ml Hml.
    destruct (ml_analysis_char self d) as (geo & best & _ & _ & Hml').
    cbv zeta in Hml'. rewrite Hml in Hml'. injection Hml' as ->.
    apply adjustment_at_most_5.
  - exists (ScanData.make (Some "10.0.0.1") (Some [443])
              (Some (Some [("issuer", Some "DigiCert");
                           ("expiry", Some "2030-01-01")]))
              (Some []) None).
    eexists. split; [vm_compute; reflexivity|reflexivity].
Qed.

(** C10 at a record with port 443 alone and a loopback address. *)
Lemma bonus_excludes_port_penalties_witness :
  AdvancedScorer._is_suspicious_port_pattern [443] = false /\
  AdvancedScorer._detect_behavioral_anomaly
    (ScanData.make (Some "127.0.0.1") (Some [443])
       (Some (Some [("issuer", Some "DigiCert");
                    ("expiry", Some "2030-01-01")]))
       (Some []) None) = false.
Proof.
  apply (proj1 bonus_excludes_port_penalties
           (ScanData.make (Some "127.0.0.1") (Some [443])
              (Some (Some [("issuer", Some "DigiCert");
                           ("expiry", Some "2030-01-01")]))
              (Some []) None)).
  reflexivity.
Defined.

(** C10 as worded: the database-enumeration pattern makes the
    suspicious-port rule fire on three ports, none of them port 80. *)
Lemma suspicious_on_three_ports :
  AdvancedScorer._is_suspicious_port_pattern [3306; 5432; 27017] = true /\
  Py.len [3306; 5432; 27017] = 3 /\
  Py.mem 80 [3306; 5432; 27017] = false.
Proof. repeat split; reflexivity. Qed.

(** ** Missing fields *)

(** A record without [ip] is assessed on the empty string, whose MD5 starts
    with [d41d8cd9]; that number is 93 modulo 100, so the geographic rule
    fires. *)
Remark absent_ip_geographic_risk :
  exists geo ml,
    AdvancedScorer._assess_geographic_risk "" = Py.Ok geo /\
    Py.gt geo (Py.Float (Py.literal 7 10)) = true /\
    AdvancedScorer._apply_ml_analysis AdvancedScorer.init
      (ScanData.make None (Some []) None None None) = Py.Ok ml /\
    MlAnalysis.score_adjustment ml = -10 /\
    MlAnalysis.ml_flags ml = ["ML: High geographic risk detected"].
Proof.
  eexists _, _. split; [vm_compute; reflexivity|].
  split; [reflexivity|]. split; [vm_compute; reflexivity|].
  split; reflexivity.
Qed.

Lemma tls_flag_reported (self : Scorer.t) (d : ScanData.t) :
  tls_truthy (get_default (ScanData.tls d) (Some [])) = false ->
  exists st,
    DefaultScorer.run_rules self d = Py.Ok st /\
    In "TLS configuration critical issues" (Locals.flags st).
Proof.
  intros Hfalsy.
  destruct (run_rules_trace self d) as (st4 & Htls & Hrun).
  cbv zeta in Htls, Hrun. eexists. split; [exact Hrun|].
  cbn [Locals.flags]. apply final_flags_keep.
  rewrite vuln_analysis_flags. apply in_or_app. left.
  match type of Htls with
  | DefaultScorer.tls_analysis _ ?t ?st3 = _ =>
      destruct (tls_effect self t st3) as (st4' & Htls' & Hcase);
      rewrite Htls in Htls'; injection Htls' as <-
  end.
  destruct Hcase as [(Hno & _)|(_ & _ & Hin)]; [|assumption].
  rewrite (tls_has_issues_falsy _ Hfalsy) in Hno. discriminate.
Qed.

Lemma findings_default (self : Scorer.t) (now : string) (d d' : ScanData.t) :
  DefaultScorer.run_rules self d = DefaultScorer.run_rules self d' ->
  findings (DefaultScorer.score self now d) =
  findings (DefaultScorer.score self now d').
Proof.
  unfold DefaultScorer.score. intros ->.
  destruct (DefaultScorer.run_rules self d'); reflexivity.
Qed.

Lemma findings_advanced (self : Scorer.t) (now : string) (d d' : ScanData.t) :
  DefaultScorer.run_rules self d = DefaultScorer.run_rules self d' ->
  AdvancedScorer._apply_ml_analysis self d =
  AdvancedScorer._apply_ml_analysis self d' ->
  findings (AdvancedScorer.score self now d) =
  findings (AdvancedScorer.score self now d').
Proof.
  intros Hrun Hml.
  destruct (advanced_score_char self now d) as (st & ml & Hst & Hm & ->).
  destruct (advanced_score_char self now d') as (st' & ml' & Hst' & Hm' & ->).
  rewrite Hrun, Hst' in Hst. injection Hst as <-.
  rewrite Hml, Hm' in Hm. injection Hm as <-.
  reflexivity.
Qed.

Lemma run_rules_tls_null (self : Scorer.t) (ip : option string)
  (ports : option (list Z)) (vulns : option (Py.dict string))
  (de : option Py.obj) :
  DefaultScorer.run_rules self (ScanData.make ip ports (Some None) vulns de) =
  DefaultScorer.run_rules self
    (ScanData.make ip ports (Some (Some [])) vulns de).
Proof.
  unfold DefaultScorer.run_rules.
  cbn [ScanData.tls ScanData.open_ports ScanData.vulns get_default].
  unfold DefaultScorer.tls_analysis.
  rewrite (tls_has_issues_falsy None eq_refl).
  now rewrite (tls_has_issues_falsy (Some []) eq_refl).
Qed.

Lemma no_bonus_without_tls (d : ScanData.t) :
  tls_truthy (get_default (ScanData.tls d) (Some [])) = false ->
  AdvancedScorer._detect_security_best_practices d = Py.Ok false.
Proof.
  intros H. unfold AdvancedScorer._detect_security_best_practices,
    AdvancedScorer.good_tls.
  rewrite H. cbn [negb Py.bind].
  destruct (Py.mem 443 _), (Py.mem 80 _); reflexivity.
Qed.

(** C7: neither scorer raises on a well-formed record.  A record without
    [open_ports] or without [vulns] is scored like the record with the
    empty list or mapping, on which the port rules and the vulnerability
    loop do nothing; a record whose [tls] is missing or [None] is scored
    like one with an empty mapping, and gets the TLS flag and no bonus;
    [docker_exposure] is never read by a rule and defaults to
    [{"exposed": False}] in the report. *)
Theorem missing_fields_are_tolerated (self : Scorer.t) (now : string) :
  (forall d : ScanData.t,
      (exists r, DefaultScorer.score self now d = Py.Ok r) /\
      (exists r, AdvancedScorer.score self now d = Py.Ok r)) /\
  (* open_ports *)
  (forall ip tls vulns de,
      let absent := ScanData.make ip None tls vulns de in
      let empty := ScanData.make ip (Some []) tls vulns de in
      findings (DefaultScorer.score self now absent) =
      findings (DefaultScorer.score self now empty) /\
      findings (AdvancedScorer.score self now absent) =
      findings (AdvancedScorer.score self now empty) /\
      AdvancedScorer._detect_behavioral_anomaly absent = false /\
      AdvancedScorer._detect_security_best_practices absent = Py.Ok false) /\
  (forall st : Locals.t,
      DefaultScorer.docker_analysis self [] st = st /\
      DefaultScorer.ssh_analysis self [] st = st /\
      DefaultScorer.ssh_alt_analysis [] st = st /\
      DefaultScorer.database_analysis self [] st = st /\
      DefaultScorer.port_exposure self [] st = st) /\
  AdvancedScorer._is_suspicious_port_pattern [] = false /\
  (* vulns *)
  (forall ip ports tls de,
      let absent := ScanData.make ip ports tls None de in
      let empty := ScanData.make ip ports tls (Some []) de in
      findings (DefaultScorer.score self now absent) =
      findings (DefaultScorer.score self now empty) /\
      findings (AdvancedScorer.score self now absent) =
      findings (AdvancedScorer.score self now empty)) /\
  (forall st : Locals.t, DefaultScorer.vuln_analysis self [] st = st) /\
  (* tls *)
  (forall ip ports vulns de,
      let absent := ScanData.make ip ports None vulns de in
      let null := ScanData.make ip ports (Some None) vulns de in
      let empty := ScanData.make ip ports (Some (Some [])) vulns de in
      findings (DefaultScorer.score self now absent) =
      findings (DefaultScorer.score self now empty) /\
      findings (DefaultScorer.score self now null) =
      findings (DefaultScorer.score self now empty) /\
      (exists r fl,
          DefaultScorer.score self now absent = Py.Ok r /\
          flags_of r = Some fl /\
          In "TLS configuration critical issues" fl) /\
      AdvancedScorer._detect_security_best_practices absent = Py.Ok false /\
      AdvancedScorer._detect_security_best_practices null = Py.Ok false) /\
  (* docker_exposure *)
  (forall ip ports tls vulns de,
      let absent := ScanData.make ip ports tls vulns None in
      let present := ScanData.make ip ports tls vulns (Some de) in
      findings (DefaultScorer.score self now absent) =
      findings (DefaultScorer.score self now present) /\
      findings (AdvancedScorer.score self now absent) =
      findings (AdvancedScorer.score self now present) /\
      exists r,
        DefaultScorer.score self now absent = Py.Ok r /\
        Py.get "docker_exposure" r =
        Some (VObj (Py.ODict [("exposed", Py.OBool false)]))) /\
  (* nothing but the address *)
  (exists r,
      DefaultScorer.score DefaultScorer.init now
        (ScanData.make (Some "10.0.0.1") None None None None) = Py.Ok r /\
      score_of r = Some (Py.Int 72) /\
      flags_of r = Some ["TLS configuration critical issues"]).
Proof.
  split; [|split; [|split; [|split; [|split; [|split; [|split; [|split]]]]]]].
  - intros d. split.
    + destruct (default_score_total self now d) as (st & _ & H). eauto.
    + destruct (advanced_score_char self now d) as (st & ml & _ & _ & H).
      eauto.
  - intros ip tls vulns de. cbv zeta.
    split; [now apply findings_default|].
    split; [now apply findings_advanced|]. split; [reflexivity|].
    unfold AdvancedScorer._detect_security_best_practices.
    cbn [ScanData.tls ScanData.open_ports get_default].
    destruct (good_tls_total (get_default tls (Some []))) as [g ->].
    reflexivity.
  - intros st. repeat split; reflexivity.
  - reflexivity.
  - intros ip ports tls de. cbv zeta.
    split; [now apply findings_default | now apply findings_advanced].
  - intros st. reflexivity.
  - intros ip ports vulns de. cbv zeta.
    split; [now apply findings_default|].
    split; [apply findings_default, run_rules_tls_null|].
    split; [|split; now apply no_bonus_without_tls].
    destruct (tls_flag_reported self
                (ScanData.make ip ports None vulns de) eq_refl)
      as (st & Hst & Hin).
    unfold DefaultScorer.score. rewrite Hst. cbn [Py.bind].
    eexists _, _. split; [reflexivity|]. split; [reflexivity|assumption].
  - intros ip ports tls vulns de. cbv zeta.
    split; [now apply findings_default|].
    split; [now apply findings_advanced|].
    destruct (default_score_total self now
                (ScanData.make ip ports tls vulns None)) as (st & _ & ->).
    eexists. split; reflexivity.
  - eexists. split; [vm_compute; reflexivity|]. split; reflexivity.
Qed.

(** ** Each baseline rule, exactly *)

Lemma docker_exact (self : Scorer.t) (ports : list Z) (st : Locals.t) :
  let st' := DefaultScorer.docker_analysis self ports st in
  Locals.flags st' = Locals.flags st ++ Expected.docker_flags ports /\
  (forall z, Locals.score st = Py.Int z ->
             Locals.score st' =
             Py.Int (z - Expected.docker_penalty (Scorer.weights self) ports))
  /\
  Metrics.security_grade (Locals.pgdn_metrics st') =
  (if Py.mem 2375 ports then "F"
   else Metrics.security_grade (Locals.pgdn_metrics st)) /\
  Metrics.tls_grade (Locals.pgdn_metrics st') =
  Metrics.tls_grade (Locals.pgdn_metrics st) /\
  Metrics.risk_factors (Locals.pgdn_metrics st') =
  (if Py.mem 2375 ports
   then Py.set "docker" "CRITICAL"
          (Metrics.risk_factors (Locals.pgdn_metrics st))
   else if Py.mem 2376 ports
        then Py.set "docker" "MEDIUM"
               (Metrics.risk_factors (Locals.pgdn_metrics st))
        else Metrics.risk_factors (Locals.pgdn_metrics st)).
Proof.
  cbv zeta.
  unfold DefaultScorer.docker_analysis, Expected.docker_flags,
    Expected.docker_penalty.
  destruct (Py.mem 2375 ports); [|destruct (Py.mem 2376 ports)];
    cbn [Locals.flags Locals.score Locals.pgdn_metrics
         Metrics.security_grade Metrics.tls_grade Metrics.risk_factors
         Metrics.set_security_grade Metrics.set_risk_factor];
    repeat split; try reflexivity; try (now rewrite app_nil_r);
    intros z ->; cbn [Py.sub]; f_equal; lia.
Qed.

Lemma ssh_exact (self : Scorer.t) (ports : list Z) (st : Locals.t) :
  let st' := DefaultScorer.ssh_analysis self ports st in
  Locals.flags st' = Locals.flags st ++ Expected.ssh_flags ports /\
  (forall z, Locals.score st = Py.Int z ->
             Locals.score st' =
             Py.Int (z - Expected.ssh_penalty (Scorer.weights self) ports)) /\
  Metrics.security_grade (Locals.pgdn_metrics st') =
  Metrics.security_grade (Locals.pgdn_metrics st) /\
  Metrics.tls_grade (Locals.pgdn_metrics st') =
  Metrics.tls_grade (Locals.pgdn_metrics st) /\
  Metrics.risk_factors (Locals.pgdn_metrics st') =
  (if Py.mem 22 ports
   then Py.set "ssh" "MEDIUM" (Metrics.risk_factors (Locals.pgdn_metrics st))
   else Metrics.risk_factors (Locals.pgdn_metrics st)).
Proof.
  cbv zeta.
  unfold DefaultScorer.ssh_analysis, Expected.ssh_flags, Expected.ssh_penalty.
  destruct (Py.mem 22 ports);
    cbn [Locals.flags Locals.score Locals.pgdn_metrics
         Metrics.security_grade Metrics.tls_grade Metrics.risk_factors
         Metrics.set_security_grade Metrics.set_risk_factor];
    repeat split; try reflexivity; try (now rewrite app_nil_r);
    intros z ->; cbn [Py.sub]; f_equal; lia.
Qed.

Lemma ssh_alt_exact (ports : list Z) (st : Locals.t) :
  let st' := DefaultScorer.ssh_alt_analysis ports st in
  Locals.flags st' = Locals.flags st ++ Expected.ssh_alt_flags ports /\
  (forall z, Locals.score st = Py.Int z ->
             Locals.score st' = Py.Int (z - Expected.ssh_alt_penalty ports)) /\
  Locals.pgdn_metrics st' = Locals.pgdn_metrics st.
Proof.
  cbv zeta.
  unfold DefaultScorer.ssh_alt_analysis, Expected.ssh_alt_flags,
    Expected.ssh_alt_penalty, Expected.ssh_alt_ports.
  destruct (filter _ ports) as [|p0 rest0];
    cbn [Expected.nonempty Locals.flags Locals.score Locals.pgdn_metrics];
    repeat split; try reflexivity; try (now rewrite app_nil_r);
    intros z ->; cbn [Py.sub]; f_equal; lia.
Qed.

Lemma database_exact (self : Scorer.t) (ports : list Z) (st : Locals.t) :
  let st' := DefaultScorer.database_analysis self ports st in
  Locals.flags st' = Locals.flags st ++ Expected.db_flags ports /\
  (forall z, Locals.score st = Py.Int z ->
             Locals.score st' =
             Py.Int (z - Expected.db_penalty (Scorer.weights self) ports)) /\
  Metrics.security_grade (Locals.pgdn_metrics st') =
  (if Expected.nonempty (Expected.db_ports ports) then "F"
   else Metrics.security_grade (Locals.pgdn_metrics st)) /\
  Metrics.tls_grade (Locals.pgdn_metrics st') =
  Metrics.tls_grade (Locals.pgdn_metrics st) /\
  Metrics.risk_factors (Locals.pgdn_metrics st') =
  (if Expected.nonempty (Expected.db_ports ports)
   then Py.set "database" "CRITICAL"
          (Metrics.risk_factors (Locals.pgdn_metrics st))
   else Metrics.risk_factors (Locals.pgdn_metrics st)).
Proof.
  cbv zeta.
  unfold DefaultScorer.database_analysis, Expected.db_flags,
    Expected.db_penalty, Expected.db_ports.
  destruct (filter _ ports) as [|p0 rest0];
    cbn [Expected.nonempty Locals.flags Locals.score Locals.pgdn_metrics
         Metrics.security_grade Metrics.tls_grade Metrics.risk_factors
         Metrics.set_security_grade Metrics.set_risk_factor];
    repeat split; try reflexivity; try (now rewrite app_nil_r);
    intros z ->; cbn [Py.sub]; f_equal; lia.
Qed.

Lemma port_exposure_exact (self : Scorer.t) (ports : list Z)
  (st : Locals.t) :
  let st' := DefaultScorer.port_exposure self ports st in
  Locals.flags st' = Locals.flags st ++ Expected.port_flags ports /\
  (forall z, Locals.score st = Py.Int z ->
             Locals.score st' =
             Py.Int (z - Expected.port_penalty (Scorer.weights self) ports)) /\
  Locals.pgdn_metrics st' = Locals.pgdn_metrics st.
Proof.
  cbv zeta.
  unfold DefaultScorer.port_exposure, Expected.port_flags,
    Expected.port_penalty.
  destruct (5 <? Py.len ports);
    cbn [Locals.flags Locals.score Locals.pgdn_metrics];
    repeat split; try reflexivity; try (now rewrite app_nil_r);
    intros z ->; cbn [Py.sub]; f_equal; lia.
Qed.

Lemma tls_exact (self : Scorer.t) (tls : option tls_info) (st : Locals.t) :
  exists issues st',
    DefaultScorer.tls_has_issues tls = Py.Ok issues /\
    DefaultScorer.tls_analysis self tls st = Py.Ok st' /\
    Locals.flags st' = Locals.flags st ++ Expected.tls_flags issues /\
    (forall z, Locals.score st = Py.Int z ->
               Locals.score st' =
               Py.Int (z - Expected.tls_penalty (Scorer.weights self) issues))
    /\
    Metrics.security_grade (Locals.pgdn_metrics st') =
    (if issues
     then if String.eqb
               (Metrics.security_grade (Locals.pgdn_metrics st)) "F"
          then "F" else "D"
     else Metrics.security_grade (Locals.pgdn_metrics st)) /\
    Metrics.risk_factors (Locals.pgdn_metrics st') =
    (if issues
     then Py.set "tls" "CRITICAL"
            (Metrics.risk_factors (Locals.pgdn_metrics st))
     else Metrics.risk_factors (Locals.pgdn_metrics st)) /\
    (if issues
     then Metrics.tls_grade (Locals.pgdn_metrics st') =
          Metrics.tls_grade (Locals.pgdn_metrics st)
     else exists g,
         Metrics.tls_grade (Locals.pgdn_metrics st') = Some g /\
         In g ["A"; "B"; "C"]).
Proof.
  unfold DefaultScorer.tls_analysis.
  destruct (tls_has_issues_total tls) as [[|] Hi]; rewrite Hi.
  - exists true. eexists. split; [reflexivity|].
    cbn [Py.bind]. split; [reflexivity|].
    destruct st as [s f [ver rf g c tg]].
    cbn [Locals.flags Locals.score Locals.pgdn_metrics
         Metrics.security_grade Metrics.tls_grade Metrics.risk_factors
         Metrics.set_security_grade Metrics.set_risk_factor
         Expected.tls_flags Expected.tls_penalty
         DefaultScorer.str_in existsb].
    rewrite orb_false_r.
    split; [reflexivity|]. split; [now intros z ->|].
    destruct (String.eqb g "F") eqn:E; cbn [negb].
    + apply String.eqb_eq in E. subst. repeat split; reflexivity.
    + repeat split; reflexivity.
  - exists false.
    destruct tls as [t|]; [|discriminate].
    eexists. split; [reflexivity|]. cbn [Py.bind tls_get].
    split; [reflexivity|].
    cbn [Locals.flags Locals.score Locals.pgdn_metrics
         Metrics.security_grade Metrics.tls_grade Metrics.risk_factors
         Metrics.set_tls_grade Expected.tls_flags Expected.tls_penalty].
    split; [now rewrite app_nil_r|].
    split; [intros z ->; f_equal; lia|].
    split; [reflexivity|]. split; [reflexivity|].
    eexists. split; [reflexivity|].
    unfold DefaultScorer.grade_tls.
    destruct (Py.contains "let's encrypt" _); [simpl; tauto|].
    destruct (existsb _ _); simpl; tauto.
Qed.

Lemma vuln_penalty_int (self : Scorer.t) (severity : string) :
  severity = "MEDIUM" \/ severity = "LOW" ->
  DefaultScorer.vuln_penalty self severity =
  Py.Int (Weights.vulnerabilities (Scorer.weights self)).
Proof. intros [->| ->]; reflexivity. Qed.

Lemma vuln_exact (self : Scorer.t) (vulns : Py.dict string) (st : Locals.t) :
  let st' := DefaultScorer.vuln_analysis self vulns st in
  Locals.flags st' = Locals.flags st ++ Expected.vuln_flags vulns /\
  (forall z, Forall medium_or_low vulns -> Locals.score st = Py.Int z ->
             Locals.score st' =
             Py.Int (z - Weights.vulnerabilities (Scorer.weights self)
                         * Py.len vulns)) /\
  Metrics.security_grade (Locals.pgdn_metrics st') =
  Metrics.security_grade (Locals.pgdn_metrics st) /\
  Metrics.tls_grade (Locals.pgdn_metrics st') =
  Metrics.tls_grade (Locals.pgdn_metrics st) /\
  Metrics.risk_factors (Locals.pgdn_metrics st') =
  fold_left
    (fun acc e =>
       Py.set ("vuln_" ++ fst e)%string
         (DefaultScorer._assess_vuln_severity (fst e) (snd e)) acc)
    vulns (Metrics.risk_factors (Locals.pgdn_metrics st)).
Proof.
  cbv zeta. split; [apply vuln_analysis_flags|].
  unfold DefaultScorer.vuln_analysis. revert st.
  induction vulns as [|[vuln_id vuln_desc] t IH]; intros st.
  - cbn [fold_left]. repeat split; try reflexivity.
    intros z _ ->. f_equal. unfold Py.len. simpl. lia.
  - cbn [fold_left].
    destruct (IH (DefaultScorer.vuln_step self st (vuln_id, vuln_desc)))
      as (Hs & Hg & Ht & Hr).
    split; [|split; [|split]].
    + intros z Hall Hz. inversion Hall as [|? ? He Ht']; subst.
      rewrite (Hs (z - Weights.vulnerabilities (Scorer.weights self)) Ht').
      * f_equal. unfold Py.len. cbn [List.length]. lia.
      * cbn [DefaultScorer.vuln_step Locals.score]. rewrite Hz.
        unfold medium_or_low in He. cbn [fst snd] in He.
        rewrite (vuln_penalty_int self _ He). reflexivity.
    + now rewrite Hg.
    + now rewrite Ht.
    + now rewrite Hr.
Qed.

Lemma database_score (self : Scorer.t) (ports : list Z) (st : Locals.t) :
  Locals.score (DefaultScorer.database_analysis self ports st) =
  if Expected.nonempty (Expected.db_ports ports)
  then Py.sub (Locals.score st)
         (Py.Int (Weights.database_exposure (Scorer.weights self)))
  else Locals.score st.
Proof.
  unfold DefaultScorer.database_analysis, Expected.db_ports.
  destruct (filter _ ports); reflexivity.
Qed.

Lemma port_exposure_score (self : Scorer.t) (ports : list Z)
  (st : Locals.t) :
  Locals.score (DefaultScorer.port_exposure self ports st) =
  if 5 <? Py.len ports
  then Py.sub (Locals.score st)
         (Py.Int ((Py.len ports - 5)
                  * Weights.open_ports (Scorer.weights self)))
  else Locals.score st.
Proof.
  unfold DefaultScorer.port_exposure.
  destruct (5 <? Py.len ports); reflexivity.
Qed.

(** The local variables at the end of the rules, in closed form. *)
Lemma run_rules_expected (self : Scorer.t) (d : ScanData.t) :
  let ports := get_default (ScanData.open_ports d) [] in
  let vulns := get_default (ScanData.vulns d) [] in
  exists issues st,
    DefaultScorer.tls_has_issues (get_default (ScanData.tls d) (Some []))
    = Py.Ok issues /\
    DefaultScorer.run_rules self d = Py.Ok st /\
    Locals.flags st = Expected.flags ports issues vulns /\
    Locals.score st = expected_score self ports issues vulns /\
    (Forall medium_or_low vulns ->
     Locals.score st =
     DefaultScorer.clamp
       (Py.Int (100 - Expected.penalty (Scorer.weights self) ports issues
                        vulns))) /\
    Metrics.security_grade (Locals.pgdn_metrics st) =
    Expected.grade ports issues /\
    Metrics.risk_factors (Locals.pgdn_metrics st) =
    expected_risk_factors ports issues vulns /\
    Metrics.compliance_score (Locals.pgdn_metrics st) =
    Z.max 0
      (100 - Py.len (filter (fun f => Py.contains "CRITICAL" f)
                       (Expected.flags ports issues vulns)) * 25) /\
    (if issues
     then Metrics.tls_grade (Locals.pgdn_metrics st) = None
     else exists g,
         Metrics.tls_grade (Locals.pgdn_metrics st) = Some g /\
         In g ["A"; "B"; "C"]).
Proof.
  cbv zeta. unfold DefaultScorer.run_rules.
  set (ports := get_default (ScanData.open_ports d) []).
  set (vulns := get_default (ScanData.vulns d) []).
  set (st0 := Locals.make (Py.Int 100) []
                (Metrics.make (Scorer.version self) [] "A+" 100 None)).
  destruct (docker_exact self ports st0) as (F1 & S1 & G1 & T1 & R1).
  set (st1 := DefaultScorer.docker_analysis self ports st0) in *.
  destruct (ssh_exact self ports st1) as (F2 & S2 & G2 & T2 & R2).
  set (st2 := DefaultScorer.ssh_analysis self ports st1) in *.
  destruct (ssh_alt_exact ports st2) as (F3 & S3 & M3).
  set (st3 := DefaultScorer.ssh_alt_analysis ports st2) in *.
  destruct (tls_exact self (get_default (ScanData.tls d) (Some [])) st3)
    as (issues & st4 & Hi & Htls & F4 & S4 & G4 & R4 & T4).
  rewrite Htls. cbn [Py.bind].
  destruct (vuln_exact self vulns st4) as (F5 & S5 & G5 & T5 & R5).
  set (st5 := DefaultScorer.vuln_analysis self vulns st4) in *.
  destruct (database_exact self ports st5) as (F6 & S6 & G6 & T6 & R6).
  set (st6 := DefaultScorer.database_analysis self ports st5) in *.
  destruct (port_exposure_exact self ports st6) as (F7 & S7 & M7).
  set (st7 := DefaultScorer.port_exposure self ports st6) in *.
  assert (Hflags : Locals.flags st7 = Expected.flags ports issues vulns).
  { rewrite F7, F6, F5, F4, F3, F2, F1. unfold Expected.flags.
    cbn [st0 Locals.flags app]. now rewrite <- !app_assoc. }
  exists issues. eexists. split; [exact Hi|]. split; [reflexivity|].
  cbn [Locals.flags Locals.score Locals.pgdn_metrics].
  unfold DefaultScorer.compliance.
  cbn [Locals.flags Locals.score Locals.pgdn_metrics].
  split; [exact Hflags|]. split; [|split; [|split; [|split; [|split]]]].
  - unfold expected_score. cbv zeta. f_equal.
    unfold st7. rewrite port_exposure_score. unfold st6.
    rewrite database_score. unfold st5. rewrite vuln_analysis_score.
    rewrite (S4 _ (S3 _ (S2 _ (S1 100 eq_refl)))). reflexivity.
  - intros Hall. f_equal.
    rewrite (S7 _ (S6 _ (S5 _ Hall (S4 _ (S3 _ (S2 _ (S1 100 eq_refl))))))).
    f_equal. unfold Expected.penalty. lia.
  - unfold DefaultScorer.compliance.
    cbn [Locals.pgdn_metrics Metrics.security_grade
         Metrics.set_compliance_score].
    rewrite M7, G6, G5, G4, M3, G2, G1. unfold Expected.grade.
    cbn [st0 Locals.pgdn_metrics Metrics.security_grade].
    destruct (Py.mem 2375 ports), (Expected.nonempty (Expected.db_ports ports)),
      issues; reflexivity.
  - unfold DefaultScorer.compliance.
    cbn [Locals.pgdn_metrics Metrics.risk_factors
         Metrics.set_compliance_score].
    rewrite M7, R6, R5, R4, M3, R2, R1. reflexivity.
  - unfold DefaultScorer.compliance.
    cbn [Locals.pgdn_metrics Metrics.compliance_score
         Metrics.set_compliance_score].
    now rewrite Hflags.
  - unfold DefaultScorer.compliance.
    cbn [Locals.pgdn_metrics Metrics.tls_grade Metrics.set_compliance_score].
    rewrite M7, T6, T5.
    destruct issues.
    + rewrite T4, M3, T2, T1. reflexivity.
    + exact T4.
Qed.

(** ** Vulnerabilities in the report *)

Lemma fold_left_pointwise {A B : Type} (f g : A -> B -> A) (l : list B) :
  (forall a b, f a b = g a b) ->
  forall a, fold_left f l a = fold_left g l a.
Proof.
  intros H. induction l as [|b t IH]; intros a; simpl; [reflexivity|].
  now rewrite H, IH.
Qed.

(** C5 (amended): the severity of an entry is the first matching row of
    the keyword table on the lower-cased text "id, one space, description";
    the penalty of a severity equals 18 times 1.5 (CRITICAL), 1.2 (HIGH) or
    1.0 (otherwise); the loop body subtracts that penalty and appends
    "Vulnerability: id (severity)"; and the score of the report is what the
    later rules and the clamp make of the score before the loop minus the
    penalties of all entries, subtracted in order, while its flags hold one
    such flag per entry, in order, between the flags of the earlier and of
    the later rules. *)
Theorem vulnerability_rule (self : Scorer.t) :
  Scorer.weights self = Scorer.weights DefaultScorer.init ->
  (forall vuln_id vuln_desc : string,
      DefaultScorer._assess_vuln_severity vuln_id vuln_desc =
      VulnSpec.classify (VulnSpec.joined_by_space vuln_id vuln_desc)) /\
  (forall severity : string,
      Py.eq (DefaultScorer.vuln_penalty self severity)
        (Py.mul (Py.Int 18) (Py.Float (VulnSpec.multiplier severity)))
      = true) /\
  (forall (st : Locals.t) (vuln_id vuln_desc : string),
      let severity := severity_of (vuln_id, vuln_desc) in
      let st' := DefaultScorer.vuln_step self st (vuln_id, vuln_desc) in
      Locals.score st' =
      Py.sub (Locals.score st) (DefaultScorer.vuln_penalty self severity) /\
      Locals.flags st' = Locals.flags st ++ [VulnSpec.flag vuln_id severity])
  /\
  (forall (now : string) (d : ScanData.t),
      let ports := get_default (ScanData.open_ports d) [] in
      let vulns := get_default (ScanData.vulns d) [] in
      exists issues r,
        DefaultScorer.tls_has_issues (get_default (ScanData.tls d) (Some []))
        = Py.Ok issues /\
        DefaultScorer.score self now d = Py.Ok r /\
        score_of r =
        Some (score_after_vulns self ports
                (fold_left
                   (fun s e =>
                      Py.sub s
                        (DefaultScorer.vuln_penalty self (severity_of e)))
                   vulns (score_before_vulns self ports issues))) /\
        flags_of r =
        Some (Expected.docker_flags ports ++ Expected.ssh_flags ports
              ++ Expected.ssh_alt_flags ports ++ Expected.tls_flags issues
              ++ map (fun e => VulnSpec.flag (fst e) (severity_of e)) vulns
              ++ Expected.db_flags ports ++ Expected.port_flags ports))
  /\
  DefaultScorer._assess_vuln_severity "CVE-1" "Remote Code Execution"
  = "CRITICAL"
  /\
  DefaultScorer._assess_vuln_severity "CVE-2" "minor XSS issue" = "MEDIUM".
Proof.
  intros Hw.
  split; [exact classify_joined_by_space|].
  split; [intros severity; now apply vuln_penalty_value|].
  split; [|split; [|split; reflexivity]].
  - intros st vuln_id vuln_desc. cbv zeta. unfold severity_of. cbn [fst snd].
    rewrite <- classify_joined_by_space. split; reflexivity.
  - intros now d. cbv zeta.
    destruct (run_rules_expected self d)
      as (issues & st & Hi & Hrun & Hf & Hs & _).
    cbv zeta in Hf, Hs.
    exists issues. unfold DefaultScorer.score. rewrite Hrun. cbn [Py.bind].
    eexists. split; [exact Hi|]. split; [reflexivity|].
    change (score_of (DefaultScorer.build_report self now d st))
      with (Some (Locals.score st)).
    change (flags_of (DefaultScorer.build_report self now d st))
      with (Some (Locals.flags st)).
    rewrite Hs, Hf.
    rewrite (fold_left_pointwise
               (fun s e =>
                  Py.sub s (DefaultScorer.vuln_penalty self (severity_of e)))
               (fun s e =>
                  Py.sub s
                    (DefaultScorer.vuln_penalty self
                       (DefaultScorer._assess_vuln_severity (fst e)
                          (snd e)))))
      by (intros a b; unfold severity_of;
          now rewrite classify_joined_by_space).
    rewrite (map_ext (fun e => VulnSpec.flag (fst e) (severity_of e))
               (fun e =>
                  VulnSpec.flag (fst e)
                    (DefaultScorer._assess_vuln_severity (fst e) (snd e))))
      by (intros e; unfold severity_of;
          now rewrite classify_joined_by_space).
    split; reflexivity.
Qed.

(** C5 with the weights of [__init__], on a record with one CRITICAL and
    one MEDIUM entry: [100 - 27.0 - 18] is the float 55.0. *)
Lemma vulnerability_rule_witness :
  Scorer.weights DefaultScorer.init = Scorer.weights DefaultScorer.init /\
  exists r,
    DefaultScorer.score DefaultScorer.init "2025-01-01T00:00:00"
      (ScanData.make (Some "10.0.0.1") (Some [443])
         (Some (Some [("issuer", Some "DigiCert");
                      ("expiry", Some "2030-01-01")]))
         (Some [("CVE-1", "Remote Code Execution");
                ("CVE-2", "minor XSS issue")]) None) = Py.Ok r /\
    score_of r = Some (Py.Float (Py.float_of_int 55)) /\
    flags_of r =
    Some ["Vulnerability: CVE-1 (CRITICAL)"; "Vulnerability: CVE-2 (MEDIUM)"].
Proof.
  split; [reflexivity|].
  destruct (vulnerability_rule DefaultScorer.init eq_refl)
    as (_ & _ & _ & Hreport & _).
  destruct (Hreport "2025-01-01T00:00:00"
              (ScanData.make (Some "10.0.0.1") (Some [443])
                 (Some (Some [("issuer", Some "DigiCert");
                              ("expiry", Some "2030-01-01")]))
                 (Some [("CVE-1", "Remote Code Execution");
                        ("CVE-2", "minor XSS issue")]) None))
    as (issues & r & Hi & Hr & Hs & Hf).
  vm_compute in Hi. injection Hi as <-.
  exists r. split; [exact Hr|]. split.
  - rewrite Hs. vm_compute. reflexivity.
  - rewrite Hf. vm_compute. reflexivity.
Defined.

(** C5 as worded: on the plain concatenation "rce" the table answers
    CRITICAL, while the source, which searches "r ce", answers LOW. *)
Lemma concatenation_differs :
  VulnSpec.classify (VulnSpec.concatenation "r" "ce") = "CRITICAL" /\
  DefaultScorer._assess_vuln_severity "r" "ce" = "LOW" /\
  VulnSpec.classify (VulnSpec.concatenation "Remote" "Code Execution") = "LOW"
  /\
  DefaultScorer._assess_vuln_severity "Remote" "Code Execution" = "CRITICAL".
Proof. repeat split; reflexivity. Qed.

(** ** When the score is an integer *)

(** *** Rounding keeps integers

    Subtracting two doubles that are integers gives an integer (or a
    non-finite double): the shifts of the rounding procedure drop no bit
    while the exponent is negative. *)

Lemma pow2_split (e : Z) : e < 0 -> 2 ^ (- e) = 2 * 2 ^ (- (e + 1)).
Proof.
  intros He. replace (- e) with (Z.succ (- (e + 1))) by lia.
  rewrite Z.pow_succ_r by lia. reflexivity.
Qed.

Lemma shr_1_exact (r : shr_record) (e : Z) :
  exact_at r e -> exact_at (shr_1 r) (e + 1).
Proof.
  intros H He. destruct (H ltac:(lia)) as (Hr & Hs & k & Hk).
  destruct r as [m r s]. cbn [shr_r shr_s shr_m] in *. subst r s.
  rewrite pow2_split in Hk by lia.
  set (X := 2 ^ (- (e + 1))) in *.
  destruct m as [|[p|p|]|[p|p|]]; cbn [shr_1 orb shr_r shr_s shr_m];
    try (rewrite ?Pos2Z.inj_xI, ?Pos2Z.neg_xI in Hk; exfalso; lia);
    (split; [reflexivity|]); (split; [reflexivity|]).
  - apply Z.divide_0_r.
  - exists k. rewrite Pos2Z.inj_xO in Hk. lia.
  - exists k. rewrite Pos2Z.neg_xO in Hk. lia.
Qed.

Lemma iter_shr_1_exact (p : positive) :
  forall (r : shr_record) (e : Z),
    exact_at r e -> exact_at (iter_pos shr_1 p r) (e + Zpos p).
Proof.
  induction p as [p IH|p IH|]; intros r e H; cbn [iter_pos].
  - replace (e + Zpos p~1) with (((e + 1) + Zpos p) + Zpos p) by lia.
    apply IH, IH, shr_1_exact, H.
  - replace (e + Zpos p~0) with ((e + Zpos p) + Zpos p) by lia.
    apply IH, IH, H.
  - apply shr_1_exact, H.
Qed.

Lemma shr_exact (r : shr_record) (e n : Z) :
  exact_at r e -> exact_at (fst (shr r e n)) (snd (shr r e n)).
Proof.
  intros H. destruct n as [|p|p]; cbn [shr fst snd]; try assumption.
  now apply iter_shr_1_exact.
Qed.

Lemma shr_fexp_exact (m e : Z) :
  whole_at m e ->
  exact_at (fst (shr_fexp Py.prec Py.emax m e loc_Exact))
           (snd (shr_fexp Py.prec Py.emax m e loc_Exact)).
Proof.
  intros H. unfold shr_fexp. apply shr_exact.
  intros He. cbn [shr_record_of_loc shr_r shr_s shr_m]. auto.
Qed.

Lemma binary_round_aux_whole (sx : bool) (mx ex : Z) :
  whole_at mx ex ->
  whole_float (binary_round_aux Py.prec Py.emax sx mx ex loc_Exact).
Proof.
  intros H. unfold binary_round_aux.
  pose proof (shr_fexp_exact mx ex H) as H1.
  destruct (shr_fexp Py.prec Py.emax mx ex loc_Exact) as [mrs' e'].
  cbn [fst snd] in H1.
  assert (H2 : whole_at
                 (round_nearest_even (shr_m mrs') (loc_of_shr_record mrs'))
                 e').
  { intros He. destruct (H1 He) as (Hr & Hs & Hd).
    destruct mrs' as [m r s]. cbn [shr_r shr_s shr_m] in *. subst r s.
    exact Hd. }
  pose proof (shr_fexp_exact _ _ H2) as H3.
  destruct (shr_fexp Py.prec Py.emax _ e' loc_Exact) as [mrs'' e''].
  cbn [fst snd] in H3.
  destruct (shr_m mrs'') as [|m|m] eqn:Hm; cbn [whole_float]; auto.
  destruct (e'' <=? Py.emax - Py.prec); cbn [whole_float]; auto.
  intros He. destruct (H3 He) as (_ & _ & Hd). now rewrite Hm in Hd.
Qed.

Lemma shift_value (mx d : positive) :
  Zpos (Pos.iter xO mx d) = Zpos mx * 2 ^ Zpos d.
Proof.
  change (Pos.iter xO mx d) with (shift_pos d mx).
  rewrite shift_pos_correct.
  change (Zpower_pos 2 d) with (2 ^ Zpos d). lia.
Qed.

Lemma shl_align_whole (mx : positive) (ex ez : Z) :
  ez <= ex -> whole_at (Zpos mx) ex ->
  whole_at (Zpos (fst (shl_align mx ex ez))) ez.
Proof.
  intros Hle H. unfold shl_align.
  destruct (ez - ex) as [|d|d] eqn:Hd; cbn [fst].
  - replace ez with ex by lia. exact H.
  - lia.
  - rewrite shift_value. intros He.
    assert (Hex : ex = ez + Zpos d) by lia.
    destruct (Z.ltb_spec ex 0) as [Hneg|Hpos].
    + destruct (H Hneg) as [k Hk]. exists k. rewrite Hk.
      replace (- ez) with (- ex + Zpos d) by lia.
      rewrite Z.pow_add_r by lia. lia.
    + exists (Zpos mx * 2 ^ ex).
      replace (Zpos d) with (ex + - ez) by lia.
      rewrite Z.pow_add_r by lia. lia.
Qed.

Lemma binary_round_whole (sx : bool) (mx : positive) (ex : Z) :
  whole_at (Zpos mx) ex ->
  whole_float (binary_round Py.prec Py.emax sx mx ex).
Proof.
  intros H. unfold binary_round, shl_align.
  destruct (_ - ex) as [|d|d] eqn:Hd.
  - now apply binary_round_aux_whole.
  - now apply binary_round_aux_whole.
  - apply binary_round_aux_whole.
    set (ez := fexp Py.prec Py.emax (Zpos (digits2_pos mx) + ex)) in *.
    pose proof (shl_align_whole mx ex ez ltac:(lia) H) as H'.
    unfold shl_align in H'. rewrite Hd in H'. exact H'.
Qed.

Lemma whole_at_opp (m e : Z) : whole_at m e -> whole_at (- m) e.
Proof. intros H He. apply Z.divide_opp_r. auto. Qed.

Lemma binary_normalize_whole (m e : Z) (szero : bool) :
  whole_at m e -> whole_float (binary_normalize Py.prec Py.emax m e szero).
Proof.
  intros H. destruct m as [|p|p]; cbn [binary_normalize whole_float]; auto.
  - now apply binary_round_whole.
  - apply binary_round_whole. now apply (whole_at_opp (Zneg p)).
Qed.

Lemma float_of_int_whole (z : Z) : whole_float (Py.float_of_int z).
Proof. apply binary_normalize_whole. intros H. lia. Qed.

Lemma whole_at_cond_opp (s : bool) (m e : Z) :
  whole_at m e -> whole_at (cond_Zopp s m) e.
Proof. destruct s; [apply whole_at_opp | auto]. Qed.

Lemma SFsub_whole (x y : Py.float) :
  whole_float x -> whole_float y ->
  whole_float (SFsub Py.prec Py.emax x y).
Proof.
  intros Hx Hy.
  destruct x as [sx|sx| |sx mx ex], y as [sy|sy| |sy my ey];
    cbn [SFsub whole_float]; auto;
    try (destruct sx, sy; cbn [whole_float]; exact I).
  apply binary_normalize_whole. intros He.
  apply Z.divide_sub_r;
    apply whole_at_cond_opp; try assumption;
    apply shl_align_whole; try assumption; lia.
Qed.

Lemma to_float_whole (a : Py.num) : whole a -> whole_float (Py.to_float a).
Proof. destruct a; [intros _; apply float_of_int_whole | auto]. Qed.

Lemma sub_whole (a b : Py.num) : whole a -> whole b -> whole (Py.sub a b).
Proof.
  intros Ha Hb.
  destruct a as [x|f], b as [y|g]; cbn [Py.sub whole]; auto;
    apply SFsub_whole; try assumption; apply float_of_int_whole.
Qed.

(** *** The score of the report *)

(** The final clamp of a number with an integer value is an integer between
    0 and 100. *)
Lemma clamp_whole (s : Py.num) :
  whole s ->
  Py.is_integral (DefaultScorer.clamp s) = true /\
  exists z, Py.eq (DefaultScorer.clamp s) (Py.Int z) = true /\ 0 <= z <= 100.
Proof.
  intros Hs. unfold DefaultScorer.clamp, Py.max, Py.min.
  destruct (Py.lt s (Py.Int 100)) eqn:Hlt;
    [|split; [reflexivity|exists 100; split; [reflexivity|lia]]].
  destruct (Py.gt s (Py.Int 0)) eqn:Hgt;
    [|split; [reflexivity|exists 0; split; [reflexivity|lia]]].
  destruct s as [x|f].
  - split; [reflexivity|]. exists x.
    unfold Py.lt, Py.gt, Py.eq in *. cbn [Py.cmp] in *.
    rewrite Z.compare_refl. split; [reflexivity|].
    destruct (x ?= 100) eqn:H1; try discriminate.
    destruct (x ?= 0) eqn:H0; try discriminate.
    rewrite Z.compare_lt_iff in H1. rewrite Z.compare_gt_iff in H0. lia.
  - unfold Py.lt, Py.gt, Py.eq in *. cbn [Py.cmp] in *.
    destruct f as [sz|si| |sx m e]; cbn [Py.cmp_float_int] in *;
      try discriminate; [destruct si; discriminate|].
    cbn [whole whole_float] in Hs. cbn [Py.is_integral].
    destruct (Z.leb_spec 0 e) as [He|He].
    + split; [reflexivity|].
      exists (cond_Zopp sx (Zpos m) * 2 ^ e). rewrite Z.compare_refl.
      split; [reflexivity|].
      destruct (_ ?= 100) eqn:H1; try discriminate.
      destruct (_ ?= 0) eqn:H0; try discriminate.
      rewrite Z.compare_lt_iff in H1. rewrite Z.compare_gt_iff in H0. lia.
    + destruct (Hs He) as [k Hk].
      assert (HX : 0 < 2 ^ (- e)) by (apply Z.pow_pos_nonneg; lia).
      split.
      * rewrite Hk, Z.mod_mul by lia. reflexivity.
      * destruct (_ ?= 100 * _) eqn:H1; try discriminate.
        destruct (_ ?= 0 * _) eqn:H0; try discriminate.
        rewrite Z.compare_lt_iff in H1. rewrite Z.compare_gt_iff in H0.
        destruct sx; cbn [cond_Zopp] in *; [lia|].
        exists k. rewrite Hk, Z.compare_refl. split; [reflexivity|].
        rewrite Hk in H0, H1. nia.
Qed.

(** [18 * 1.5] is the double 27.0. *)
Example critical_penalty :
  Py.mul (Py.Int 18) (Py.Float (Py.literal 15 10)) =
  Py.Float (Py.float_of_int 27).
Proof. vm_compute. reflexivity. Qed.

Lemma vuln_penalty_whole (self : Scorer.t) (severity : string) :
  Weights.vulnerabilities (Scorer.weights self) = 18 ->
  severity <> "HIGH" ->
  whole (DefaultScorer.vuln_penalty self severity).
Proof.
  intros Hw Hs. unfold DefaultScorer.vuln_penalty. rewrite Hw.
  destruct (String.eqb severity "CRITICAL").
  - rewrite critical_penalty. apply float_of_int_whole.
  - apply String.eqb_neq in Hs. rewrite Hs. exact I.
Qed.

Lemma vuln_loop_whole (self : Scorer.t) (vulns : Py.dict string)
  (s : Py.num) :
  Weights.vulnerabilities (Scorer.weights self) = 18 ->
  Forall not_high vulns ->
  whole s ->
  whole (fold_left
           (fun s e =>
              Py.sub s
                (DefaultScorer.vuln_penalty self
                   (DefaultScorer._assess_vuln_severity (fst e) (snd e))))
           vulns s).
Proof.
  intros Hw Hall. revert s.
  induction Hall as [|e t He _ IH]; intros s Hs; cbn [fold_left]; auto.
  apply IH, sub_whole; [assumption|]. now apply vuln_penalty_whole.
Qed.

Lemma expected_score_whole (self : Scorer.t) (ports : list Z)
  (issues : bool) (vulns : Py.dict string) :
  Weights.vulnerabilities (Scorer.weights self) = 18 ->
  Forall not_high vulns ->
  Py.is_integral (expected_score self ports issues vulns) = true /\
  exists z,
    Py.eq (expected_score self ports issues vulns) (Py.Int z) = true /\
    0 <= z <= 100.
Proof.
  intros Hw Hall. unfold expected_score. cbv zeta. apply clamp_whole.
  pose proof (vuln_loop_whole self vulns
                (score_before_vulns self ports issues) Hw Hall I) as H.
  unfold score_before_vulns in H. cbv zeta in H.
  destruct (5 <? Py.len ports);
    destruct (Expected.nonempty (Expected.db_ports ports));
    repeat apply sub_whole; try exact I; exact H.
Qed.

(** C3 (amended): the score of the report is a number [s] with
    [0 <= s <= 100].  It is a Python int between 0 and 100 when every
    vulnerability is classified MEDIUM or LOW.  With the vulnerability
    weight 18 of [__init__] its value is an integer between 0 and 100
    whenever no vulnerability is classified HIGH, so also when penalties
    with multiplier 1.5 were subtracted ([18 * 1.5] is 27.0). *)
Theorem score_integral_unless_high (self : Scorer.t) (now : string)
  (d : ScanData.t) :
  exists r s,
    DefaultScorer.score self now d = Py.Ok r /\
    score_of r = Some s /\
    in_range s /\
    (Forall medium_or_low (get_default (ScanData.vulns d) []) ->
     exists z, s = Py.Int z /\ 0 <= z <= 100) /\
    (Weights.vulnerabilities (Scorer.weights self) = 18 ->
     Forall not_high (get_default (ScanData.vulns d) []) ->
     Py.is_integral s = true /\
     exists z, Py.eq s (Py.Int z) = true /\ 0 <= z <= 100).
Proof.
  destruct (run_rules_expected self d)
    as (issues & st & _ & Hrun & _ & Hs & Hint & _).
  cbv zeta in Hs, Hint.
  unfold DefaultScorer.score. rewrite Hrun. cbn [Py.bind].
  eexists _, _. split; [reflexivity|]. split; [reflexivity|].
  cbn [Locals.score].
  split; [|split].
  - rewrite Hs. unfold expected_score. cbv zeta. apply clamp_in_range.
  - intros Hall. rewrite (Hint Hall), clamp_int. eexists.
    split; [reflexivity|lia].
  - intros Hw Hall. rewrite Hs. now apply expected_score_whole.
Qed.

(** C3 on two records: one MEDIUM entry gives a Python int, one CRITICAL
    entry gives the float 73.0, whose value is the integer 73. *)
Lemma score_integral_unless_high_witness :
  (exists r z,
      DefaultScorer.score DefaultScorer.init "2025-01-01T00:00:00"
        (ScanData.make (Some "10.0.0.1") (Some [443])
           (Some (Some [("issuer", Some "DigiCert");
                        ("expiry", Some "2030-01-01")]))
           (Some [("CVE-2", "minor XSS issue")]) None) = Py.Ok r /\
      score_of r = Some (Py.Int z) /\ 0 <= z <= 100) /\
  (exists r,
      DefaultScorer.score DefaultScorer.init "2025-01-01T00:00:00"
        (ScanData.make (Some "10.0.0.1") (Some [443])
           (Some (Some [("issuer", Some "DigiCert");
                        ("expiry", Some "2030-01-01")]))
           (Some [("CVE-1", "Remote Code Execution")]) None) = Py.Ok r /\
      score_of r = Some (Py.Float (Py.float_of_int 73)) /\
      Py.is_integral (Py.Float (Py.float_of_int 73)) = true /\
      Py.eq (Py.Float (Py.float_of_int 73)) (Py.Int 73) = true).
Proof.
  split.
  - destruct (score_integral_unless_high DefaultScorer.init
                "2025-01-01T00:00:00"
                (ScanData.make (Some "10.0.0.1") (Some [443])
                   (Some (Some [("issuer", Some "DigiCert");
                                ("expiry", Some "2030-01-01")]))
                   (Some [("CVE-2", "minor XSS issue")]) None))
      as (r & s & Hr & Hs & _ & Hint & _).
    destruct Hint as (z & -> & Hz).
    { constructor; [left; reflexivity | constructor]. }
    exists r, z. split; [exact Hr|]. split; [exact Hs | exact Hz].
  - destruct (score_integral_unless_high DefaultScorer.init
                "2025-01-01T00:00:00"
                (ScanData.make (Some "10.0.0.1") (Some [443])
                   (Some (Some [("issuer", Some "DigiCert");
                                ("expiry", Some "2030-01-01")]))
                   (Some [("CVE-1", "Remote Code Execution")]) None))
      as (r & s & Hr & Hs & _ & _ & Hwhole).
    destruct Hwhole as (Hi & z & Heq & Hz).
    { reflexivity. }
    { constructor; [intros H; vm_compute in H; discriminate | constructor]. }
    exists r. split; [exact Hr|].
    vm_compute in Hr. injection Hr as <-.
    vm_compute in Hs. injection Hs as <-.
    split; [reflexivity|]. split; [exact Hi | reflexivity].
Defined.

(** C3 as worded: one HIGH vulnerability on an otherwise clean record gives
    [100 - 18 * 1.2], the double 78.4, which is not integral. *)
Lemma fractional_score :
  exists r,
    DefaultScorer.score DefaultScorer.init "2025-01-01T00:00:00"
      (ScanData.make (Some "10.0.0.1") (Some [443])
         (Some (Some [("issuer", Some "DigiCert");
                      ("expiry", Some "2030-01-01")]))
         (Some [("CVE-9", "privilege escalation")]) None)
    = Py.Ok r /\
    score_of r =
    Some (Py.Float (S754_finite false 5516909543528858 (-46))) /\
    Py.is_integral (Py.Float (S754_finite false 5516909543528858 (-46)))
    = false /\
    Py.lt (Py.Int 78) (Py.Float (S754_finite false 5516909543528858 (-46)))
    = true /\
    Py.lt (Py.Float (S754_finite false 5516909543528858 (-46))) (Py.Int 79)
    = true.
Proof.
  eexists. split; [vm_compute; reflexivity|].
  repeat split; reflexivity.
Qed.

(** * Further properties of the scorers *)

(** ** Flags, score and grade of the baseline report *)

(** X1: the flags of the baseline report are the contributions of the
    rules in source order: Docker, SSH, alternative SSH ports, TLS, one flag
    per vulnerability in input order, database ports, port count. *)
Theorem baseline_flags_in_rule_order (self : Scorer.t) (now : string)
  (d : ScanData.t) :
  exists issues r,
    DefaultScorer.tls_has_issues (get_default (ScanData.tls d) (Some []))
    = Py.Ok issues /\
    DefaultScorer.score self now d = Py.Ok r /\
    flags_of r =
    Some (Expected.flags (get_default (ScanData.open_ports d) []) issues
            (get_default (ScanData.vulns d) [])).
Proof.
  destruct (run_rules_expected self d)
    as (issues & st & Hi & Hrun & Hf & _).
  exists issues. unfold DefaultScorer.score. rewrite Hrun. cbn [Py.bind].
  eexists. split; [exact Hi|]. split; [reflexivity|].
  unfold flags_of. cbn. now rewrite Hf.
Qed.

(** X2: when every vulnerability is MEDIUM or LOW the baseline score is
    the integer [max(0, min(100, 100 - p))], where [p] adds the Docker
    penalty (weight, or 15 for port 2376), the SSH weight, 8 for
    alternative SSH ports, the TLS weight, the vulnerability weight per
    entry, the database weight once, and the port weight per port beyond
    five. *)
Theorem baseline_score_formula (self : Scorer.t) (now : string)
  (d : ScanData.t) :
  Forall medium_or_low (get_default (ScanData.vulns d) []) ->
  exists issues r,
    DefaultScorer.tls_has_issues (get_default (ScanData.tls d) (Some []))
    = Py.Ok issues /\
    DefaultScorer.score self now d = Py.Ok r /\
    score_of r =
    Some (Py.Int
            (Z.max 0
               (Z.min 100
                  (100 - Expected.penalty (Scorer.weights self)
                           (get_default (ScanData.open_ports d) []) issues
                           (get_default (ScanData.vulns d) []))))).
Proof.
  intros Hall.
  destruct (run_rules_expected self d)
    as (issues & st & Hi & Hrun & _ & _ & Hs & _).
  exists issues. unfold DefaultScorer.score. rewrite Hrun. cbn [Py.bind].
  eexists. split; [exact Hi|]. split; [reflexivity|].
  unfold score_of. cbn. rewrite (Hs Hall). now rewrite clamp_int.
Qed.

(** X2 on a record with ports 22 and 2376, no TLS and one LOW entry:
    [100 - 15 - 12 - 28 - 18 = 27]. *)
Lemma baseline_score_formula_witness :
  exists r,
    DefaultScorer.score DefaultScorer.init "2025-01-01T00:00:00"
      (ScanData.make (Some "10.0.0.1") (Some [22; 2376]) None
         (Some [("CVE-3", "information leak")]) None) = Py.Ok r /\
    score_of r = Some (Py.Int 27).
Proof.
  destruct (baseline_score_formula DefaultScorer.init "2025-01-01T00:00:00"
              (ScanData.make (Some "10.0.0.1") (Some [22; 2376]) None
                 (Some [("CVE-3", "information leak")]) None))
    as (issues & r & Hi & Hr & Hs).
  - constructor; [right; reflexivity | constructor].
  - exists r. split; [exact Hr|].
    injection Hi as <-. exact Hs.
Defined.

(** X3: the security grade of the baseline report is F when port 2375 or
    a database port is open, otherwise D when the TLS condition finds an
    issue, otherwise A+; no other grade is ever produced. *)
Theorem security_grade_cases (self : Scorer.t) (now : string)
  (d : ScanData.t) :
  exists issues r m,
    DefaultScorer.tls_has_issues (get_default (ScanData.tls d) (Some []))
    = Py.Ok issues /\
    DefaultScorer.score self now d = Py.Ok r /\
    metrics_of r = Some m /\
    Metrics.security_grade m =
    Expected.grade (get_default (ScanData.open_ports d) []) issues /\
    In (Metrics.security_grade m) ["A+"; "D"; "F"].
Proof.
  destruct (run_rules_expected self d)
    as (issues & st & Hi & Hrun & _ & _ & _ & Hg & _).
  exists issues. unfold DefaultScorer.score. rewrite Hrun. cbn [Py.bind].
  eexists _, _. split; [exact Hi|]. split; [reflexivity|].
  split; [reflexivity|]. split; [exact Hg|].
  rewrite Hg. unfold Expected.grade.
  destruct (_ || _); [simpl; tauto|]. destruct issues; simpl; tauto.
Qed.

(** ** The [risk_factors] dictionary *)

Lemma keys_set (k k' v : string) (rf : Py.dict string) :
  In k (keys (Py.set k' v rf)) <-> k = k' \/ In k (keys rf).
Proof.
  unfold keys. induction rf as [|[k0 v0] t IH]; simpl.
  - intuition congruence.
  - destruct (String.eqb k' k0) eqn:E; simpl.
    + apply String.eqb_eq in E. subst. intuition congruence.
    + rewrite IH. intuition congruence.
Qed.

Lemma keys_set_NoDup (k v : string) (rf : Py.dict string) :
  NoDup (keys rf) -> NoDup (keys (Py.set k v rf)).
Proof.
  unfold keys. induction rf as [|[k0 v0] t IH]; simpl; intros Hnd.
  - repeat constructor. intros [].
  - inversion Hnd as [|? ? Hnin Ht]; subst.
    destruct (String.eqb k k0) eqn:E; simpl.
    + apply String.eqb_eq in E. subst. now constructor.
    + apply String.eqb_neq in E. constructor; [|now apply IH].
      intros Hin. apply (keys_set k0 k v t) in Hin. intuition congruence.
Qed.

Lemma vuln_keys (vulns : Py.dict string) (rf : Py.dict string) (k : string) :
  In k (keys (fold_left
                (fun acc e =>
                   Py.set ("vuln_" ++ fst e)%string
                     (DefaultScorer._assess_vuln_severity (fst e) (snd e))
                     acc)
                vulns rf)) ->
  In k (keys rf) \/ exists e, In e vulns /\ k = ("vuln_" ++ fst e)%string.
Proof.
  revert rf. induction vulns as [|e t IH]; intros rf; cbn [fold_left].
  - auto.
  - intros H. apply IH in H as [H|(e' & He' & ->)].
    + apply keys_set in H as [->|H]; [right|now left].
      exists e. split; [now left|reflexivity].
    + right. exists e'. split; [now right|reflexivity].
Qed.

Lemma vuln_keys_NoDup (vulns : Py.dict string) (rf : Py.dict string) :
  NoDup (keys rf) ->
  NoDup (keys (fold_left
                 (fun acc e =>
                    Py.set ("vuln_" ++ fst e)%string
                      (DefaultScorer._assess_vuln_severity (fst e) (snd e))
                      acc)
                 vulns rf)).
Proof.
  revert rf. induction vulns as [|e t IH]; intros rf Hnd; cbn [fold_left].
  - assumption.
  - apply IH. now apply keys_set_NoDup.
Qed.

(** X4: every key of [risk_factors] in the baseline report is one of
    docker, ssh, tls, database, or [vuln_] followed by the id of an entry
    of [vulns]; no key occurs twice. *)
Theorem risk_factor_keys (self : Scorer.t) (now : string) (d : ScanData.t) :
  exists r m,
    DefaultScorer.score self now d = Py.Ok r /\
    metrics_of r = Some m /\
    NoDup (keys (Metrics.risk_factors m)) /\
    forall k,
      In k (keys (Metrics.risk_factors m)) ->
      In k ["docker"; "ssh"; "tls"; "database"] \/
      exists e,
        In e (get_default (ScanData.vulns d) []) /\
        k = ("vuln_" ++ fst e)%string.
Proof.
  destruct (run_rules_expected self d)
    as (issues & st & _ & Hrun & _ & _ & _ & _ & Hrf & _).
  unfold DefaultScorer.score. rewrite Hrun. cbn [Py.bind].
  eexists _, _. split; [reflexivity|]. split; [reflexivity|].
  rewrite Hrf. unfold expected_risk_factors. cbv zeta.
  set (ports := get_default (ScanData.open_ports d) []).
  set (rf3 := if issues then Py.set "tls" "CRITICAL" _ else _).
  assert (Hnd3 : NoDup (keys rf3)).
  { unfold rf3.
    destruct issues, (Py.mem 22 ports), (Py.mem 2375 ports),
      (Py.mem 2376 ports); repeat apply keys_set_NoDup; constructor. }
  assert (Hk3 : forall k, In k (keys rf3) -> In k ["docker"; "ssh"; "tls"]).
  { intros k. unfold rf3.
    destruct issues, (Py.mem 22 ports), (Py.mem 2375 ports),
      (Py.mem 2376 ports); simpl; tauto. }
  split.
  - destruct (Expected.nonempty _);
      [apply keys_set_NoDup|]; now apply vuln_keys_NoDup.
  - intros k Hk.
    assert (Hv : In k (keys rf3) \/ k = "database" \/
                 exists e,
                   In e (get_default (ScanData.vulns d) []) /\
                   k = ("vuln_" ++ fst e)%string).
    { destruct (Expected.nonempty _).
      - apply keys_set in Hk as [->|Hk]; [auto|].
        apply vuln_keys in Hk. tauto.
      - apply vuln_keys in Hk. tauto. }
    destruct Hv as [H|[->|H]]; [|simpl; tauto|now right].
    left. apply Hk3 in H. simpl in *. tauto.
Qed.

Lemma vuln_key_inj (a b : string) :
  ("vuln_" ++ a)%string = ("vuln_" ++ b)%string -> a = b.
Proof. simpl. intros H. now injection H. Qed.

Lemma vuln_fold_other (vulns : Py.dict string) (rf : Py.dict string)
  (k : string) :
  (forall e, In e vulns -> k <> ("vuln_" ++ fst e)%string) ->
  Py.get k (fold_left
              (fun acc e =>
                 Py.set ("vuln_" ++ fst e)%string
                   (DefaultScorer._assess_vuln_severity (fst e) (snd e))
                   acc)
              vulns rf) = Py.get k rf.
Proof.
  revert rf. induction vulns as [|e t IH]; intros rf Hne; cbn [fold_left].
  - reflexivity.
  - rewrite IH by (intros e' He'; apply Hne; now right).
    apply get_set_other. apply Hne. now left.
Qed.

Lemma vuln_fold_get (vulns : Py.dict string) (rf : Py.dict string)
  (vuln_id vuln_desc : string) :
  NoDup (keys vulns) ->
  In (vuln_id, vuln_desc) vulns ->
  Py.get ("vuln_" ++ vuln_id)%string
    (fold_left
       (fun acc e =>
          Py.set ("vuln_" ++ fst e)%string
            (DefaultScorer._assess_vuln_severity (fst e) (snd e)) acc)
       vulns rf)
  = Some (DefaultScorer._assess_vuln_severity vuln_id vuln_desc).
Proof.
  revert rf. induction vulns as [|e t IH]; intros rf Hnd Hin; [easy|].
  cbn [fold_left]. unfold keys in Hnd. simpl in Hnd.
  inversion Hnd as [|? ? Hnin Ht]; subst.
  destruct Hin as [->|Hin].
  - cbn [fst snd]. rewrite vuln_fold_other; [apply get_set_same|].
    intros e' He' Heq. apply vuln_key_inj in Heq.
    apply Hnin. cbn [fst]. rewrite Heq. now apply in_map.
  - now apply IH.
Qed.

(** X5: when the ids of [vulns] are distinct (as the keys of a dictionary
    are), [risk_factors] maps [vuln_<id>] to the severity of that entry,
    for every entry. *)
Theorem vuln_risk_factor_recorded (self : Scorer.t) (now : string)
  (d : ScanData.t) :
  NoDup (keys (get_default (ScanData.vulns d) [])) ->
  exists r m,
    DefaultScorer.score self now d = Py.Ok r /\
    metrics_of r = Some m /\
    forall vuln_id vuln_desc,
      In (vuln_id, vuln_desc) (get_default (ScanData.vulns d) []) ->
      Py.get ("vuln_" ++ vuln_id)%string (Metrics.risk_factors m) =
      Some (DefaultScorer._assess_vuln_severity vuln_id vuln_desc).
Proof.
  intros Hnd.
  destruct (run_rules_expected self d)
    as (issues & st & _ & Hrun & _ & _ & _ & _ & Hrf & _).
  unfold DefaultScorer.score. rewrite Hrun. cbn [Py.bind].
  eexists _, _. split; [reflexivity|]. split; [reflexivity|].
  intros vuln_id vuln_desc Hin.
  rewrite Hrf. unfold expected_risk_factors. cbv zeta.
  destruct (Expected.nonempty _).
  - rewrite get_set_other by (simpl; discriminate).
    now apply vuln_fold_get.
  - now apply vuln_fold_get.
Qed.

(** X5 on two entries. *)
Lemma vuln_risk_factor_recorded_witness :
  exists r m,
    DefaultScorer.score DefaultScorer.init "2025-01-01T00:00:00"
      (ScanData.make (Some "10.0.0.1") (Some [443]) None
         (Some [("CVE-1", "Remote Code Execution");
                ("CVE-2", "minor XSS issue")]) None) = Py.Ok r /\
    metrics_of r = Some m /\
    Py.get "vuln_CVE-2" (Metrics.risk_factors m) = Some "MEDIUM".
Proof.
  destruct (vuln_risk_factor_recorded DefaultScorer.init
              "2025-01-01T00:00:00"
              (ScanData.make (Some "10.0.0.1") (Some [443]) None
                 (Some [("CVE-1", "Remote Code Execution");
                        ("CVE-2", "minor XSS issue")]) None))
    as (r & m & Hr & Hm & Hget).
  - repeat constructor; simpl; intuition discriminate.
  - exists r, m. split; [exact Hr|]. split; [exact Hm|].
    apply (Hget "CVE-2" "minor XSS issue"). right. now left.
Defined.

(** ** TLS: either a finding or a grade *)

Lemma tls_flag_only_from_tls (ports : list Z) (vulns : Py.dict string) :
  ~ In "TLS configuration critical issues"
      (Expected.flags ports false vulns).
Proof.
  unfold Expected.flags, Expected.docker_flags, Expected.ssh_flags,
    Expected.ssh_alt_flags, Expected.tls_flags, Expected.db_flags,
    Expected.port_flags, Expected.vuln_flags.
  rewrite !in_app_iff, in_map_iff.
  intros [H|[H|[H|[H|[H|[H|H]]]]]].
  - destruct (Py.mem 2375 ports); [|destruct (Py.mem 2376 ports)];
      simpl in H; intuition discriminate.
  - destruct (Py.mem 22 ports); simpl in H; intuition discriminate.
  - destruct (Expected.nonempty _); simpl in H; intuition discriminate.
  - destruct H.
  - destruct H as (e & He & _). unfold VulnSpec.flag in He. discriminate.
  - destruct (Expected.nonempty _); simpl in H; intuition discriminate.
  - destruct (5 <? Py.len ports); simpl in H; intuition discriminate.
Qed.

Lemma tls_risk_factor (ports : list Z) (issues : bool)
  (vulns : Py.dict string) :
  Py.get "tls" (expected_risk_factors ports issues vulns) =
  if issues then Some "CRITICAL" else None.
Proof.
  unfold expected_risk_factors. cbv zeta.
  assert (Hfold : forall rf,
             Py.get "tls"
               (fold_left
                  (fun acc e =>
                     Py.set ("vuln_" ++ fst e)%string
                       (DefaultScorer._assess_vuln_severity (fst e) (snd e))
                       acc) vulns rf) = Py.get "tls" rf).
  { intros rf. apply vuln_fold_other. intros e _. simpl. discriminate. }
  destruct (Expected.nonempty _);
    [rewrite get_set_other by discriminate|]; rewrite Hfold;
    destruct issues, (Py.mem 22 ports), (Py.mem 2375 ports),
      (Py.mem 2376 ports); reflexivity.
Qed.

(** X6: the baseline report carries either a TLS finding or a TLS grade,
    never both: when the TLS condition finds an issue, the flag and the
    risk factor [tls = CRITICAL] are there and [tls_grade] is not;
    otherwise [tls_grade] is A, B or C and neither flag nor risk factor
    is there. *)
Theorem tls_finding_or_grade (self : Scorer.t) (now : string)
  (d : ScanData.t) :
  exists issues r m fl,
    DefaultScorer.tls_has_issues (get_default (ScanData.tls d) (Some []))
    = Py.Ok issues /\
    DefaultScorer.score self now d = Py.Ok r /\
    metrics_of r = Some m /\
    flags_of r = Some fl /\
    if issues
    then Metrics.tls_grade m = None /\
         Py.get "tls" (Metrics.risk_factors m) = Some "CRITICAL" /\
         In "TLS configuration critical issues" fl
    else (exists g, Metrics.tls_grade m = Some g /\ In g ["A"; "B"; "C"]) /\
         Py.get "tls" (Metrics.risk_factors m) = None /\
         ~ In "TLS configuration critical issues" fl.
Proof.
  destruct (run_rules_expected self d)
    as (issues & st & Hi & Hrun & Hf & _ & _ & _ & Hrf & _ & Ht).
  exists issues. unfold DefaultScorer.score. rewrite Hrun. cbn [Py.bind].
  eexists _, _, _. split; [exact Hi|]. split; [reflexivity|].
  split; [reflexivity|]. split; [reflexivity|].
  rewrite Hrf, tls_risk_factor, Hf.
  destruct issues.
  - split; [exact Ht|]. split; [reflexivity|].
    unfold Expected.flags, Expected.tls_flags. rewrite !in_app_iff.
    do 3 right. left. now left.
  - split; [exact Ht|]. split; [reflexivity|].
    apply tls_flag_only_from_tls.
Qed.

(** ** The compliance score *)

Lemma contains_has_char (c : ascii) (t s : string) :
  Py.contains (String c t) s = true -> has_char c s = true.
Proof.
  induction s as [|c' s' IH]; simpl.
  - discriminate.
  - destruct (ascii_dec c c') as [->|Hne].
    + now rewrite Ascii.eqb_refl.
    + simpl. intros H. rewrite (IH H). apply orb_true_r.
Qed.

Lemma has_char_app (c : ascii) (a b : string) :
  has_char c (a ++ b)%string = has_char c a || has_char c b.
Proof.
  induction a as [|c' a' IH]; simpl; [reflexivity|].
  now rewrite IH, orb_assoc.
Qed.

Lemma no_C_in_uint (u : Decimal.uint) :
  has_char "C" (NilEmpty.string_of_uint u) = false.
Proof. induction u; simpl; assumption || reflexivity. Qed.

Lemma no_C_in_int (z : Z) : has_char "C" (Py.str_of_int z) = false.
Proof.
  unfold Py.str_of_int, NilZero.string_of_int, NilZero.string_of_uint.
  destruct (Z.to_int z) as [u|u]; destruct u; simpl;
    try reflexivity; apply no_C_in_uint.
Qed.

Lemma no_C_in_int_list (l : list Z) :
  has_char "C" (Py.repr_int_list l) = false.
Proof.
  unfold Py.repr_int_list. rewrite !has_char_app. simpl.
  rewrite orb_false_r.
  induction l as [|z t IH]; [reflexivity|].
  cbn [map String.concat].
  destruct (map Py.str_of_int t) eqn:E.
  - apply no_C_in_int.
  - rewrite !has_char_app, no_C_in_int, IH. reflexivity.
Qed.

Lemma not_critical (s : string) :
  has_char "C" s = false -> Py.contains "CRITICAL" s = false.
Proof.
  intros H. destruct (Py.contains "CRITICAL" s) eqn:E; [|reflexivity].
  apply contains_has_char in E. congruence.
Qed.

Lemma critical_flag_count (ports : list Z) (issues : bool)
  (vulns : Py.dict string) :
  Py.len (filter (fun f => Py.contains "CRITICAL" f)
            (Expected.flags ports issues vulns)) =
  Expected.critical_flags ports vulns.
Proof.
  unfold Expected.flags, Expected.critical_flags, Py.len.
  rewrite !filter_app, !length_app, !Nat2Z.inj_add.
  assert (H1 : Z.of_nat (List.length
                 (filter (fun f => Py.contains "CRITICAL" f)
                    (Expected.docker_flags ports))) =
               if Py.mem 2375 ports then 1 else 0).
  { unfold Expected.docker_flags.
    destruct (Py.mem 2375 ports); [|destruct (Py.mem 2376 ports)];
      reflexivity. }
  assert (H2 : filter (fun f => Py.contains "CRITICAL" f)
                 (Expected.ssh_flags ports) = []).
  { unfold Expected.ssh_flags. destruct (Py.mem 22 ports); reflexivity. }
  assert (H3 : filter (fun f => Py.contains "CRITICAL" f)
                 (Expected.ssh_alt_flags ports) = []).
  { unfold Expected.ssh_alt_flags.
    destruct (Expected.nonempty _); [|reflexivity].
    cbn [filter]. rewrite not_critical; [reflexivity|].
    rewrite has_char_app, no_C_in_int_list. reflexivity. }
  assert (H4 : filter (fun f => Py.contains "CRITICAL" f)
                 (Expected.tls_flags issues) = []).
  { destruct issues; reflexivity. }
  assert (H6 : Z.of_nat (List.length
                 (filter (fun f => Py.contains "CRITICAL" f)
                    (Expected.db_flags ports))) =
               if Expected.nonempty (Expected.db_ports ports)
               then 1 else 0).
  { unfold Expected.db_flags.
    destruct (Expected.nonempty _); reflexivity. }
  assert (H7 : filter (fun f => Py.contains "CRITICAL" f)
                 (Expected.port_flags ports) = []).
  { unfold Expected.port_flags.
    destruct (5 <? Py.len ports); [|reflexivity].
    cbn [filter]. rewrite not_critical; [reflexivity|].
    rewrite !has_char_app, no_C_in_int. reflexivity. }
  rewrite H1, H2, H3, H4, H6, H7. cbn [List.length]. lia.
Qed.

(** X7: the compliance score of the baseline report is
    [max(0, 100 - 25 * n)], where [n] counts one for port 2375, one for any
    open database port and one for every vulnerability flag that contains
    the text CRITICAL.  The TLS, SSH, alternative-SSH, Docker-TLS and
    port-count findings never lower it. *)
Theorem compliance_score_formula (self : Scorer.t) (now : string)
  (d : ScanData.t) :
  exists r m,
    DefaultScorer.score self now d = Py.Ok r /\
    metrics_of r = Some m /\
    Metrics.compliance_score m =
    Z.max 0
      (100 - 25 * Expected.critical_flags
                    (get_default (ScanData.open_ports d) [])
                    (get_default (ScanData.vulns d) [])) /\
    0 <= Metrics.compliance_score m <= 100.
Proof.
  destruct (run_rules_expected self d)
    as (issues & st & _ & Hrun & _ & _ & _ & _ & _ & Hc & _).
  unfold DefaultScorer.score. rewrite Hrun. cbn [Py.bind].
  eexists _, _. split; [reflexivity|]. split; [reflexivity|].
  rewrite Hc, critical_flag_count.
  assert (0 <= Expected.critical_flags
                 (get_default (ScanData.open_ports d) [])
                 (get_default (ScanData.vulns d) [])).
  { unfold Expected.critical_flags, Py.len.
    destruct (Py.mem 2375 _), (Expected.nonempty _); lia. }
  split; [f_equal; lia | lia].
Qed.

(** ** Severity does not depend on letter case *)

Lemma lower_app (a b : string) :
  Py.lower (a ++ b)%string = (Py.lower a ++ Py.lower b)%string.
Proof.
  induction a as [|c a' IH]; simpl; [reflexivity|]. now rewrite IH.
Qed.

(** X8: two vulnerability entries whose ids and whose descriptions agree
    up to letter case get the same severity. *)
Theorem severity_ignores_case (id1 desc1 id2 desc2 : string) :
  Py.lower id1 = Py.lower id2 ->
  Py.lower desc1 = Py.lower desc2 ->
  DefaultScorer._assess_vuln_severity id1 desc1 =
  DefaultScorer._assess_vuln_severity id2 desc2.
Proof.
  intros Hid Hdesc. unfold DefaultScorer._assess_vuln_severity.
  cbv zeta. rewrite !lower_app, Hid, Hdesc. reflexivity.
Qed.

(** X8 on an upper-case and a lower-case spelling. *)
Lemma severity_ignores_case_witness :
  DefaultScorer._assess_vuln_severity "CVE-7" "BUFFER OVERFLOW in parser" =
  DefaultScorer._assess_vuln_severity "cve-7" "buffer overflow in PARSER".
Proof.
  apply severity_ignores_case; reflexivity.
Defined.

(** ** The geographic risk *)

Lemma geo_table :
  forallb geo_check (map Z.of_nat (seq 0 100)) = true.
Proof. vm_compute. reflexivity. Qed.

Lemma geo_check_all (k : Z) : 0 <= k < 100 -> geo_check k = true.
Proof.
  intros Hk. pose proof geo_table as H.
  rewrite forallb_forall in H. apply H.
  apply in_map_iff. exists (Z.to_nat k). split; [lia|].
  apply in_seq. lia.
Qed.

(** X9: the geographic risk is a float in [0, 1).  It exceeds 0.7, the
    threshold of the geographic rule, exactly when the address has none of
    the prefixes 192.168., 10., 172. and 127., and the first eight hex
    digits of its MD5, read as a number, are at least 71 modulo 100 (0.70
    itself does not exceed the threshold). *)
Theorem geographic_risk_threshold (ip : string) :
  exists g h,
    AdvancedScorer._assess_geographic_risk ip = Py.Ok (Py.Float g) /\
    Py.int16 (String.substring 0 8 (Hashlib.md5_hexdigest ip)) = Py.Ok h /\
    Py.le (Py.Float (S754_zero false)) (Py.Float g) = true /\
    Py.lt (Py.Float g) (Py.Int 1) = true /\
    Py.gt (Py.Float g) (Py.Float (Py.literal 7 10)) =
    negb (private_prefix ip) && negb (Py.startswith ip "127.")
    && (71 <=? h mod 100).
Proof.
  destruct (md5_prefix_parses ip) as [h Hh].
  unfold AdvancedScorer._assess_geographic_risk. fold (private_prefix ip).
  destruct (private_prefix ip).
  - eexists _, h. repeat split; try reflexivity; assumption.
  - destruct (Py.startswith ip "127.").
    + eexists _, h. repeat split; try reflexivity; assumption.
    + rewrite Hh. cbn [Py.bind]. unfold Py.truediv.
      replace (Py.is_zero (Py.float_of_int 100)) with false by reflexivity.
      cbn [Py.to_float].
      assert (Hk : 0 <= h mod 100 < 100) by (apply Z.mod_pos_bound; lia).
      pose proof (geo_check_all _ Hk) as Hc. unfold geo_check in Hc.
      cbv zeta in Hc. apply andb_true_iff in Hc as [Hc Hgt].
      apply andb_true_iff in Hc as [Hle Hlt].
      apply Bool.eqb_prop in Hgt.
      eexists _, h. split; [reflexivity|]. split; [reflexivity|].
      split; [exact Hle|]. split; [exact Hlt|]. exact Hgt.
Qed.

(** ** The ML adjustment and its risk label *)

(** X10: the ML adjustment lies between -45 and 5, at most three ML flags
    are added, and the ML risk label depends on the three penalty triggers
    only: LOW when none fired, MODERATE when only the geographic rule
    fired, HIGH when only the suspicious-port rule or only the anomaly rule
    fired, CRITICAL when at least two fired.  The bonus never changes the
    label. *)
Theorem ml_risk_label (self : Scorer.t) (d : ScanData.t) :
  exists geo best ml,
    AdvancedScorer._assess_geographic_risk (get_default (ScanData.ip d) "")
    = Py.Ok geo /\
    AdvancedScorer._detect_security_best_practices d = Py.Ok best /\
    AdvancedScorer._apply_ml_analysis self d = Py.Ok ml /\
    -45 <= MlAnalysis.score_adjustment ml <= 5 /\
    Py.len (MlAnalysis.ml_flags ml) <= 3 /\
    MlAnalysis.ml_risk_level ml =
    expected_ml_risk
      (AdvancedScorer._is_suspicious_port_pattern
         (get_default (ScanData.open_ports d) []))
      (Py.gt geo (Py.Float (Py.literal 7 10)))
      (AdvancedScorer._detect_behavioral_anomaly d).
Proof.
  destruct (ml_analysis_char self d) as (geo & best & Hgeo & Hbest & Hml).
  cbv zeta in Hml.
  eexists geo, best, _. split; [exact Hgeo|]. split; [exact Hbest|].
  split; [exact Hml|].
  cbn [MlAnalysis.score_adjustment MlAnalysis.ml_flags
       MlAnalysis.ml_risk_level].
  destruct best.
  - destruct (bonus_excludes_penalties d Hbest) as [-> ->].
    destruct (Py.gt geo _); vm_compute; intuition discriminate.
  - destruct (AdvancedScorer._is_suspicious_port_pattern _),
      (Py.gt geo _), (AdvancedScorer._detect_behavioral_anomaly d);
      vm_compute; intuition discriminate.
Qed.

(** ** The order of [open_ports] *)

Section PortOrder.
Variables ports ports' : list Z.
Hypothesis same_ports : Permutation ports ports'.

Lemma perm_mem (x : Z) : Py.mem x ports = Py.mem x ports'.
Proof.
  destruct (Py.mem x ports') eqn:E.
  - apply mem_In. apply mem_In in E.
    now apply (Permutation_in _ (Permutation_sym same_ports)).
  - destruct (Py.mem x ports) eqn:E'; [|reflexivity].
    apply mem_In in E'. apply (Permutation_in _ same_ports) in E'.
    apply mem_In in E'. congruence.
Qed.

Lemma perm_len : Py.len ports = Py.len ports'.
Proof. unfold Py.len. now rewrite (Permutation_length same_ports). Qed.

Lemma nonempty_filter (f : Z -> bool) (l : list Z) :
  Expected.nonempty (filter f l) = existsb f l.
Proof.
  induction l as [|x t IH]; simpl; [reflexivity|].
  destruct (f x); simpl; [reflexivity|assumption].
Qed.

Lemma perm_existsb (f : Z -> bool) : existsb f ports = existsb f ports'.
Proof.
  destruct (existsb f ports') eqn:E.
  - apply existsb_exists in E as (x & Hx & Hf). apply existsb_exists.
    exists x. split; [|assumption].
    now apply (Permutation_in _ (Permutation_sym same_ports)).
  - destruct (existsb f ports) eqn:E'; [|reflexivity].
    apply existsb_exists in E' as (x & Hx & Hf).
    assert (existsb f ports' = true).
    { apply existsb_exists. exists x. split; [|assumption].
      now apply (Permutation_in _ same_ports). }
    congruence.
Qed.

Lemma perm_db : Expected.nonempty (Expected.db_ports ports) =
                Expected.nonempty (Expected.db_ports ports').
Proof.
  unfold Expected.db_ports. rewrite !nonempty_filter. apply perm_existsb.
Qed.

Lemma perm_ssh_alt : Expected.nonempty (Expected.ssh_alt_ports ports) =
                     Expected.nonempty (Expected.ssh_alt_ports ports').
Proof.
  unfold Expected.ssh_alt_ports. rewrite !nonempty_filter.
  apply perm_existsb.
Qed.

Lemma perm_expected_score (self : Scorer.t) (issues : bool)
  (vulns : Py.dict string) :
  expected_score self ports issues vulns =
  expected_score self ports' issues vulns.
Proof.
  unfold expected_score, Expected.docker_penalty, Expected.ssh_penalty,
    Expected.ssh_alt_penalty.
  now rewrite !perm_mem, perm_ssh_alt, perm_db, perm_len.
Qed.

Lemma perm_risk_factors (issues : bool) (vulns : Py.dict string) :
  expected_risk_factors ports issues vulns =
  expected_risk_factors ports' issues vulns.
Proof.
  unfold expected_risk_factors. now rewrite !perm_mem, perm_db.
Qed.

Lemma perm_suspicious :
  AdvancedScorer._is_suspicious_port_pattern ports =
  AdvancedScorer._is_suspicious_port_pattern ports'.
Proof.
  unfold AdvancedScorer._is_suspicious_port_pattern.
  cbn [existsb forallb AdvancedScorer.attack_patterns].
  now rewrite !perm_mem, perm_len.
Qed.

End PortOrder.

Lemma risk_depends_on_grade (s : Py.num) (m m' : Metrics.t) :
  Metrics.security_grade m = Metrics.security_grade m' ->
  DefaultScorer._calculate_pgdn_risk s m =
  DefaultScorer._calculate_pgdn_risk s m'.
Proof.
  intros H. unfold DefaultScorer._calculate_pgdn_risk. now rewrite H.
Qed.

(** X11: listing the same open ports in another order changes neither the
    baseline score, risk level, grade, risk factors and compliance score,
    nor the ML bundle, nor the enhanced score (only the port lists printed
    inside two flags follow the input order). *)
Theorem port_order_is_irrelevant (self : Scorer.t) (now : string)
  (d : ScanData.t) (ports ports' : list Z) :
  Permutation ports ports' ->
  exists r r' m m' a a',
    DefaultScorer.score self now (with_ports ports d) = Py.Ok r /\
    DefaultScorer.score self now (with_ports ports' d) = Py.Ok r' /\
    score_of r = score_of r' /\
    risk_level_of r = risk_level_of r' /\
    metrics_of r = Some m /\
    metrics_of r' = Some m' /\
    Metrics.security_grade m = Metrics.security_grade m' /\
    Metrics.risk_factors m = Metrics.risk_factors m' /\
    Metrics.compliance_score m = Metrics.compliance_score m' /\
    AdvancedScorer._apply_ml_analysis self (with_ports ports d) =
    AdvancedScorer._apply_ml_analysis self (with_ports ports' d) /\
    AdvancedScorer.score self now (with_ports ports d) = Py.Ok a /\
    AdvancedScorer.score self now (with_ports ports' d) = Py.Ok a' /\
    score_of a = score_of a'.
Proof.
  intros Hperm.
  destruct (run_rules_expected self (with_ports ports d))
    as (issues & st & Hi & Hrun & _ & Hs & _ & Hg & Hrf & Hc & _).
  destruct (run_rules_expected self (with_ports ports' d))
    as (issues' & st' & Hi' & Hrun' & _ & Hs' & _ & Hg' & Hrf' & Hc' & _).
  cbn [with_ports with_open_ports ScanData.open_ports ScanData.tls
       ScanData.vulns get_default] in *.
  rewrite Hi in Hi'. injection Hi' as <-.
  assert (Escore : Locals.score st = Locals.score st').
  { rewrite Hs, Hs'. now apply perm_expected_score. }
  assert (Egrade : Metrics.security_grade (Locals.pgdn_metrics st) =
                   Metrics.security_grade (Locals.pgdn_metrics st')).
  { rewrite Hg, Hg'. unfold Expected.grade.
    now rewrite (perm_mem _ _ Hperm), (perm_db _ _ Hperm). }
  assert (Eml : AdvancedScorer._apply_ml_analysis self (with_ports ports d) =
                AdvancedScorer._apply_ml_analysis self (with_ports ports' d)).
  { unfold AdvancedScorer._apply_ml_analysis,
      AdvancedScorer._detect_behavioral_anomaly,
      AdvancedScorer._detect_security_best_practices.
    cbn [with_ports with_open_ports ScanData.open_ports ScanData.tls
         ScanData.ip get_default existsb].
    now rewrite (perm_suspicious _ _ Hperm), !(perm_mem _ _ Hperm),
      (perm_len _ _ Hperm). }
  destruct (advanced_score_char self now (with_ports ports d))
    as (st0 & ml & Hst0 & Hml & Hadv).
  destruct (advanced_score_char self now (with_ports ports' d))
    as (st0' & ml' & Hst0' & Hml' & Hadv').
  rewrite Hrun in Hst0. injection Hst0 as <-.
  rewrite Hrun' in Hst0'. injection Hst0' as <-.
  rewrite Eml, Hml' in Hml. injection Hml as <-.
  unfold DefaultScorer.score. rewrite Hrun, Hrun'. cbn [Py.bind].
  eexists _, _, _, _, _, _.
  split; [reflexivity|]. split; [reflexivity|].
  split; [unfold score_of; cbn; now rewrite Escore|].
  split.
  { unfold risk_level_of. cbn. rewrite Escore.
    now rewrite (risk_depends_on_grade _ _ _ Egrade). }
  split; [reflexivity|]. split; [reflexivity|].
  split; [exact Egrade|].
  split; [rewrite Hrf, Hrf'; now apply perm_risk_factors|].
  split.
  { rewrite Hc, Hc', !critical_flag_count. unfold Expected.critical_flags.
    now rewrite (perm_mem _ _ Hperm), (perm_db _ _ Hperm). }
  split; [exact Eml|].
  split; [exact Hadv|]. split; [exact Hadv'|].
  rewrite !score_of_update. now rewrite Escore.
Qed.

(** X11 on a list and its reverse. *)
Lemma port_order_is_irrelevant_witness :
  AdvancedScorer._apply_ml_analysis AdvancedScorer.init
    (with_ports [22; 3306; 80; 2375]
       (ScanData.make (Some "10.0.0.1") None None None None)) =
  AdvancedScorer._apply_ml_analysis AdvancedScorer.init
    (with_ports [2375; 80; 3306; 22]
       (ScanData.make (Some "10.0.0.1") None None None None)).
Proof.
  destruct (port_order_is_irrelevant AdvancedScorer.init
              "2025-01-01T00:00:00"
              (ScanData.make (Some "10.0.0.1") None None None None)
              [22; 3306; 80; 2375] [2375; 80; 3306; 22])
    as (r & r' & m & m' & a & a' & _ & _ & _ & _ & _ & _ & _ & _ & _ & Hml
        & _).
  - change [2375; 80; 3306; 22] with (List.rev [22; 3306; 80; 2375]).
    apply Permutation_rev.
  - exact Hml.
Defined.

(** ** More ports never clear a verdict *)

Lemma mem_incl (x : Z) (ports ports' : list Z) :
  incl ports ports' -> Py.mem x ports = true -> Py.mem x ports' = true.
Proof.
  intros Hincl H. apply mem_In. apply Hincl. now apply mem_In.
Qed.

(** X12: if every port of one list is in another and the other is at
    least as long, a suspicious-port verdict and a behavioral-anomaly
    verdict on the first carry over to the second. *)
Theorem verdicts_are_monotone (d : ScanData.t) (ports ports' : list Z) :
  incl ports ports' ->
  Py.len ports <= Py.len ports' ->
  (AdvancedScorer._is_suspicious_port_pattern ports = true ->
   AdvancedScorer._is_suspicious_port_pattern ports' = true) /\
  (AdvancedScorer._detect_behavioral_anomaly (with_ports ports d) = true ->
   AdvancedScorer._detect_behavioral_anomaly (with_ports ports' d) = true).
Proof.
  intros Hincl Hlen. split.
  - unfold AdvancedScorer._is_suspicious_port_pattern.
    destruct (10 <? Py.len ports) eqn:E.
    + apply Z.ltb_lt in E. intros _.
      replace (10 <? Py.len ports') with true
        by (symmetry; apply Z.ltb_lt; lia).
      reflexivity.
    + intros H. destruct (10 <? Py.len ports'); [reflexivity|].
      apply existsb_exists in H as (pattern & Hp & Hall).
      apply existsb_exists. exists pattern. split; [assumption|].
      rewrite forallb_forall in *. intros x Hx.
      apply (mem_incl _ _ _ Hincl). now apply Hall.
  - unfold AdvancedScorer._detect_behavioral_anomaly.
    cbn [with_ports with_open_ports ScanData.open_ports get_default].
    assert (Hex : forall l,
               existsb (fun port => Py.mem port ports) l = true ->
               existsb (fun port => Py.mem port ports') l = true).
    { intros l H. apply existsb_exists in H as (x & Hx & Hm).
      apply existsb_exists. exists x. split; [assumption|].
      now apply (mem_incl _ _ _ Hincl). }
    destruct (Py.mem 22 ports) eqn:H22; [|discriminate].
    destruct (existsb _ [3306; 5432; 27017]) eqn:Hdb; [|discriminate].
    destruct (existsb _ [80; 443]) eqn:Hweb; [|discriminate].
    destruct (Py.mem 2375 ports) eqn:H75; [|discriminate].
    intros _.
    now rewrite (mem_incl _ _ _ Hincl H22), (Hex _ Hdb), (Hex _ Hweb),
      (mem_incl _ _ _ Hincl H75).
Qed.

(** X12 on the database pattern and one more port. *)
Lemma verdicts_are_monotone_witness :
  AdvancedScorer._is_suspicious_port_pattern [443; 3306; 5432; 27017] = true.
Proof.
  apply (proj1 (verdicts_are_monotone
                  (ScanData.make None None None None None)
                  [3306; 5432; 27017] [443; 3306; 5432; 27017]
                  (fun x H => or_intror H)
                  ltac:(vm_compute; discriminate))).
  reflexivity.
Defined.

(** ** A behavioral anomaly and the baseline *)

Lemma anomaly_ports (d : ScanData.t) :
  AdvancedScorer._detect_behavioral_anomaly d = true ->
  let ports := get_default (ScanData.open_ports d) [] in
  Py.mem 22 ports = true /\ Py.mem 2375 ports = true /\
  Expected.nonempty (Expected.db_ports ports) = true.
Proof.
  unfold AdvancedScorer._detect_behavioral_anomaly. cbv zeta.
  set (ports := get_default (ScanData.open_ports d) []).
  destruct (Py.mem 22 ports); [|discriminate].
  destruct (existsb _ [3306; 5432; 27017]) eqn:Hdb; [|discriminate].
  destruct (existsb _ [80; 443]); [|discriminate].
  destruct (Py.mem 2375 ports); [|discriminate].
  intros _. split; [reflexivity|]. split; [reflexivity|].
  unfold Expected.db_ports. rewrite nonempty_filter.
  apply existsb_exists in Hdb as (x & Hx & Hm).
  apply existsb_exists. exists x. split; [now apply mem_In|].
  simpl in Hx. destruct Hx as [<-|[<-|[<-|[]]]]; reflexivity.
Qed.

(** X13: whenever the behavioral-anomaly rule fires, the baseline has
    already flagged the exposed Docker socket, the SSH port and the
    database ports on the same record; its grade is F and its compliance
    score is at most 50. *)
Theorem anomaly_implies_baseline_findings (self : Scorer.t) (now : string)
  (d : ScanData.t) :
  AdvancedScorer._detect_behavioral_anomaly d = true ->
  exists r m fl,
    DefaultScorer.score self now d = Py.Ok r /\
    metrics_of r = Some m /\
    flags_of r = Some fl /\
    In "CRITICAL: Docker socket exposed (unencrypted)" fl /\
    In "SSH port exposed" fl /\
    In ("CRITICAL: Database ports exposed: "
          ++ Py.repr_int_list
               (Expected.db_ports (get_default (ScanData.open_ports d) [])))
         %string fl /\
    Metrics.security_grade m = "F" /\
    Metrics.compliance_score m <= 50.
Proof.
  intros Hanom. destruct (anomaly_ports d Hanom) as (H22 & H75 & Hdb).
  destruct (run_rules_expected self d)
    as (issues & st & _ & Hrun & Hf & _ & _ & Hg & _ & Hc & _).
  unfold DefaultScorer.score. rewrite Hrun. cbn [Py.bind].
  eexists _, _, _. split; [reflexivity|]. split; [reflexivity|].
  split; [reflexivity|]. rewrite Hf, Hg, Hc, critical_flag_count.
  unfold Expected.flags, Expected.docker_flags, Expected.ssh_flags,
    Expected.db_flags, Expected.grade, Expected.critical_flags.
  rewrite H22, H75, Hdb. rewrite !in_app_iff.
  split; [left; now left|]. split; [right; left; now left|].
  split; [do 5 right; left; now left|]. split; [reflexivity|].
  unfold Py.len. lia.
Qed.

(** X13 on a record with ports 22, 3306, 80 and 2375. *)
Lemma anomaly_implies_baseline_findings_witness :
  exists r m,
    DefaultScorer.score DefaultScorer.init "2025-01-01T00:00:00"
      (ScanData.make (Some "10.0.0.1") (Some [22; 3306; 80; 2375])
         None None None) = Py.Ok r /\
    metrics_of r = Some m /\
    Metrics.security_grade m = "F".
Proof.
  destruct (anomaly_implies_baseline_findings DefaultScorer.init
              "2025-01-01T00:00:00"
              (ScanData.make (Some "10.0.0.1") (Some [22; 3306; 80; 2375])
                 None None None))
    as (r & m & fl & Hr & Hm & _ & _ & _ & _ & Hg & _).
  - reflexivity.
  - exists r, m. split; [exact Hr|]. split; [exact Hm|exact Hg].
Defined.

(** ** The version written into the metrics *)

(** X14: the metrics of an [AdvancedScorer] report are those of a
    [DefaultScorer] report on the same record with [scorer_version]
    "2.0.0-advanced" instead of "1.0.0"; no other metric and not the risk
    level differ. *)
Theorem advanced_metrics_carry_own_version (now : string) (d : ScanData.t) :
  exists plain adv mp ma,
    DefaultScorer.score DefaultScorer.init now d = Py.Ok plain /\
    AdvancedScorer.score AdvancedScorer.init now d = Py.Ok adv /\
    metrics_of plain = Some mp /\
    metrics_of adv = Some ma /\
    Metrics.scorer_version mp = "1.0.0" /\
    Metrics.scorer_version ma = "2.0.0-advanced" /\
    ma = set_scorer_version "2.0.0-advanced" mp /\
    risk_level_of adv = risk_level_of plain.
Proof.
  destruct (plain_and_super_baseline now d)
    as (st & plain & super & Hst & Hplain & Hsuper & _ & _ & _ & _ & Hrisk
        & Hmp & Hms).
  destruct (risk_level_passes_through AdvancedScorer.init now d)
    as (st' & super' & adv & _ & Hsuper' & Hadv & _ & Har & Ham).
  rewrite Hsuper in Hsuper'. injection Hsuper' as <-.
  exists plain, adv, (Locals.pgdn_metrics st),
    (set_scorer_version "2.0.0-advanced" (Locals.pgdn_metrics st)).
  split; [exact Hplain|]. split; [exact Hadv|]. split; [exact Hmp|].
  split; [now rewrite Ham|].
  split; [exact (run_rules_own_version _ _ _ Hst)|].
  split; [reflexivity|]. split; [reflexivity|].
  now rewrite Har.
Qed.

(** ** The risk level *)

Lemma ge_int (a b : Z) : Py.ge (Py.Int a) (Py.Int b) = (b <=? a).
Proof.
  unfold Py.ge. cbn [Py.cmp]. rewrite Z.leb_compare, (Z.compare_antisym a b).
  destruct (a ?= b); reflexivity.
Qed.

(** X15: MINIMAL and LOW are only reported for a record on which port
    2375 is closed, no database port is open and the TLS condition finds
    no issue; with any of these findings the level is MODERATE, HIGH or
    CRITICAL whatever the score. *)
Theorem low_risk_needs_top_grade (self : Scorer.t) (now : string)
  (d : ScanData.t) :
  exists issues r level,
    DefaultScorer.tls_has_issues (get_default (ScanData.tls d) (Some []))
    = Py.Ok issues /\
    DefaultScorer.score self now d = Py.Ok r /\
    risk_level_of r = Some level /\
    (In level ["MODERATE"; "HIGH"; "CRITICAL"] \/
     (In level ["MINIMAL"; "LOW"] /\
      Py.mem 2375 (get_default (ScanData.open_ports d) []) = false /\
      Expected.nonempty
        (Expected.db_ports (get_default (ScanData.open_ports d) []))
      = false /\
      issues = false)).
Proof.
  destruct (run_rules_expected self d)
    as (issues & st & Hi & Hrun & _ & _ & _ & Hg & _).
  exists issues. unfold DefaultScorer.score. rewrite Hrun. cbn [Py.bind].
  eexists _, _. split; [exact Hi|]. split; [reflexivity|].
  split; [reflexivity|].
  unfold DefaultScorer._calculate_pgdn_risk. rewrite Hg.
  unfold Expected.grade.
  destruct (Py.mem 2375 _), (Expected.nonempty _), issues;
    cbn [orb DefaultScorer.str_in existsb String.eqb Ascii.eqb Bool.eqb
         andb];
    rewrite ?andb_false_r;
    destruct (Py.ge (Locals.score st) (Py.Int 95)),
      (Py.ge (Locals.score st) (Py.Int 85)),
      (Py.ge (Locals.score st) (Py.Int 70)),
      (Py.ge (Locals.score st) (Py.Int 50));
    simpl; tauto.
Qed.

(** X16: for a fixed grade, a higher integer score never gives a worse
    risk level. *)
Theorem risk_level_is_monotone (m : Metrics.t) (z z' : Z) :
  z <= z' ->
  risk_rank (DefaultScorer._calculate_pgdn_risk (Py.Int z') m) <=
  risk_rank (DefaultScorer._calculate_pgdn_risk (Py.Int z) m).
Proof.
  intros Hle. unfold DefaultScorer._calculate_pgdn_risk.
  rewrite !ge_int.
  destruct (DefaultScorer.str_in _ ["A+"; "A"]),
    (DefaultScorer.str_in _ ["A+"; "A"; "B"]);
    destruct (95 <=? z) eqn:A, (85 <=? z) eqn:B, (70 <=? z) eqn:C,
      (50 <=? z) eqn:D, (95 <=? z') eqn:A', (85 <=? z') eqn:B',
      (70 <=? z') eqn:C', (50 <=? z') eqn:D';
    cbn [andb]; try (vm_compute; discriminate);
    rewrite ?Z.leb_le, ?Z.leb_gt in *; lia.
Qed.

(** X16 on the scores 60 and 90 with grade A+. *)
Lemma risk_level_is_monotone_witness :
  risk_rank (DefaultScorer._calculate_pgdn_risk (Py.Int 90)
               (Metrics.make "1.0.0" [] "A+" 100 None)) <=
  risk_rank (DefaultScorer._calculate_pgdn_risk (Py.Int 60)
               (Metrics.make "1.0.0" [] "A+" 100 None)).
Proof.
  apply risk_level_is_monotone. lia.
Defined.

(** ** How far the enhancement can move the score *)




(** ** The bonus and the baseline TLS rule *)

Lemma tls_issue_is_expiry_check (t : tls_info) (i : string) :
  Py.get "issuer" t = Some (Some i) ->
  Py.contains "Self-signed" i = false ->
  DefaultScorer.tls_has_issues (Some t) =
  Py.Ok (negb (str_truthy match Py.get "expiry" t with
                          | Some v => v
                          | None => None
                          end)).
Proof.
  intros Hget Hc. unfold DefaultScorer.tls_has_issues.
  destruct t as [|entry rest]; [discriminate|].
  cbn [tls_truthy negb tls_get Py.bind]. rewrite Hget.
  destruct (String.eqb i "Self-signed") eqn:E; [|reflexivity].
  apply String.eqb_eq in E. subst. discriminate.
Qed.

(** X18: when the best-practice bonus fires, the baseline TLS rule reduces
    to its expiry test: the report carries the TLS flag exactly when the
    [expiry] of the [tls] mapping is missing, [None] or empty.  Bonus and
    TLS finding can therefore occur on the same record. *)
Theorem bonus_leaves_expiry_check (self : Scorer.t) (now : string)
  (d : ScanData.t) :
  AdvancedScorer._detect_security_best_practices d = Py.Ok true ->
  exists t r fl,
    ScanData.tls d = Some (Some t) /\
    DefaultScorer.score self now d = Py.Ok r /\
    flags_of r = Some fl /\
    (In "TLS configuration critical issues" fl <->
     str_truthy match Py.get "expiry" t with
                | Some v => v
                | None => None
                end = false).
Proof.
  intros Hbest.
  apply best_practices_iff in Hbest
    as (_ & _ & (t & i & Ht & Hget & _ & Hc) & _).
  destruct (run_rules_expected self d)
    as (issues & st & Hi & Hrun & Hf & _).
  rewrite Ht in Hi. cbn [get_default] in Hi.
  rewrite (tls_issue_is_expiry_check t i Hget Hc) in Hi.
  injection Hi as Hi.
  exists t. unfold DefaultScorer.score. rewrite Hrun. cbn [Py.bind].
  eexists _, _. split; [exact Ht|]. split; [reflexivity|].
  split; [reflexivity|]. rewrite Hf, <- Hi.
  destruct (str_truthy _); cbn [negb]; split.
  - intros H. now apply tls_flag_only_from_tls in H.
  - discriminate.
  - reflexivity.
  - intros _. unfold Expected.flags, Expected.tls_flags.
    rewrite !in_app_iff. do 3 right. left. now left.
Qed.

(** X18 on a certificate without expiry: bonus and TLS flag together. *)
Lemma bonus_leaves_expiry_check_witness :
  exists r fl,
    DefaultScorer.score DefaultScorer.init "2025-01-01T00:00:00"
      (ScanData.make (Some "10.0.0.1") (Some [443])
         (Some (Some [("issuer", Some "DigiCert")])) (Some []) None)
    = Py.Ok r /\
    flags_of r = Some fl /\
    In "TLS configuration critical issues" fl.
Proof.
  destruct (bonus_leaves_expiry_check DefaultScorer.init
              "2025-01-01T00:00:00"
              (ScanData.make (Some "10.0.0.1") (Some [443])
                 (Some (Some [("issuer", Some "DigiCert")])) (Some []) None))
    as (t & r & fl & Ht & Hr & Hfl & Hiff).
  - reflexivity.
  - exists r, fl. split; [exact Hr|]. split; [exact Hfl|].
    apply Hiff. injection Ht as <-. reflexivity.
Defined.
